(** * Announcements endpoints of the Mergington High School API

    A shallow embedding of [src/backend/routers/announcements.py] and the
    properties of its five operations (list-active, list-all, create, update,
    delete).

    The router is written against three collaborators that live outside the
    file: Python's [datetime], [bson.ObjectId] and the pymongo collections
    [announcements_collection] and [teachers_collection].  The first two are
    kept abstract behind the [Platform] interface below, so that every theorem
    holds for whatever parser and identifier syntax the interpreter ships; the
    collections are modelled as lists of documents with the driver calls the
    router makes ([find], [sort], [find_one], [insert_one], [update_one],
    [delete_one]).  Strings, nulls and identifiers come back from a
    collection as they went in; a date comes back as the store keeps it,
    [bson_date] of what was written, since a BSON date only counts
    milliseconds.  The driver calls themselves are total here: a lost
    connection, or a value the driver refuses to encode, is outside the
    model.

    Python strings are modelled by [string], one character per code point
    below 256; dictionaries ([Dict[str, Any]]) by [gmap string value]. *)

From Stdlib Require Import ZArith Ascii String.
From stdpp Require Import base option gmap strings list sorting.

Local Open Scope string_scope.
Local Open Scope Z_scope.
Local Open Scope list_scope.

#[local] Set Warnings "-clear-no-such-hyp".

(** ** The platform: [datetime] and [ObjectId] *)

Class Platform := {
  (** Python [datetime] values, ordered chronologically. *)
  datetime : Type;
  datetime_eq_dec :: EqDecision datetime;
  datetime_le : relation datetime;
  datetime_le_dec :: RelDecision datetime_le;
  datetime_le_pre :: PreOrder datetime_le;
  datetime_le_total :: Total datetime_le;
  (** [datetime.fromisoformat]; [None] stands for the [ValueError] it raises. *)
  fromisoformat : string → option datetime;
  fromisoformat_empty : fromisoformat "" = None;
  (** [datetime.isoformat] and [str] of a datetime. *)
  isoformat : datetime → string;
  datetime_str : datetime → string;
  (** The datetime a collection keeps, and hands back, for a datetime written
      to it: the driver encodes a datetime as the milliseconds since the
      epoch, so what it has beyond the millisecond is cut off. *)
  bson_date : datetime → datetime;
  (** [bson.ObjectId]; [ObjectId_parse s] is [ObjectId(s)], [None] standing
      for the [InvalidId] it raises, and [ObjectId_str] is [str]. *)
  ObjectId : Type;
  ObjectId_eq_dec :: EqDecision ObjectId;
  ObjectId_le : relation ObjectId;
  ObjectId_le_dec :: RelDecision ObjectId_le;
  ObjectId_le_pre :: PreOrder ObjectId_le;
  ObjectId_le_total :: Total ObjectId_le;
  ObjectId_parse : string → option ObjectId;
  ObjectId_str : ObjectId → string;
}.

(** ** Outcomes of a request *)

(** Exceptions other than [HTTPException] that the handlers can let escape. *)
Inductive exn := ValueError | KeyError | TypeError | DuplicateKeyError.

#[export] Instance exn_eq_dec : EqDecision exn.
Proof. solve_decision. Defined.

Inductive result (A : Type) :=
  | Return (a : A)
  | HTTPException (status_code : Z) (detail : string)
  | Raise (e : exn).
Arguments Return {A} a.
Arguments HTTPException {A} status_code detail.
Arguments Raise {A} e.

#[export] Instance result_eq_dec `{EqDecision A} : EqDecision (result A).
Proof. solve_decision. Defined.

(** What a request returned, if it did. *)
Definition returned {A} (r : result A) : option A :=
  match r with
  | Return a => Some a
  | _ => None
  end.

(** ** Python strings *)

(** [str.isspace] on one character (code points below 256). *)
Definition isspace (c : ascii) : bool :=
  let n := Z.of_N (N_of_ascii c) in
  bool_decide (9 ≤ n ≤ 13) || bool_decide (28 ≤ n ≤ 32)
  || bool_decide (n = 133) || bool_decide (n = 160).

Fixpoint lstrip (s : string) : string :=
  match s with
  | EmptyString => EmptyString
  | String c s' => if isspace c then lstrip s' else s
  end.

Definition rstrip (s : string) : string := String.rev (lstrip (String.rev s)).

(** [str.strip()] *)
Definition strip (s : string) : string := rstrip (lstrip s).

(** Truth value of a string: only the empty one is false. *)
Definition str_truthy (s : string) : bool := negb (bool_decide (s = "")).

Section Model.
Context `{platform : Platform}.

(** ** Documents *)

(** The values the router stores in, and reads from, a document. *)
Inductive value :=
  | VNull
  | VStr (s : string)
  | VDate (d : datetime)
  | VOid (o : ObjectId).

#[export] Instance value_eq_dec : EqDecision value.
Proof. solve_decision. Defined.

Abbreviation document := (gmap string value).

(** [str(v)] *)
Definition py_str (v : value) : string :=
  match v with
  | VNull => "None"
  | VStr s => s
  | VDate d => datetime_str d
  | VOid o => ObjectId_str o
  end.

(** ** The document store *)

(** The filters the router builds: a field against an operator, [$and],
    [$or].  [find()] without a filter is [Qand []]. *)
Inductive cond :=
  | Cgte (reference : datetime)     (* {"$gte": reference} *)
  | Clte (reference : datetime)     (* {"$lte": reference} *)
  | Cexists (b : bool)              (* {"$exists": b} *)
  | Ceq (v : value).                (* a literal *)

#[warnings="-register-all"] Inductive query :=
  | Qfield (key : string) (c : cond)
  | Qand (qs : list query)
  | Qor (qs : list query).

(** A comparison operator only matches a field holding a date; a [None]
    literal matches a null field and a missing one. *)
Definition cond_holds (c : cond) (field : option value) : bool :=
  match c with
  | Cgte reference =>
      match field with
      | Some (VDate d) => bool_decide (datetime_le reference d)
      | _ => false
      end
  | Clte reference =>
      match field with
      | Some (VDate d) => bool_decide (datetime_le d reference)
      | _ => false
      end
  | Cexists b =>
      match field with
      | Some _ => b
      | None => negb b
      end
  | Ceq VNull =>
      match field with
      | None | Some VNull => true
      | _ => false
      end
  | Ceq v => bool_decide (field = Some v)
  end.

Fixpoint matches (q : query) (doc : document) : bool :=
  match q with
  | Qfield key c => cond_holds c (doc !! key)
  | Qand qs => forallb (λ q', matches q' doc) qs
  | Qor qs => existsb (λ q', matches q' doc) qs
  end.

(** The sort order of the store on a field: null and missing first, then
    strings, then object ids, then dates; within a type, its own order. *)
Definition bson_rank (v : option value) : Z :=
  match v with
  | None | Some VNull => 0
  | Some (VStr _) => 1
  | Some (VOid _) => 2
  | Some (VDate _) => 3
  end.

Definition bson_le (a b : option value) : Prop :=
  match a, b with
  | Some (VStr x), Some (VStr y) => String.le x y
  | Some (VOid x), Some (VOid y) => ObjectId_le x y
  | Some (VDate x), Some (VDate y) => datetime_le x y
  | _, _ => bson_rank a ≤ bson_rank b
  end.

#[export] Instance bson_le_dec : RelDecision bson_le.
Proof.
  intros [[| | |]|] [[| | |]|]; simpl; apply _.
Defined.

(** [pymongo.ASCENDING] is [1] and [pymongo.DESCENDING] is [-1]. *)
Inductive direction := ASCENDING | DESCENDING.

Definition key_order (key : string) (dir : direction) : relation document :=
  match dir with
  | ASCENDING => λ a b, bson_le (a !! key) (b !! key)
  | DESCENDING => λ a b, bson_le (b !! key) (a !! key)
  end.

#[export] Instance key_order_dec key dir : RelDecision (key_order key dir).
Proof. destruct dir; intros a b; simpl; apply _. Defined.

(** [cursor.sort(key, dir)] *)
Definition sort (key : string) (dir : direction)
    (cursor : list document) : list document :=
  merge_sort (key_order key dir) cursor.

(** [collection.find(q)] *)
Definition find (q : query) (c : list document) : list document :=
  List.filter (matches q) c.

(** [collection.find_one(q)] *)
Definition find_one (q : query) (c : list document) : option document :=
  head (find q c).

(** A document as the driver encodes it on its way to a collection: the
    dates are cut to the millisecond, every other value is kept. *)
Definition bson_value (v : value) : value :=
  match v with
  | VDate d => VDate (bson_date d)
  | _ => v
  end.

Definition bson_document (doc : document) : document := bson_value <$> doc.

(** [collection.insert_one(doc)]: a document without [_id] receives the
    identifier the driver generates; an identifier already in the collection
    is refused. *)
Definition with_id (doc : document) (generated : ObjectId) : document :=
  match doc !! "_id" with
  | Some _ => doc
  | None => <["_id" := VOid generated]> doc
  end.

Definition has_id (i : option value) (doc : document) : bool :=
  bool_decide (doc !! "_id" = i).

Definition insert_one (doc : document) (generated : ObjectId)
    (c : list document) : option (value * list document) :=
  let doc' := bson_document (with_id doc generated) in
  if existsb (has_id (doc' !! "_id")) c then None
  else Some (default VNull (doc' !! "_id"), (c ++ [doc'])%list).

(** [collection.update_one(q, {"$set": update})]: the first match receives
    the fields of [update], encoded; the count of matched documents comes
    back. *)
Fixpoint update_one (q : query) (update : document)
    (c : list document) : Z * list document :=
  match c with
  | [] => (0, [])
  | doc :: c' =>
      if matches q doc then (1, (bson_document update ∪ doc) :: c')
      else let '(n, r) := update_one q update c' in (n, doc :: r)
  end.

(** [collection.delete_one(q)] *)
Fixpoint delete_one (q : query) (c : list document) : Z * list document :=
  match c with
  | [] => (0, [])
  | doc :: c' =>
      if matches q doc then (1, c')
      else let '(n, r) := delete_one q c' in (n, doc :: r)
  end.

(** ** Requests as state transformers *)

(** The two collections the router imports from [..database], and the calls
    made on them, oldest first. *)
Inductive collection_name := announcements | teachers.

#[export] Instance collection_name_eq_dec : EqDecision collection_name.
Proof. solve_decision. Defined.

Record database := Database {
  announcements_collection : list document;
  teachers_collection : list document;
  calls : list (collection_name * string);
}.

#[export] Instance database_eq_dec : EqDecision database.
Proof. solve_decision. Defined.

Definition called (c : collection_name) (method : string)
    (db : database) : list (collection_name * string) :=
  (calls db ++ [(c, method)])%list.

(** A handler runs against the database and either returns, raises an
    [HTTPException], or lets another exception escape. *)
Definition handler (A : Type) : Type := database → result A * database.

#[export] Instance handler_ret : MRet handler := λ A a db, (Return a, db).

#[export] Instance handler_bind : MBind handler := λ A B f m db,
  match m db with
  | (Return a, db') => f a db'
  | (HTTPException status detail, db') => (HTTPException status detail, db')
  | (Raise e, db') => (Raise e, db')
  end.

(** [raise HTTPException(status_code=..., detail=...)] *)
Definition throw {A} (status_code : Z) (detail : string) : handler A :=
  λ db, (HTTPException status_code detail, db).

Definition throw_exn {A} (e : exn) : handler A := λ db, (Raise e, db).

Definition teachers_find_one (q : query) : handler (option document) :=
  λ db, (Return (find_one q (teachers_collection db)),
         Database (announcements_collection db) (teachers_collection db)
                  (called teachers "find_one" db)).

Definition announcements_find (q : query) : handler (list document) :=
  λ db, (Return (find q (announcements_collection db)),
         Database (announcements_collection db) (teachers_collection db)
                  (called announcements "find" db)).

Definition announcements_find_one (q : query) : handler (option document) :=
  λ db, (Return (find_one q (announcements_collection db)),
         Database (announcements_collection db) (teachers_collection db)
                  (called announcements "find_one" db)).

Definition announcements_insert_one (doc : document)
    (generated : ObjectId) : handler value :=
  λ db,
    match insert_one doc generated (announcements_collection db) with
    | Some (inserted_id, c) =>
        (Return inserted_id,
         Database c (teachers_collection db)
                  (called announcements "insert_one" db))
    | None =>
        (Raise DuplicateKeyError,
         Database (announcements_collection db) (teachers_collection db)
                  (called announcements "insert_one" db))
    end.

Definition announcements_update_one (q : query)
    (update : document) : handler Z :=
  λ db,
    let '(matched_count, c) :=
      update_one q update (announcements_collection db) in
    (Return matched_count,
     Database c (teachers_collection db)
              (called announcements "update_one" db)).

Definition announcements_delete_one (q : query) : handler Z :=
  λ db,
    let '(deleted_count, c) := delete_one q (announcements_collection db) in
    (Return deleted_count,
     Database c (teachers_collection db)
              (called announcements "delete_one" db)).

(** ** The router *)

Definition _parse_datetime (value : option string) : handler (option datetime) :=
  match value with
  | None => mret None
  | Some s =>
      if bool_decide (s = "") then mret None
      else match fromisoformat s with
           | Some d => mret (Some d)
           | None => throw 400 ("Invalid datetime format: " +:+ s)
           end
  end.

Definition _to_object_id (id_str : string) : handler ObjectId :=
  match ObjectId_parse id_str with
  | Some oid => mret oid
  | None => throw 400 "Invalid announcement id"
  end.

(** Truth value of what [find_one] returns: [None] and the empty dictionary
    are false. *)
Definition doc_truthy (o : option document) : bool :=
  match o with
  | None => false
  | Some doc => negb (bool_decide (doc = ∅))
  end.

Definition _require_teacher (username : option string) : handler () :=
  match username with
  | None => throw 401 "Authentication required"
  | Some u =>
      if negb (str_truthy u) then throw 401 "Authentication required"
      else
        teacher ← teachers_find_one (Qfield "_id" (Ceq (VStr u)));
        if negb (doc_truthy teacher)
        then throw 401 "Invalid teacher credentials"
        else mret ()
  end.

Definition date_keys : list string :=
  ["start_date"; "end_date"; "created_at"; "updated_at"].

Definition _serialize_dates (doc : document) : document :=
  foldl (λ doc key,
           match doc !! key with
           | Some (VDate d) => <[key := VStr (isoformat d)]> doc
           | _ => doc
           end) doc date_keys.

(** The three lines every endpoint ends with:
    [doc = {**ann}; doc["id"] = str(doc.pop("_id")); _serialize_dates(doc)].
    [pop] raises [KeyError] on a document without [_id]. *)
Definition to_response (ann : document) : handler document :=
  match ann !! "_id" with
  | None => throw_exn KeyError
  | Some i => mret (_serialize_dates (<["id" := VStr (py_str i)]> (delete "_id" ann)))
  end.

(** [{**doc}] on what [find_one] returned; [None] is not a mapping. *)
Definition found_response (doc : option document) : handler document :=
  match doc with
  | None => throw_exn TypeError
  | Some doc => to_response doc
  end.

(** The response built from a stored document, as a function of it. *)
Definition serialized (ann : document) : document :=
  _serialize_dates
    (<["id" := VStr (py_str (default VNull (ann !! "_id")))]> (delete "_id" ann)).

(** The value stored for an [Optional[datetime]]. *)
Definition opt_date (o : option datetime) : value :=
  match o with
  | None => VNull
  | Some d => VDate d
  end.

Definition active_query (reference : datetime) : query :=
  Qand [ Qfield "end_date" (Cgte reference);
         Qor [ Qfield "start_date" (Clte reference);
               Qfield "start_date" (Cexists false);
               Qfield "start_date" (Ceq VNull) ] ].

(** [get_active_announcements] in two steps: line 37 fixes the reference
    time, the rest of the body filters, sorts and serializes.  [utcnow] is
    what [datetime.utcnow()] reads when the request runs. *)
Definition reference_time (now : option string)
    (utcnow : datetime) : handler datetime :=
  match now with
  | Some s =>
      if str_truthy s
      then match fromisoformat s with
           | Some d => mret d
           | None => throw_exn ValueError
           end
      else mret utcnow
  | None => mret utcnow
  end.

Definition active_announcements (reference : datetime) : handler (list document) :=
  cursor ← announcements_find (active_query reference);
  mapM to_response (sort "end_date" ASCENDING cursor).

Definition get_active_announcements (now : option string)
    (utcnow : datetime) : handler (list document) :=
  reference ← reference_time now utcnow;
  active_announcements reference.

Definition list_announcements : handler (list document) :=
  cursor ← announcements_find (Qand []);
  mapM to_response (sort "end_date" DESCENDING cursor).

(** The dictionary [create_announcement] builds at lines 91-97. *)
Definition new_document (message : string) (start_dt : option datetime)
    (end_dt now : datetime) : document :=
  <["message" := VStr message]>
  (<["start_date" := opt_date start_dt]>
  (<["end_date" := VDate end_dt]>
  (<["created_at" := VDate now]>
  (<["updated_at" := VDate now]> ∅)))).

(** [generated] is the identifier the driver draws for the new document. *)
Definition create_announcement (message end_date : string)
    (start_date teacher_username : option string)
    (utcnow : datetime) (generated : ObjectId) : handler document :=
  _ ← _require_teacher teacher_username;
  if negb (str_truthy message) || negb (str_truthy (strip message))
  then throw 400 "Message is required"
  else
    end_dt ← _parse_datetime (Some end_date);
    match end_dt with
    | None => throw 400 "end_date is required"
    | Some end_dt =>
        start_dt ← _parse_datetime start_date;
        let now := utcnow in
        let doc := new_document (strip message) start_dt end_dt now in
        inserted_id ← announcements_insert_one doc generated;
        created ← announcements_find_one (Qfield "_id" (Ceq inserted_id));
        found_response created
    end.

(** The [update] dictionary of [update_announcement], lines 117-128: the
    refreshed [updated_at] and the fields the request provides. *)
Definition update_fields (message end_date start_date : option string)
    (utcnow : datetime) : handler document :=
  let update : document := <["updated_at" := VDate utcnow]> ∅ in
  update ←
    (match message with
     | Some m =>
         if negb (str_truthy (strip m))
         then throw 400 "Message cannot be empty"
         else mret (<["message" := VStr (strip m)]> update)
     | None => mret update
     end);
  update ←
    (match start_date with
     | Some _ =>
         start_dt ← _parse_datetime start_date;
         mret (<["start_date" := opt_date start_dt]> update)
     | None => mret update
     end);
  match end_date with
  | Some _ =>
      end_dt ← _parse_datetime end_date;
      match end_dt with
      | None => throw 400 "end_date cannot be null"
      | Some end_dt => mret (<["end_date" := VDate end_dt]> update)
      end
  | None => mret update
  end.

Definition update_announcement (announcement_id : string)
    (message end_date start_date teacher_username : option string)
    (utcnow : datetime) : handler document :=
  _ ← _require_teacher teacher_username;
  update ← update_fields message end_date start_date utcnow;
  oid ← _to_object_id announcement_id;
  matched_count ←
    announcements_update_one (Qfield "_id" (Ceq (VOid oid))) update;
  if bool_decide (matched_count = 0)
  then throw 404 "Announcement not found"
  else
    oid ← _to_object_id announcement_id;
    doc ← announcements_find_one (Qfield "_id" (Ceq (VOid oid)));
    found_response doc.

Definition delete_announcement (announcement_id : string)
    (teacher_username : option string) : handler document :=
  _ ← _require_teacher teacher_username;
  oid ← _to_object_id announcement_id;
  deleted_count ← announcements_delete_one (Qfield "_id" (Ceq (VOid oid)));
  if bool_decide (deleted_count = 0)
  then throw 404 "Announcement not found"
  else mret (<["message" := VStr "Announcement deleted"]> ∅).

(** ** Vocabulary of the specification *)

(** An announcement is active at [T]: its end date is not before [T], and its
    start date is absent, null, or not after [T]. *)
Definition active_at (T : datetime) (A : document) : Prop :=
  (∃ e, A !! "end_date" = Some (VDate e) ∧ datetime_le T e)
  ∧ (A !! "start_date" = None ∨ A !! "start_date" = Some VNull
     ∨ ∃ s, A !! "start_date" = Some (VDate s) ∧ datetime_le s T).


(** [A] ends no earlier than [B], in the order of the store. *)
Definition end_date_ge (A B : document) : Prop :=
  bson_le (B !! "end_date") (A !! "end_date").

(** A date as it is sent back: its ISO-8601 text. *)
Definition iso_value (v : value) : value :=
  match v with
  | VDate d => VStr (isoformat d)
  | _ => v
  end.

(** Every document of a collection carries the [_id] the store gave it. *)
Definition identified (c : list document) : Prop :=
  ∀ A, A ∈ c → is_Some (A !! "_id").

(** The caller passes the authentication check. *)
Definition authenticated (teacher_username : option string)
    (db : database) : Prop :=
  fst (_require_teacher teacher_username db) = Return ().

#[export] Instance authenticated_dec u db : Decision (authenticated u db).
Proof. unfold authenticated. apply _. Defined.

(** The calls of [log] leave the announcements collection alone. *)
Definition no_announcements_call (log : list (collection_name * string)) : Prop :=
  ∀ method, (announcements, method) ∉ log.

(** From [db] to [db'] the announcements are the same and no call was made
    on their collection. *)
Definition announcements_untouched (db db' : database) : Prop :=
  announcements_collection db' = announcements_collection db
  ∧ ∃ log, calls db' = calls db ++ log ∧ no_announcements_call log.

(** The announcements with identifier [oid]. *)
Definition by_id (oid : ObjectId) : query := Qfield "_id" (Ceq (VOid oid)).

(** [generated] is not yet the identifier of an announcement. *)
Definition fresh_id (generated : ObjectId) (db : database) : Prop :=
  ∀ A, A ∈ announcements_collection db → A !! "_id" ≠ Some (VOid generated).

(** The date argument [text] stands for [d]: nothing when it is absent or
    empty, the date it parses to otherwise. *)
Definition parsed (text : option string) (d : option datetime) : Prop :=
  match text with
  | None => d = None
  | Some s =>
      if bool_decide (s = "") then d = None
      else is_Some d ∧ fromisoformat s = d
  end.

(** The message argument of an update is absent or has text left once
    trimmed. *)
Definition message_ok (m : option string) : Prop :=
  match m with
  | None => True
  | Some text => strip text ≠ ""
  end.

(** The end date argument of an update stands for [d]: nothing when it is
    absent, and a date it parses to when it is given. *)
Definition parsed_end (text : option string) (d : option datetime) : Prop :=
  match text with
  | None => d = None
  | Some s => is_Some d ∧ fromisoformat s = d
  end.

(** The message and date arguments of an update pass validation. *)
Definition fields_valid (m e s : option string) : Prop :=
  message_ok m ∧ (∃ sd, parsed s sd) ∧ (∃ ed, parsed_end e ed).

(** The fields an update sets, for arguments that pass validation. *)
Definition fields_set (m e s : option string) (ed sd : option datetime)
    (utcnow : datetime) : document :=
  let update : document := <["updated_at" := VDate utcnow]> ∅ in
  let update :=
    match m with
    | Some text => <["message" := VStr (strip text)]> update
    | None => update
    end in
  let update :=
    match s with
    | Some _ => <["start_date" := opt_date sd]> update
    | None => update
    end in
  match e, ed with
  | Some _, Some d => <["end_date" := VDate d]> update
  | _, _ => update
  end.

(** No teacher record has the identifier [name]. *)
Definition unknown_teacher (name : string) (db : database) : Prop :=
  ∀ t, t ∈ teachers_collection db → t !! "_id" ≠ Some (VStr name).

End Model.

Abbreviation document := (gmap string value).

(** ** A concrete platform

    Naive datetimes with a resolution of one second, written
    [YYYY-MM-DD], [YYYY-MM-DDTHH], [YYYY-MM-DDTHH:MM] or
    [YYYY-MM-DDTHH:MM:SS] with any character for the [T], and held as the
    decimal number [YYYYMMDDHHMMSS], whose order is the chronological one;
    a collection keeps them whole, as they have nothing beyond the second.
    Texts with a fraction of a second are left to the finer platform below,
    texts with a UTC offset are not read at all.  Object ids are written as
    the driver reads them: 24 characters that [bytes.fromhex] accepts.  The
    platform serves to run the router on concrete requests. *)

Definition digit_value (c : ascii) : option Z :=
  let n := Z.of_N (N_of_ascii c) in
  if bool_decide (48 ≤ n ≤ 57) then Some (n - 48) else None.

Fixpoint decimal (acc : Z) (cs : list ascii) : option Z :=
  match cs with
  | [] => Some acc
  | c :: cs' => d ← digit_value c; decimal (10 * acc + d) cs'
  end.

Definition is_leap (year : Z) : bool :=
  bool_decide (year mod 4 = 0)
  && (negb (bool_decide (year mod 100 = 0)) || bool_decide (year mod 400 = 0)).

Definition days_in_month (year month : Z) : Z :=
  if bool_decide (month = 2) then (if is_leap year then 29 else 28)
  else if bool_decide (month ∈ [4; 6; 9; 11]) then 30
  else 31.

(** The time of day after the date: nothing, the hour, the hour and the
    minute, or all three, behind one separating character. *)
Definition calendar_time (cs : list ascii) : option (Z * Z * Z) :=
  match cs with
  | [] => Some (0, 0, 0)
  | [_; h1; h2] =>
      hour ← decimal 0 [h1; h2];
      Some (hour, 0, 0)
  | [_; h1; h2; c; n1; n2] =>
      hour ← decimal 0 [h1; h2];
      minute ← decimal 0 [n1; n2];
      if bool_decide (c = ":"%char) then Some (hour, minute, 0) else None
  | [_; h1; h2; c; n1; n2; e; s1; s2] =>
      hour ← decimal 0 [h1; h2];
      minute ← decimal 0 [n1; n2];
      second ← decimal 0 [s1; s2];
      if bool_decide ([c; e] = [":"; ":"]%char)
      then Some (hour, minute, second)
      else None
  | _ => None
  end.

Definition calendar_fromisoformat (s : string) : option Z :=
  match list_ascii_of_string s with
  | y1 :: y2 :: y3 :: y4 :: a :: m1 :: m2 :: b :: d1 :: d2 :: time =>
      year ← decimal 0 [y1; y2; y3; y4];
      month ← decimal 0 [m1; m2];
      day ← decimal 0 [d1; d2];
      '(hour, minute, second) ← calendar_time time;
      if bool_decide ([a; b] = ["-"; "-"]%char)
         && bool_decide (1 ≤ year ∧ 1 ≤ month ≤ 12
                         ∧ 1 ≤ day ≤ days_in_month year month
                         ∧ hour < 24 ∧ minute < 60 ∧ second < 60)
      then Some (((((year * 100 + month) * 100 + day) * 100 + hour) * 100
                  + minute) * 100 + second)
      else None
  | _ => None
  end.

Definition digit_char (n : Z) : ascii := ascii_of_N (Z.to_N (48 + n mod 10)).

Definition two_digits (n : Z) : string :=
  String (digit_char (n / 10)) (String (digit_char n) "").

Definition four_digits (n : Z) : string :=
  String (digit_char (n / 1000)) (String (digit_char (n / 100)) (two_digits n)).

Definition calendar_format (sep : string) (d : Z) : string :=
  four_digits (d / 10000000000) +:+ "-" +:+ two_digits (d / 100000000)
  +:+ "-" +:+ two_digits (d / 1000000) +:+ sep +:+ two_digits (d / 10000)
  +:+ ":" +:+ two_digits (d / 100) +:+ ":" +:+ two_digits d.

Definition is_hex (c : ascii) : bool :=
  let n := Z.of_N (N_of_ascii c) in
  bool_decide (48 ≤ n ≤ 57) || bool_decide (65 ≤ n ≤ 70)
  || bool_decide (97 ≤ n ≤ 102).

Definition lower_hex (c : ascii) : ascii :=
  let n := N_of_ascii c in
  if bool_decide (65 ≤ Z.of_N n ≤ 70) then ascii_of_N (n + 32) else c.

Fixpoint map_string (f : ascii → ascii) (s : string) : string :=
  match s with
  | EmptyString => EmptyString
  | String c s' => String (f c) (map_string f s')
  end.

(** [bytes.fromhex]: pairs of hexadecimal digits, with ASCII whitespace
    allowed between the pairs; the digits read, or [None] for the
    [ValueError]. *)
Definition is_ascii_space (c : ascii) : bool :=
  let n := Z.of_N (N_of_ascii c) in
  bool_decide (9 ≤ n ≤ 13) || bool_decide (n = 32).

Fixpoint fromhex (cs : list ascii) : option (list ascii) :=
  match cs with
  | [] => Some []
  | c :: cs' =>
      if is_ascii_space c then fromhex cs'
      else match cs' with
           | c' :: cs'' =>
               if is_hex c && is_hex c'
               then digits ← fromhex cs''; Some (c :: c' :: digits)
               else None
           | [] => None
           end
  end.

(** [ObjectId(s)] for a string: [s] must have 24 characters and go through
    [bytes.fromhex]; the identifier is held as the lower-case hexadecimal
    text of its bytes, which is what [str] gives back. *)
Definition hex_ObjectId (s : string) : option string :=
  let cs := list_ascii_of_string s in
  if bool_decide (Z.of_nat (length cs) = 24)
  then digits ← fromhex cs;
       Some (map_string lower_hex (string_of_list_ascii digits))
  else None.

Definition calendar : Platform := {|
  datetime := Z;
  datetime_le := Z.le;
  fromisoformat := calendar_fromisoformat;
  fromisoformat_empty := eq_refl;
  isoformat := calendar_format "T";
  datetime_str := calendar_format " ";
  bson_date := λ d, d;
  ObjectId := string;
  ObjectId_le := String.le;
  ObjectId_parse := hex_ObjectId;
  ObjectId_str := λ o, o;
|}.


(** A school with one teacher and the announcement of the scenarios in the
    specification. *)
Definition jwilson : gmap string (@value calendar) :=
  {[ "_id" := VStr "jwilson" ]}.

Definition exams_id : @ObjectId calendar := "665f1c2e9b3a4d0012345678".

(** The clock of the examples, noon on the first of June 2025, and the days
    around the exams. *)
Definition noon : @datetime calendar := 20250601120000.
Definition june_5 : @datetime calendar := 20250605000000.
Definition june_10 : @datetime calendar := 20250610000000.
Definition july_1 : @datetime calendar := 20250701000000.

Definition exams : gmap string (@value calendar) :=
  <["_id" := VOid exams_id]>
    (new_document "Final exams start Monday" None june_10 noon).

(** A second announcement, which has a start date. *)
Definition fair_id : @ObjectId calendar := "665f1c2e9b3a4d0012345679".

Definition fair : gmap string (@value calendar) :=
  <["_id" := VOid fair_id]>
    (new_document "Summer fair" (Some june_10) july_1 noon).

Definition school : @database calendar :=
  Database [exams; fair] [jwilson] [].

(** The school before the announcement is made. *)
Definition school_before : @database calendar := Database [] [jwilson] [].

(** Creating the announcement, the message typed with blanks around it. *)
Definition create_exams : result (gmap string (@value calendar)) * database :=
  create_announcement "  Final exams start Monday " "2025-06-10T00:00:00"
    None (Some "jwilson") noon exams_id school_before.

(** Rewording the announcement four days later. *)
Definition reword_exams : result (gmap string (@value calendar)) * database :=
  update_announcement exams_id (Some "Exams moved to Tuesday") None None
    (Some "jwilson") june_5 school.

(** The document a request returned, empty when it failed. *)
Definition response_of
    (run : result (gmap string (@value calendar)) * @database calendar)
    : gmap string (@value calendar) :=
  default ∅ (returned (fst run)).


(** ** A finer platform

    Datetimes with a resolution of one microsecond: those of the platform
    above, and [YYYY-MM-DDTHH:MM:SS.fff] and [YYYY-MM-DDTHH:MM:SS.ffffff],
    held as the decimal number [YYYYMMDDHHMMSSffffff].  [isoformat] leaves
    out a fraction that is zero, and a collection keeps the milliseconds: the
    first three of the six digits.  The platform serves to run the router on
    dates and clock readings that the store does not keep whole. *)

Definition chronometer_fromisoformat (s : string) : option Z :=
  let cs := list_ascii_of_string s in
  whole ← calendar_fromisoformat (string_of_list_ascii (take 19%nat cs));
  match drop 19%nat cs with
  | [] => Some (whole * 1000000)
  | [dot; f1; f2; f3] =>
      fraction ← decimal 0 [f1; f2; f3];
      if bool_decide (dot = "."%char)
      then Some (whole * 1000000 + fraction * 1000)
      else None
  | [dot; f1; f2; f3; f4; f5; f6] =>
      fraction ← decimal 0 [f1; f2; f3; f4; f5; f6];
      if bool_decide (dot = "."%char) then Some (whole * 1000000 + fraction)
      else None
  | _ => None
  end.

Definition six_digits (n : Z) : string :=
  two_digits (n / 10000) +:+ two_digits (n / 100) +:+ two_digits n.

Definition chronometer_format (sep : string) (d : Z) : string :=
  let fraction := d mod 1000000 in
  calendar_format sep (d / 1000000)
  +:+ (if bool_decide (fraction = 0) then "" else "." +:+ six_digits fraction).

Definition chronometer : Platform := {|
  datetime := Z;
  datetime_le := Z.le;
  fromisoformat := chronometer_fromisoformat;
  fromisoformat_empty := eq_refl;
  isoformat := chronometer_format "T";
  datetime_str := chronometer_format " ";
  bson_date := λ d, d - d mod 1000;
  ObjectId := string;
  ObjectId_le := String.le;
  ObjectId_parse := hex_ObjectId;
  ObjectId_str := λ o, o;
|}.

(** The staff room: one teacher, no announcement yet, and a clock that reads
    microseconds. *)
Definition staff_room : @database chronometer :=
  Database [] [{[ "_id" := VStr "jwilson" ]}] [].

Definition tick : @datetime chronometer := 20250601120000123456.
Definition tock : @datetime chronometer := 20250602090000999999.

(** An announcement whose dates and creation time all reach beyond the
    millisecond. *)
Definition create_at_tick
    : result (gmap string (@value chronometer)) * @database chronometer :=
  create_announcement "  Final exams start Monday "
    "2025-06-10T00:00:00.123456" (Some "2025-06-02T08:30:00.000999")
    (Some "jwilson") tick "665f1c2e9b3a4d0012345678" staff_room.

(** Moving its end by a day and a microsecond, the next morning. *)
Definition move_at_tock
    : result (gmap string (@value chronometer)) * @database chronometer :=
  update_announcement "665f1c2e9b3a4d0012345678" None
    (Some "2025-06-11T00:00:00.000001") None (Some "jwilson") tock
    (snd create_at_tick).

Definition answer_of
    (run : result (gmap string (@value chronometer)) * @database chronometer)
    : gmap string (@value chronometer) :=
  default ∅ (returned (fst run)).
(** ** Vocabulary of the further properties *)

(** A request that did not return. *)
Definition failed {A} (r : result A) : Prop := returned r = None.

(** A string made of whitespace only, the empty one included. *)
Definition blank (s : string) : Prop :=
  Forall (λ c, isspace c = true) (list_ascii_of_string s).

(** [lstrip] on the characters of a string. *)
Fixpoint lstrip_chars (l : list ascii) : list ascii :=
  match l with
  | [] => []
  | c :: l' => if isspace c then lstrip_chars l' else l
  end.

(** A list of characters that does not start with whitespace. *)
Definition starts_clean (l : list ascii) : Prop :=
  match l with
  | [] => True
  | c :: _ => isspace c = false
  end.

(** A string that neither starts nor ends with whitespace. *)
Definition trimmed (s : string) : Prop := lstrip s = s ∧ rstrip s = s.

(** The keys of a serialized announcement. *)
Definition response_keys : list string :=
  ["id"; "message"; "start_date"; "end_date"; "created_at"; "updated_at"].

(** The keys an update may write. *)
Definition update_keys : list string :=
  ["updated_at"; "message"; "start_date"; "end_date"].

Section Vocabulary.
Context `{platform : Platform}.

(** What [_parse_datetime] answers for a date argument. *)
Definition parse_outcome (text : option string) : result (option datetime) :=
  match text with
  | None => Return None
  | Some s =>
      if bool_decide (s = "") then Return None
      else match fromisoformat s with
           | Some d => Return (Some d)
           | None => HTTPException 400 ("Invalid datetime format: " +:+ s)
           end
  end.

(** The announcement a successful create stores. *)
Definition created_document (message : string) (sd : option datetime)
    (e utcnow : datetime) (generated : ObjectId) : document :=
  <["_id" := VOid generated]>
    (bson_document (new_document (strip message) sd e utcnow)).

(** The identifiers of a collection, in its order. *)
Definition ids (c : list document) : list (option value) :=
  (λ A : document, A !! "_id") <$> c.

(** No two documents of the collection share an identifier. *)
Definition unique_ids (c : list document) : Prop := NoDup (ids c).

(** A message as the router writes it: trimmed, and not empty. *)
Definition message_written (A : document) : Prop :=
  ∃ text, A !! "message" = Some (VStr text) ∧ trimmed text ∧ text ≠ "".

(** [T] is the reference time of a list-active request: the parsed [now],
    or the clock when there is none. *)
Definition reference_is (now : option string) (utcnow T : datetime) : Prop :=
  (now = None ∧ T = utcnow) ∨ (∃ s, now = Some s ∧ fromisoformat s = Some T).

End Vocabulary.

(** An identifier that no announcement of the school has, and a request that
    adds an announcement to the school. *)
Definition missing_id : @ObjectId calendar := "665f1c2e9b3a4d00123456ff".

Definition create_sports : result (gmap string (@value calendar)) * database :=
  create_announcement "Sports day" "2025-07-01T00:00:00"
    (Some "2025-06-10T00:00:00") (Some "jwilson") noon missing_id school.

(** Removing the exams announcement. *)
Definition delete_exams : result (gmap string (@value calendar)) * database :=
  delete_announcement exams_id (Some "jwilson") school.

(** * Properties *)

Section Properties.
Context `{platform : Platform}.

Implicit Types (db : database) (A B doc : document) (c : list document).

(** ** The sort order *)

#[local] Instance bson_le_total : Total bson_le.
Proof.
  intros [[| x | x | x]|] [[| y | y | y]|]; simpl; try lia.
  - apply (total String.le).
  - apply (total datetime_le).
  - apply (total ObjectId_le).
Qed.

#[local] Instance bson_le_trans : Transitive bson_le.
Proof.
  intros [[| x | x | x]|] [[| y | y | y]|] [[| z | z | z]|]; simpl;
    try lia; try (intros; lia); apply transitivity.
Qed.

#[local] Instance key_order_total key dir : Total (key_order key dir).
Proof. destruct dir; intros a b; simpl; apply (total bson_le). Qed.

#[local] Instance key_order_trans key dir : Transitive (key_order key dir).
Proof.
  destruct dir; intros a b c0; simpl; intros; by etrans.
Qed.

Lemma sort_Permutation key dir c : sort key dir c ≡ₚ c.
Proof. apply merge_sort_Permutation. Qed.

Lemma sort_StronglySorted key dir c :
  StronglySorted (key_order key dir) (sort key dir c).
Proof. apply StronglySorted_merge_sort; apply _. Qed.


(** ** The store *)

Lemma elem_of_find q c A : A ∈ find q c ↔ A ∈ c ∧ matches q A = true.
Proof.
  unfold find. rewrite !list_elem_of_In. apply filter_In.
Qed.

Lemma matches_id (i : value) A :
  i ≠ VNull →
  matches (Qfield "_id" (Ceq i)) A = bool_decide (A !! "_id" = Some i).
Proof. by destruct i. Qed.

Lemma find_one_Some q c A :
  find_one q c = Some A → A ∈ c ∧ matches q A = true.
Proof.
  unfold find_one. intros Hhd. apply elem_of_find.
  destruct (find q c) as [|B l]; simplify_eq/=. left.
Qed.

Lemma find_one_None q c :
  find_one q c = None ↔ ∀ A, A ∈ c → matches q A = false.
Proof.
  unfold find_one. split.
  - intros Hhd A HA. destruct (matches q A) eqn:Hm; [|done].
    assert (A ∈ find q c) as Hin by by apply elem_of_find.
    destruct (find q c); [by apply elem_of_nil in Hin | done].
  - intros Hall. destruct (find q c) as [|B l] eqn:Hf; [done|].
    assert (B ∈ find q c) as [HB Hm]%elem_of_find by (rewrite Hf; left).
    rewrite (Hall B HB) in Hm. done.
Qed.

Lemma find_one_app_fresh q c A :
  (∀ B, B ∈ c → matches q B = false) → matches q A = true →
  find_one q (c ++ [A]) = Some A.
Proof.
  intros Hall HA. unfold find_one, find.
  induction c as [|B c IH]; simpl.
  - by rewrite HA.
  - rewrite (Hall B) by left. apply IH. intros ? ?. apply Hall. by right.
Qed.

Lemma find_all c : find (Qand []) c = c.
Proof.
  unfold find. induction c as [|A c IH]; [done|].
  cbn [List.filter]. change (matches (Qand []) A) with true. by rewrite IH.
Qed.

(** [update_one] touches the first match and nothing else. *)
Lemma update_one_spec q update c :
  match find_one q c with
  | None => update_one q update c = (0, c)
  | Some old =>
      ∃ c1 c2, c = c1 ++ old :: c2
        ∧ (∀ B, B ∈ c1 → matches q B = false)
        ∧ update_one q update c = (1, c1 ++ (bson_document update ∪ old) :: c2)
  end.
Proof.
  unfold find_one, find. induction c as [|B c IH]; simpl; [done|].
  destruct (matches q B) eqn:HB; simpl.
  - exists [], c. split_and!; [done| |done]. intros ? []%elem_of_nil.
  - destruct (head (List.filter (matches q) c)) as [old|].
    + destruct IH as (c1 & c2 & -> & Hc1 & ->).
      exists (B :: c1), c2. split_and!; [done| |done].
      intros ? [->|?]%elem_of_cons; auto.
    + by rewrite IH.
Qed.

Lemma delete_one_spec q c :
  match find_one q c with
  | None => delete_one q c = (0, c)
  | Some old =>
      ∃ c1 c2, c = c1 ++ old :: c2
        ∧ (∀ B, B ∈ c1 → matches q B = false)
        ∧ delete_one q c = (1, c1 ++ c2)
  end.
Proof.
  unfold find_one, find. induction c as [|B c IH]; simpl; [done|].
  destruct (matches q B) eqn:HB; simpl.
  - exists [], c. split_and!; [done| |done]. intros ? []%elem_of_nil.
  - destruct (head (List.filter (matches q) c)) as [old|].
    + destruct IH as (c1 & c2 & -> & Hc1 & ->).
      exists (B :: c1), c2. split_and!; [done| |done].
      intros ? [->|?]%elem_of_cons; auto.
    + by rewrite IH.
Qed.

Lemma find_one_middle q c1 c2 A :
  (∀ B, B ∈ c1 → matches q B = false) → matches q A = true →
  find_one q (c1 ++ A :: c2) = Some A.
Proof.
  intros Hall HA. unfold find_one, find.
  induction c1 as [|B c1 IH]; simpl.
  - by rewrite HA.
  - rewrite (Hall B) by left. apply IH. intros ? ?. apply Hall. by right.
Qed.

(** ** Dates as the store keeps them *)

Lemma bson_opt_date o : bson_value (opt_date o) = opt_date (bson_date <$> o).
Proof. by destruct o. Qed.

Lemma bson_new_document message sd e now :
  bson_document (new_document message sd e now)
  = new_document message (bson_date <$> sd) (bson_date e) (bson_date now).
Proof.
  unfold bson_document, new_document.
  by rewrite !fmap_insert, fmap_empty, bson_opt_date.
Qed.

Lemma bson_fields_set m e s ed sd utcnow :
  bson_document (fields_set m e s ed sd utcnow)
  = fields_set m e s (bson_date <$> ed) (bson_date <$> sd) (bson_date utcnow).
Proof.
  unfold bson_document, fields_set.
  destruct m, s, e, ed; cbv zeta; simpl;
    by rewrite ?fmap_insert, ?fmap_empty, ?bson_opt_date.
Qed.

(** ** Serialization *)

Ltac run :=
  unfold mbind, handler_bind, mret, handler_ret, throw, throw_exn in *;
  simpl in *.

Lemma to_response_serialized A i db :
  A !! "_id" = Some i → to_response A db = (Return (serialized A), db).
Proof. intros Hi. unfold to_response, serialized. by rewrite Hi. Qed.

Lemma mapM_to_response c db :
  identified c →
  mapM to_response c db = (Return (serialized <$> c), db).
Proof.
  induction c as [|A c IH]; intros Hid; [done|].
  destruct (Hid A) as [i Hi]; [left|].
  cbn [mapM]. unfold mbind, handler_bind at 1.
  rewrite (to_response_serialized _ i) by done.
  unfold mbind, handler_bind at 1. rewrite IH; [done|].
  intros B HB. apply Hid. by right.
Qed.

(** ** Listing the active announcements *)

Lemma matches_active_query T A :
  matches (active_query T) A = true ↔ active_at T A.
Proof.
  unfold active_at. simpl. rewrite !andb_true_r, orb_false_r.
  rewrite andb_true_iff, !orb_true_iff.
  destruct (A !! "end_date") as [[]|], (A !! "start_date") as [[]|]; simpl;
    rewrite ?bool_decide_eq_true; naive_solver.
Qed.




(** ** What a response holds *)

Lemma lookup_serialize_dates doc (k : string) :
  _serialize_dates doc !! k
  = if bool_decide (k ∈ date_keys) then iso_value <$> doc !! k else doc !! k.
Proof.
  unfold _serialize_dates. generalize date_keys. intros keys.
  revert doc. induction keys as [|key keys IH]; intros doc; cbn [foldl].
  { by rewrite bool_decide_eq_false_2 by apply not_elem_of_nil. }
  rewrite IH. clear IH.
  assert ((match doc !! key with
           | Some (VDate d) => <[key := VStr (isoformat d)]> doc
           | _ => doc
           end) !! k
          = if bool_decide (k = key) then iso_value <$> doc !! k else doc !! k)
    as ->.
  { case_bool_decide as Hk.
    - subst k. destruct (doc !! key) as [[]|] eqn:Hd; rewrite ?Hd; try done.
      by rewrite lookup_insert_eq.
    - destruct (doc !! key) as [[]|] eqn:Hd; try done.
      by rewrite lookup_insert_ne. }
  destruct (decide (k = key)) as [->|Hne].
  - rewrite (bool_decide_eq_true_2 (key = key)) by done.
    rewrite (bool_decide_eq_true_2 (key ∈ key :: keys)) by left.
    case_bool_decide; [|done]. by destruct (doc !! key) as [[]|].
  - rewrite (bool_decide_eq_false_2 (k = key)) by done.
    rewrite (bool_decide_ext (k ∈ key :: keys) (k ∈ keys)); [done|].
    rewrite elem_of_cons. naive_solver.
Qed.

Lemma serialized_id A i :
  A !! "_id" = Some i →
  serialized A !! "id" = Some (VStr (py_str i)) ∧ serialized A !! "_id" = None.
Proof.
  intros Hi. unfold serialized. rewrite !lookup_serialize_dates, Hi.
  rewrite !bool_decide_eq_false_2 by (unfold date_keys; set_solver).
  by rewrite lookup_insert_eq, lookup_insert_ne, lookup_delete_eq.
Qed.

Lemma serialized_date A (k : string) :
  k ∈ date_keys → serialized A !! k = iso_value <$> A !! k.
Proof.
  intros Hk. unfold serialized. rewrite lookup_serialize_dates.
  rewrite bool_decide_eq_true_2 by done.
  assert (k ≠ "id" ∧ k ≠ "_id") as [? ?].
  { unfold date_keys in Hk. set_solver. }
  by rewrite lookup_insert_ne, lookup_delete_ne.
Qed.

Lemma serialized_message A : serialized A !! "message" = A !! "message".
Proof.
  unfold serialized. rewrite lookup_serialize_dates.
  rewrite bool_decide_eq_false_2 by (unfold date_keys; set_solver).
  by rewrite lookup_insert_ne, lookup_delete_ne.
Qed.

(** ** Listing every announcement *)

(** C7. list-all returns every stored announcement, none filtered out, in
    descending order of [end_date], serialized as list-active does: the
    identifier as a string under [id], no [_id], each of [start_date],
    [end_date], [created_at] and [updated_at] that holds a date as the
    ISO-8601 text of that date, and the message as it is stored. *)
Theorem list_all_spec db :
  identified (announcements_collection db) →
  ∃ cursor,
    fst (list_announcements db) = Return (serialized <$> cursor)
    ∧ cursor ≡ₚ announcements_collection db
    ∧ StronglySorted end_date_ge cursor
    ∧ (∀ A i, A !! "_id" = Some i →
         serialized A !! "id" = Some (VStr (py_str i))
         ∧ serialized A !! "_id" = None)
    ∧ (∀ A d, A !! "start_date" = Some (VDate d) →
         serialized A !! "start_date" = Some (VStr (isoformat d)))
    ∧ (∀ A d, A !! "end_date" = Some (VDate d) →
         serialized A !! "end_date" = Some (VStr (isoformat d)))
    ∧ (∀ A d, A !! "created_at" = Some (VDate d) →
         serialized A !! "created_at" = Some (VStr (isoformat d)))
    ∧ (∀ A d, A !! "updated_at" = Some (VDate d) →
         serialized A !! "updated_at" = Some (VStr (isoformat d)))
    ∧ (∀ A, serialized A !! "message" = A !! "message").
Proof.
  intros Hid.
  set (cursor := sort "end_date" DESCENDING
                   (find (Qand []) (announcements_collection db))).
  pose proof (find_all (announcements_collection db)) as Hall.
  assert (cursor ≡ₚ announcements_collection db) as Hperm.
  { unfold cursor. by rewrite sort_Permutation, Hall. }
  exists cursor. split_and!; [|done| | |..].
  - unfold list_announcements, announcements_find. run. fold cursor.
    rewrite mapM_to_response; [done|].
    intros A HA. apply Hid. by rewrite <- Hperm.
  - apply (sort_StronglySorted "end_date" DESCENDING).
  - apply serialized_id.
  - intros A d HA.
    by rewrite serialized_date, HA by (unfold date_keys; set_solver).
  - intros A d HA.
    by rewrite serialized_date, HA by (unfold date_keys; set_solver).
  - intros A d HA.
    by rewrite serialized_date, HA by (unfold date_keys; set_solver).
  - intros A d HA.
    by rewrite serialized_date, HA by (unfold date_keys; set_solver).
  - apply serialized_message.
Qed.

(** ** Authentication *)

Lemma untouched_refl db : announcements_untouched db db.
Proof.
  split; [done|]. exists []. split; [by rewrite app_nil_r|].
  intros m. apply not_elem_of_nil.
Qed.

Lemma untouched_teachers_call db method :
  announcements_untouched db
    (Database (announcements_collection db) (teachers_collection db)
              (called teachers method db)).
Proof.
  split; [done|]. exists [(teachers, method)]. split; [done|].
  intros m [=]%list_elem_of_singleton.
Qed.

Lemma require_teacher_cases u db :
  ∃ r db', _require_teacher u db = (r, db')
    ∧ announcements_untouched db db'
    ∧ teachers_collection db' = teachers_collection db
    ∧ (r = Return () ∨ ∃ detail, r = HTTPException 401 detail).
Proof.
  unfold _require_teacher. destruct u as [u|].
  - destruct (str_truthy u); simpl.
    + unfold teachers_find_one. run.
      destruct (doc_truthy _); simpl; eexists _, _;
        (split_and!; [done|apply untouched_teachers_call|done|eauto]).
    + eexists _, _. split_and!; [done|apply untouched_refl|done|eauto].
  - eexists _, _. split_and!; [done|apply untouched_refl|done|eauto].
Qed.

Lemma require_teacher_rejects u db :
  u = None ∨ (∃ name, u = Some name ∧ unknown_teacher name db) →
  ∃ detail db',
    _require_teacher u db = (HTTPException 401 detail, db')
    ∧ announcements_untouched db db'.
Proof.
  intros [->|(name & -> & Hunknown)].
  { eexists _, _. split; [done|apply untouched_refl]. }
  unfold _require_teacher. destruct (str_truthy name); simpl.
  - unfold teachers_find_one. run.
    assert (find_one (Qfield "_id" (Ceq (VStr name))) (teachers_collection db)
            = None) as ->.
    { apply find_one_None. intros t Ht. rewrite matches_id by done.
      apply bool_decide_eq_false_2. by apply Hunknown. }
    eexists _, _. split; [done|apply untouched_teachers_call].
  - eexists _, _. split; [done|apply untouched_refl].
Qed.

(** A failed check is the outcome of the whole request. *)
Lemma create_rejected message end_date start_date u utcnow generated
    db status detail db' :
  _require_teacher u db = (HTTPException status detail, db') →
  create_announcement message end_date start_date u utcnow generated db
  = (HTTPException status detail, db').
Proof. intros Hu. unfold create_announcement. run. by rewrite Hu. Qed.

Lemma update_rejected id message end_date start_date u utcnow
    db status detail db' :
  _require_teacher u db = (HTTPException status detail, db') →
  update_announcement id message end_date start_date u utcnow db
  = (HTTPException status detail, db').
Proof. intros Hu. unfold update_announcement. run. by rewrite Hu. Qed.

Lemma delete_rejected id u db status detail db' :
  _require_teacher u db = (HTTPException status detail, db') →
  delete_announcement id u db = (HTTPException status detail, db').
Proof. intros Hu. unfold delete_announcement. run. by rewrite Hu. Qed.

(** C6. Create, update and delete fail with 401 "Authentication required"
    when [teacher_username] is missing, and with 401 when it is present but
    no teacher record has it as identifier. *)
Theorem unauthenticated_401 db
    (message end_date id : string) (start_date m e s : option string)
    (utcnow : datetime) (generated : ObjectId) :
  (create_announcement message end_date start_date None utcnow generated db
   = (HTTPException 401 "Authentication required", db)
   ∧ update_announcement id m e s None utcnow db
     = (HTTPException 401 "Authentication required", db)
   ∧ delete_announcement id None db
     = (HTTPException 401 "Authentication required", db))
  ∧ ∀ name, unknown_teacher name db →
      ∃ detail,
        fst (create_announcement message end_date start_date (Some name)
               utcnow generated db) = HTTPException 401 detail
        ∧ fst (update_announcement id m e s (Some name) utcnow db)
          = HTTPException 401 detail
        ∧ fst (delete_announcement id (Some name) db)
          = HTTPException 401 detail.
Proof.
  split; [done|]. intros name Hname.
  destruct (require_teacher_rejects (Some name) db) as (detail & db' & Hu & _).
  { right. eauto. }
  exists detail.
  by rewrite (create_rejected _ _ _ _ _ _ _ _ _ _ Hu),
    (update_rejected _ _ _ _ _ _ _ _ _ _ Hu), (delete_rejected _ _ _ _ _ _ Hu).
Qed.

(** C10. The authentication check comes before every other validation of
    create, update and delete: with a missing or unknown [teacher_username]
    the outcome is one and the same 401 whatever the other arguments are
    (a malformed id, an empty message, an unparseable date), and the
    announcements collection is not called. *)
Theorem authentication_first u db :
  u = None ∨ (∃ name, u = Some name ∧ unknown_teacher name db) →
  ∃ detail db',
    announcements_untouched db db'
    ∧ ∀ (message end_date id : string) (start_date m e s : option string)
        (utcnow : datetime) (generated : ObjectId),
        create_announcement message end_date start_date u utcnow generated db
        = (HTTPException 401 detail, db')
        ∧ update_announcement id m e s u utcnow db
          = (HTTPException 401 detail, db')
        ∧ delete_announcement id u db = (HTTPException 401 detail, db').
Proof.
  intros Hu.
  destruct (require_teacher_rejects u db Hu) as (detail & db' & Hr & Hun).
  exists detail, db'. split; [done|]. intros.
  by rewrite (create_rejected _ _ _ _ _ _ _ _ _ _ Hr),
    (update_rejected _ _ _ _ _ _ _ _ _ _ Hr), (delete_rejected _ _ _ _ _ _ Hr).
Qed.

(** ** Dates and identifiers of a request *)

Lemma parse_datetime_parsed text d db :
  parsed text d → _parse_datetime text db = (Return d, db).
Proof.
  unfold parsed, _parse_datetime. destruct text as [s|]; [|by intros ->].
  case_bool_decide; [by intros ->|]. intros [[d' ->] Hd]. by rewrite Hd.
Qed.

Lemma parse_datetime_cases text db :
  (∃ d, parsed text d ∧ _parse_datetime text db = (Return d, db))
  ∨ (∃ s detail, text = Some s ∧ s ≠ "" ∧ fromisoformat s = None
       ∧ _parse_datetime text db = (HTTPException 400 detail, db)).
Proof.
  unfold parsed, _parse_datetime. destruct text as [s|]; [|left; by exists None].
  case_bool_decide as Hs; [left; by exists None|].
  destruct (fromisoformat s) as [d|] eqn:Hd.
  - left. exists (Some d). eauto.
  - right. by eexists _, _.
Qed.

Lemma message_required_check message :
  negb (str_truthy message) || negb (str_truthy (strip message)) = false
  ↔ strip message ≠ "".
Proof.
  unfold str_truthy. rewrite orb_false_iff, !negb_false_iff, !negb_true_iff.
  rewrite !bool_decide_eq_false. split; [by intros [_ ?]|].
  intros Hm. split; [|done]. by intros ->.
Qed.

Lemma authenticated_run u db :
  authenticated u db →
  ∃ db1, _require_teacher u db = (Return (), db1)
    ∧ announcements_untouched db db1
    ∧ teachers_collection db1 = teachers_collection db.
Proof.
  unfold authenticated.
  destruct (require_teacher_cases u db) as (r & db1 & Hr & Hun & Ht & _).
  rewrite Hr. simpl. intros ->. eauto.
Qed.

(** ** Creating an announcement *)

Lemma insert_one_new doc generated c :
  doc !! "_id" = None →
  insert_one doc generated c
  = if existsb (has_id (Some (VOid generated))) c then None
    else Some (VOid generated,
               c ++ [<["_id" := VOid generated]> (bson_document doc)]).
Proof.
  intros Hd. unfold insert_one, with_id, bson_document. rewrite Hd.
  rewrite fmap_insert. cbn [bson_value]. by rewrite lookup_insert_eq.
Qed.

Lemma new_document_no_id message sd e now :
  new_document message sd e now !! "_id" = None.
Proof. unfold new_document. by rewrite !lookup_insert_ne, lookup_empty. Qed.

Lemma existsb_has_id_false i c :
  existsb (has_id (Some i)) c = false ↔ ∀ A, A ∈ c → A !! "_id" ≠ Some i.
Proof.
  rewrite <- not_true_iff_false, existsb_exists. unfold has_id.
  setoid_rewrite bool_decide_eq_true. setoid_rewrite <- list_elem_of_In.
  naive_solver.
Qed.

Lemma find_one_inserted generated c A :
  (∀ B, B ∈ c → B !! "_id" ≠ Some (VOid generated)) →
  A !! "_id" = Some (VOid generated) →
  find_one (by_id generated) (c ++ [A]) = Some A.
Proof.
  intros Hc HA. apply find_one_app_fresh.
  - intros B HB. unfold by_id. rewrite matches_id by done.
    apply bool_decide_eq_false_2. by apply Hc.
  - unfold by_id. rewrite matches_id by done. by apply bool_decide_eq_true_2.
Qed.

(** The announcement as [create_announcement] stores it. *)
Lemma create_succeeds message end_date start_date u utcnow generated db e sd :
  authenticated u db →
  strip message ≠ "" →
  fromisoformat end_date = Some e →
  parsed start_date sd →
  fresh_id generated db →
  let stored :=
    <["_id" := VOid generated]>
      (bson_document (new_document (strip message) sd e utcnow)) in
  ∃ db',
    create_announcement message end_date start_date u utcnow generated db
    = (Return (serialized stored), db')
    ∧ announcements_collection db'
      = announcements_collection db ++ [stored].
Proof.
  intros (db1 & Hu & [Hann _] & _)%authenticated_run Hm He Hs Hfresh stored.
  assert (parsed (Some end_date) (Some e)) as Hend.
  { unfold parsed. case_bool_decide as Hempty; [|by eauto].
    rewrite Hempty, fromisoformat_empty in He. done. }
  unfold create_announcement. unfold mbind, handler_bind at 1. rewrite Hu.
  apply message_required_check in Hm. rewrite Hm.
  unfold mbind, handler_bind at 1.
  rewrite (parse_datetime_parsed _ _ _ Hend).
  unfold mbind, handler_bind at 1.
  rewrite (parse_datetime_parsed _ _ _ Hs).
  cbv zeta. unfold mbind, handler_bind at 1.
  unfold announcements_insert_one.
  rewrite insert_one_new by apply new_document_no_id.
  rewrite Hann.
  assert (existsb (has_id (Some (VOid generated))) (announcements_collection db)
          = false) as -> by by apply existsb_has_id_false.
  fold stored. unfold mbind, handler_bind, announcements_find_one. simpl.
  rewrite (find_one_inserted generated _ stored);
    [|done|by apply lookup_insert_eq].
  simpl. erewrite to_response_serialized by by apply lookup_insert_eq.
  eauto.
Qed.

Lemma create_inversion message end_date start_date u utcnow generated
    db out db' :
  create_announcement message end_date start_date u utcnow generated db
  = (Return out, db') →
  ∃ e sd,
    authenticated u db ∧ strip message ≠ ""
    ∧ fromisoformat end_date = Some e ∧ parsed start_date sd
    ∧ fresh_id generated db.
Proof.
  intros Hrun.
  destruct (require_teacher_cases u db)
    as (r & db1 & Hu & [Hann _] & _ & [-> | [detail ->]]).
  2: { by rewrite (create_rejected _ _ _ _ _ _ _ _ _ _ Hu) in Hrun. }
  assert (authenticated u db) as Hauth by (unfold authenticated; by rewrite Hu).
  unfold create_announcement in Hrun.
  unfold mbind, handler_bind at 1 in Hrun. rewrite Hu in Hrun.
  destruct (negb (str_truthy message) || negb (str_truthy (strip message)))
    eqn:Hm; [done|].
  apply message_required_check in Hm.
  unfold mbind, handler_bind at 1 in Hrun.
  destruct (parse_datetime_cases (Some end_date) db1)
    as [(d & Hd & Hp)|(? & ? & _ & _ & _ & Hp)]; rewrite Hp in Hrun; [|done].
  destruct d as [e|]; [|done].
  unfold mbind, handler_bind at 1 in Hrun.
  destruct (parse_datetime_cases start_date db1)
    as [(sd & Hsd & Hp')|(? & ? & _ & _ & _ & Hp')]; rewrite Hp' in Hrun;
    [|done].
  cbv zeta in Hrun.
  unfold mbind, handler_bind at 1 in Hrun.
  unfold announcements_insert_one in Hrun.
  rewrite insert_one_new in Hrun by apply new_document_no_id.
  destruct (existsb (has_id (Some (VOid generated)))
              (announcements_collection db1)) eqn:Hex; [done|].
  exists e, sd. split_and!; try done.
  - unfold parsed in Hd. case_bool_decide; [done|]. by destruct Hd.
  - unfold fresh_id. rewrite <- Hann. by apply existsb_has_id_false.
Qed.

(** C2 (as amended). After a create that succeeds, reading the record back by
    its identifier gives the message with its surrounding whitespace trimmed,
    and the two dates as the store keeps them: the start date the request
    stood for (null when absent or empty) and the end date it parsed to,
    each cut to the millisecond.  The response carries the same message and
    the ISO-8601 text of these two dates, so that a date which has nothing
    beyond the millisecond reads back as it was supplied. *)
Theorem create_read_back message end_date start_date u utcnow generated
    db out db' :
  create_announcement message end_date start_date u utcnow generated db
  = (Return out, db') →
  ∃ stored e sd,
    find_one (by_id generated) (announcements_collection db') = Some stored
    ∧ out = serialized stored
    ∧ fromisoformat end_date = Some e ∧ parsed start_date sd
    ∧ stored !! "message" = Some (VStr (strip message))
    ∧ stored !! "start_date" = Some (opt_date (bson_date <$> sd))
    ∧ stored !! "end_date" = Some (VDate (bson_date e))
    ∧ out !! "message" = Some (VStr (strip message))
    ∧ out !! "start_date" = Some (iso_value (opt_date (bson_date <$> sd)))
    ∧ out !! "end_date" = Some (VStr (isoformat (bson_date e)))
    ∧ (bson_date e = e → out !! "end_date" = Some (VStr (isoformat e)))
    ∧ (bson_date <$> sd = sd →
       out !! "start_date" = Some (iso_value (opt_date sd))).
Proof.
  intros Hrun.
  destruct (create_inversion _ _ _ _ _ _ _ _ _ Hrun)
    as (e & sd & Hauth & Hm & He & Hsd & Hfresh).
  destruct (create_succeeds message end_date start_date u utcnow generated
              db e sd Hauth Hm He Hsd Hfresh) as (db2 & Hrun' & Hstore).
  rewrite Hrun in Hrun'. injection Hrun' as -> <-.
  set (stored := <["_id" := VOid generated]>
                   (bson_document (new_document (strip message) sd e utcnow)))
    in *.
  assert (stored !! "message" = Some (VStr (strip message))
          ∧ stored !! "start_date" = Some (opt_date (bson_date <$> sd))
          ∧ stored !! "end_date" = Some (VDate (bson_date e)))
    as (Hmsg & Hstart & Hend).
  { unfold stored. rewrite bson_new_document. unfold new_document. split_and!.
    - rewrite lookup_insert_ne by done. apply lookup_insert_eq.
    - rewrite !lookup_insert_ne by done. apply lookup_insert_eq.
    - rewrite !lookup_insert_ne by done. apply lookup_insert_eq. }
  assert (serialized stored !! "start_date"
          = Some (iso_value (opt_date (bson_date <$> sd)))
          ∧ serialized stored !! "end_date"
            = Some (VStr (isoformat (bson_date e))))
    as [Hout_start Hout_end].
  { split.
    - rewrite serialized_date, Hstart; [done|]. unfold date_keys. set_solver.
    - rewrite serialized_date, Hend; [done|]. unfold date_keys. set_solver. }
  exists stored, e, sd. split_and!; try done.
  - rewrite Hstore. apply find_one_inserted; [done|].
    apply lookup_insert_eq.
  - by rewrite serialized_message.
  - intros Hkept. by rewrite Hkept in Hout_end.
  - intros Hkept. by rewrite Hkept in Hout_start.
Qed.

(** ** Updating an announcement *)

Lemma update_fields_cases m e s utcnow db :
  (∃ ed sd, message_ok m ∧ parsed s sd ∧ parsed_end e ed
     ∧ update_fields m e s utcnow db
       = (Return (fields_set m e s ed sd utcnow), db))
  ∨ (∃ detail,
       update_fields m e s utcnow db = (HTTPException 400 detail, db)).
Proof.
  assert (∀ text, negb (str_truthy (strip text)) = false → strip text ≠ "")
    as Hcheck.
  { intros text. unfold str_truthy.
    by rewrite negb_false_iff, negb_true_iff, bool_decide_eq_false. }
  unfold update_fields, fields_set, message_ok, parsed, parsed_end,
    _parse_datetime.
  destruct m as [text|];
    [destruct (negb (str_truthy (strip text))) eqn:Hm; [|apply Hcheck in Hm]|];
    destruct s as [s|]; destruct e as [e|]; run; rewrite ?Hm; simpl;
    repeat case_bool_decide; simplify_eq;
    rewrite ?fromisoformat_empty;
    repeat (match goal with
            | |- context [fromisoformat ?x] =>
                destruct (fromisoformat x) eqn:?
            end); simpl;
    try (right; by eexists).
  all: left; eexists _, _; repeat split; try done; eauto.
Qed.

Lemma update_fields_valid m e s ed sd utcnow db :
  message_ok m → parsed s sd → parsed_end e ed →
  update_fields m e s utcnow db = (Return (fields_set m e s ed sd utcnow), db).
Proof.
  unfold update_fields, fields_set, message_ok, parsed, parsed_end,
    _parse_datetime, str_truthy.
  intros Hm Hs He.
  destruct m as [text|]; [rewrite (bool_decide_eq_false_2 _ Hm)|];
    destruct s as [s|]; destruct e as [e|]; run;
    repeat case_bool_decide; destruct_and?;
    repeat match goal with
           | H : is_Some _ |- _ => destruct H as [? ->]
           | H : fromisoformat _ = _ |- _ => rewrite H
           end; simplify_eq/=; try done.
  all: match goal with
       | H : fromisoformat "" = Some _ |- _ =>
           by rewrite fromisoformat_empty in H
       end.
Qed.

Lemma fields_set_no_id m e s ed sd utcnow :
  bson_document (fields_set m e s ed sd utcnow) !! "_id" = None.
Proof.
  rewrite bson_fields_set. unfold fields_set.
  destruct m, s, e, ed; cbv zeta; simpl;
    by rewrite ?lookup_insert_ne by done.
Qed.

Lemma update_found id m e s u utcnow db ed sd oid old :
  authenticated u db → message_ok m → parsed s sd → parsed_end e ed →
  ObjectId_parse id = Some oid →
  find_one (by_id oid) (announcements_collection db) = Some old →
  let new := bson_document (fields_set m e s ed sd utcnow) ∪ old in
  ∃ db',
    update_announcement id m e s u utcnow db = (Return (serialized new), db')
    ∧ find_one (by_id oid) (announcements_collection db') = Some new
    ∧ ∃ c1 c2, announcements_collection db = c1 ++ old :: c2
               ∧ announcements_collection db' = c1 ++ new :: c2.
Proof.
  intros (db1 & Hu & [Hann _] & _)%authenticated_run Hm Hs He Hid Hold new.
  unfold update_announcement. unfold mbind, handler_bind at 1. rewrite Hu.
  unfold mbind, handler_bind at 1.
  rewrite (update_fields_valid m e s ed sd) by done.
  unfold _to_object_id. rewrite Hid.
  unfold mbind, handler_bind, mret, handler_ret, announcements_update_one,
    announcements_find_one.
  rewrite Hann.
  pose proof (update_one_spec (by_id oid) (fields_set m e s ed sd utcnow)
                (announcements_collection db)) as Hup.
  rewrite Hold in Hup. destruct Hup as (c1 & c2 & Hc & Hc1 & Hup).
  fold (by_id oid). rewrite Hup. simpl.
  assert (old !! "_id" = Some (VOid oid)) as Hold_id.
  { apply find_one_Some in Hold as [_ Hmatch]. unfold by_id in Hmatch.
    rewrite matches_id in Hmatch by done. by apply bool_decide_eq_true in Hmatch. }
  assert (new !! "_id" = Some (VOid oid)) as Hnew_id.
  { unfold new. rewrite lookup_union_r by apply fields_set_no_id. done. }
  assert (find_one (by_id oid) (c1 ++ new :: c2) = Some new) as Hfind.
  { apply find_one_middle; [done|]. unfold by_id.
    rewrite matches_id by done. by apply bool_decide_eq_true_2. }
  fold new. rewrite Hfind. simpl.
  rewrite (to_response_serialized _ _ _ Hnew_id). eauto 10.
Qed.

(** Every way an update can end. *)
Lemma update_cases id m e s u utcnow db :
  ∃ r db',
    update_announcement id m e s u utcnow db = (r, db')
    ∧ ((¬ authenticated u db ∧ announcements_untouched db db'
        ∧ ∃ detail, r = HTTPException 401 detail)
       ∨ (authenticated u db ∧ ¬ fields_valid m e s
          ∧ announcements_untouched db db'
          ∧ ∃ detail, r = HTTPException 400 detail)
       ∨ (authenticated u db ∧ fields_valid m e s
          ∧ match ObjectId_parse id with
            | None =>
                announcements_untouched db db'
                ∧ r = HTTPException 400 "Invalid announcement id"
            | Some oid =>
                match find_one (by_id oid) (announcements_collection db) with
                | None =>
                    announcements_collection db' = announcements_collection db
                    ∧ r = HTTPException 404 "Announcement not found"
                | Some old =>
                    ∃ ed sd, parsed s sd ∧ parsed_end e ed
                      ∧ let new :=
                          bson_document (fields_set m e s ed sd utcnow) ∪ old in
                        r = Return (serialized new)
                        ∧ find_one (by_id oid) (announcements_collection db')
                          = Some new
                end
            end)).
Proof.
  destruct (require_teacher_cases u db)
    as (r & db1 & Hu & Hun & _ & [-> | [detail ->]]).
  2: { eexists _, _. split; [by apply update_rejected|]. left.
       split_and!; [|done|by eauto]. unfold authenticated. by rewrite Hu. }
  assert (authenticated u db) as Hauth by (unfold authenticated; by rewrite Hu).
  destruct (update_fields_cases m e s utcnow db1)
    as [(ed & sd & Hm & Hs & He & Hf) | (detail & Hf)].
  2: { eexists _, _. split.
       { unfold update_announcement. unfold mbind, handler_bind at 1.
         rewrite Hu. unfold mbind, handler_bind at 1. by rewrite Hf. }
       right; left. split_and!; [done| |done|by eauto].
       intros (Hm & [sd Hs] & [ed He]).
       by rewrite (update_fields_valid m e s ed sd) in Hf. }
  assert (fields_valid m e s) as Hvalid by (split_and!; eauto).
  destruct (ObjectId_parse id) as [oid|] eqn:Hid.
  2: { eexists _, _. split.
       { unfold update_announcement. unfold mbind, handler_bind at 1.
         rewrite Hu. unfold mbind, handler_bind at 1. rewrite Hf.
         unfold mbind, handler_bind at 1. unfold _to_object_id.
         by rewrite Hid. }
       right; right. by split_and!. }
  destruct (find_one (by_id oid) (announcements_collection db))
    as [old|] eqn:Hfind.
  - destruct (update_found id m e s u utcnow db ed sd oid old)
      as (db' & Hrun & Hnew & _); try done.
    eexists _, _. split; [exact Hrun|]. right; right.
    split_and!; [done..|]. by exists ed, sd.
  - destruct Hun as [Hann _]. eexists _, _. split.
    { unfold update_announcement. unfold mbind, handler_bind at 1.
      rewrite Hu. unfold mbind, handler_bind at 1. rewrite Hf.
      unfold mbind, handler_bind at 1. unfold _to_object_id.
      rewrite Hid.
      unfold mbind, handler_bind, mret, handler_ret, announcements_update_one.
      rewrite Hann.
      pose proof (update_one_spec (by_id oid) (fields_set m e s ed sd utcnow)
                    (announcements_collection db)) as Hup.
      rewrite Hfind in Hup. fold (by_id oid). rewrite Hup. simpl. done. }
    right; right. by split_and!.
Qed.

Lemma fields_set_lookup m e s ed sd utcnow :
  parsed_end e ed →
  let update := bson_document (fields_set m e s ed sd utcnow) in
  update !! "updated_at" = Some (VDate (bson_date utcnow))
  ∧ update !! "created_at" = None
  ∧ update !! "message" = (λ text, VStr (strip text)) <$> m
  ∧ update !! "start_date" = (λ _, opt_date (bson_date <$> sd)) <$> s
  ∧ update !! "end_date" = VDate <$> (bson_date <$> ed).
Proof.
  rewrite bson_fields_set. unfold parsed_end, fields_set. intros He. cbv zeta.
  destruct e as [e|]; [destruct He as [[d ->] _]|subst ed];
    destruct m, s; simpl; split_and!;
    by rewrite ?lookup_insert_eq, ?lookup_insert_ne, ?lookup_insert_eq by done.
Qed.

(** C4. In an update, an [end_date] that is given but empty or unparseable
    makes the request fail and nothing is written: the end date cannot be
    cleared.  The failure is InvalidInput (400) for a caller that passed the
    authentication check, which comes first (401 otherwise).  An empty
    [start_date] instead clears the start date: the request goes on and the
    record, like the response, then holds null. *)
Theorem update_end_date_required id m e s u utcnow db :
  (∀ text, e = Some text → text = "" ∨ fromisoformat text = None →
     ∃ status detail db',
       update_announcement id m e s u utcnow db
       = (HTTPException status detail, db')
       ∧ announcements_untouched db db'
       ∧ (authenticated u db → status = 400)
       ∧ (¬ authenticated u db → status = 401))
  ∧ (s = Some "" → authenticated u db → message_ok m →
     (∃ ed, parsed_end e ed) →
     ∀ oid old,
       ObjectId_parse id = Some oid →
       find_one (by_id oid) (announcements_collection db) = Some old →
       ∃ out db' new,
         update_announcement id m e s u utcnow db = (Return out, db')
         ∧ find_one (by_id oid) (announcements_collection db') = Some new
         ∧ new !! "start_date" = Some VNull
         ∧ out !! "start_date" = Some VNull).
Proof.
  split.
  - intros text -> Hbad.
    assert (¬ fields_valid m (Some text) s) as Hinvalid.
    { intros (_ & _ & [ed [[d ->] Hd]]). simpl in Hd.
      destruct Hbad as [-> | Hnone]; [|congruence].
      by rewrite fromisoformat_empty in Hd. }
    destruct (update_cases id m (Some text) s u utcnow db)
      as (r & db' & Hrun & [(Hno & Hun & detail & ->)
                           |[(Hauth & _ & Hun & detail & ->)|(_ & Hv & _)]]);
      [| |done].
    + by exists 401, detail, db'.
    + by exists 400, detail, db'.
  - intros -> Hauth Hm [ed He] oid old Hid Hold.
    assert (parsed (Some "") None) as Hs by done.
    destruct (update_found id m e (Some "") u utcnow db ed None oid old)
      as (db' & Hrun & Hnew & _); try done.
    destruct (fields_set_lookup m e (Some "") ed None utcnow He)
      as (_ & _ & _ & Hstart & _). simpl in Hstart.
    eexists _, db', _. split_and!; [exact Hrun|exact Hnew| |].
    + by rewrite (lookup_union_Some_l _ _ _ _ Hstart).
    + rewrite serialized_date by (unfold date_keys; set_solver).
      by rewrite (lookup_union_Some_l _ _ _ _ Hstart).
Qed.

(** C5 (as amended). After a successful update that provides only [message],
    the stored record has the [start_date], [end_date] and [created_at] it
    had, and its [updated_at] is the current UTC instant as the store keeps
    it, cut to the millisecond; [updated_at] has therefore changed, except
    when the record already held that very instant. *)
Theorem update_message_only id text u utcnow db out db' :
  update_announcement id (Some text) None None u utcnow db = (Return out, db') →
  ∃ oid old new,
    ObjectId_parse id = Some oid
    ∧ find_one (by_id oid) (announcements_collection db) = Some old
    ∧ find_one (by_id oid) (announcements_collection db') = Some new
    ∧ new !! "start_date" = old !! "start_date"
    ∧ new !! "end_date" = old !! "end_date"
    ∧ new !! "created_at" = old !! "created_at"
    ∧ new !! "message" = Some (VStr (strip text))
    ∧ new !! "updated_at" = Some (VDate (bson_date utcnow))
    ∧ (new !! "updated_at" = old !! "updated_at"
       ↔ old !! "updated_at" = Some (VDate (bson_date utcnow))).
Proof.
  intros Hrun.
  destruct (update_cases id (Some text) None None u utcnow db)
    as (r & db2 & Hrun' & Hcases).
  rewrite Hrun in Hrun'. injection Hrun' as <- <-.
  destruct Hcases as [(_ & _ & ? & [=])|[(_ & _ & _ & ? & [=])|(_ & _ & Hok)]].
  destruct (ObjectId_parse id) as [oid|] eqn:Hid; [|by destruct Hok].
  destruct (find_one (by_id oid) (announcements_collection db))
    as [old|] eqn:Hold; [|by destruct Hok].
  destruct Hok as (ed & sd & Hs & He & _ & Hnew).
  destruct (fields_set_lookup (Some text) None None ed sd utcnow He)
    as (Hupdated & Hcreated & Hmessage & Hstart & Hend).
  simpl in He. subst ed. simpl in *.
  eexists oid, old, _. split_and!; [done|done|exact Hnew|..].
  - by rewrite lookup_union_r.
  - by rewrite lookup_union_r.
  - by rewrite lookup_union_r.
  - by rewrite (lookup_union_Some_l _ _ _ _ Hmessage).
  - by rewrite (lookup_union_Some_l _ _ _ _ Hupdated).
  - rewrite (lookup_union_Some_l _ _ _ _ Hupdated). split; congruence.
Qed.

Lemma parsed_fromisoformat text d :
  fromisoformat text = Some d →
  parsed (Some text) (Some d) ∧ parsed_end (Some text) (Some d).
Proof.
  intros Hd. unfold parsed, parsed_end. case_bool_decide as Hempty; [|by eauto].
  by rewrite Hempty, fromisoformat_empty in Hd.
Qed.

(** C8. Nothing compares the two dates: a create or an update by an
    authenticated teacher, with a message that is not empty and dates that
    parse, succeeds although [start_date] is strictly after [end_date], and
    the record holds both dates, as the store keeps them. *)
Theorem start_after_end_accepted message end_date start_date u utcnow db e sd :
  authenticated u db →
  fromisoformat end_date = Some e →
  fromisoformat start_date = Some sd →
  ¬ datetime_le sd e →
  (∀ generated,
     strip message ≠ "" → fresh_id generated db →
     ∃ out db' stored,
       create_announcement message end_date (Some start_date) u utcnow
         generated db = (Return out, db')
       ∧ find_one (by_id generated) (announcements_collection db')
         = Some stored
       ∧ stored !! "start_date" = Some (VDate (bson_date sd))
       ∧ stored !! "end_date" = Some (VDate (bson_date e)))
  ∧ (∀ id m oid old,
       message_ok m →
       ObjectId_parse id = Some oid →
       find_one (by_id oid) (announcements_collection db) = Some old →
       ∃ out db' new,
         update_announcement id m (Some end_date) (Some start_date) u utcnow db
         = (Return out, db')
         ∧ find_one (by_id oid) (announcements_collection db') = Some new
         ∧ new !! "start_date" = Some (VDate (bson_date sd))
         ∧ new !! "end_date" = Some (VDate (bson_date e))).
Proof.
  intros Hauth He Hsd _.
  destruct (parsed_fromisoformat _ _ He) as [_ Hend].
  destruct (parsed_fromisoformat _ _ Hsd) as [Hstart _].
  split.
  - intros generated Hm Hfresh.
    destruct (create_succeeds message end_date (Some start_date) u utcnow
                generated db e (Some sd)) as (db' & Hrun & Hstore); try done.
    eexists _, db', _. split_and!; [exact Hrun| | |].
    + rewrite Hstore. apply find_one_inserted; [done|].
      apply lookup_insert_eq.
    + rewrite bson_new_document. unfold new_document.
      rewrite !lookup_insert_ne by done. apply lookup_insert_eq.
    + rewrite bson_new_document. unfold new_document.
      rewrite !lookup_insert_ne by done. apply lookup_insert_eq.
  - intros id m oid old Hm Hid Hold.
    destruct (update_found id m (Some end_date) (Some start_date) u utcnow db
                (Some e) (Some sd) oid old) as (db' & Hrun & Hnew & _);
      try done.
    destruct (fields_set_lookup m (Some end_date) (Some start_date)
                (Some e) (Some sd) utcnow Hend)
      as (_ & _ & _ & Hs & Hed). simpl in Hs, Hed.
    eexists _, db', _. split_and!; [exact Hrun|exact Hnew| |].
    + by rewrite (lookup_union_Some_l _ _ _ _ Hs).
    + by rewrite (lookup_union_Some_l _ _ _ _ Hed).
Qed.

(** ** Malformed identifiers *)

Lemma delete_malformed id u db :
  ObjectId_parse id = None →
  ∃ status detail db',
    delete_announcement id u db = (HTTPException status detail, db')
    ∧ announcements_untouched db db'
    ∧ (authenticated u db →
       status = 400 ∧ detail = "Invalid announcement id")
    ∧ (¬ authenticated u db → status = 401).
Proof.
  intros Hid.
  destruct (require_teacher_cases u db)
    as (r & db1 & Hu & Hun & _ & [-> | [detail ->]]).
  - exists 400, "Invalid announcement id", db1. split_and!; [|done|done|].
    + unfold delete_announcement. unfold mbind, handler_bind at 1. rewrite Hu.
      unfold mbind, handler_bind at 1. unfold _to_object_id. by rewrite Hid.
    + intros []. unfold authenticated. by rewrite Hu.
  - exists 401, detail, db1. split_and!; [by apply delete_rejected|done| |done].
    unfold authenticated. by rewrite Hu.
Qed.

(** C9 (as amended). An update or a delete given a malformed identifier
    fails without any call on the announcements collection.  For a caller
    that passed the authentication check the failure is InvalidInput (400),
    401 otherwise; its detail is "Invalid announcement id" for a delete, and
    for an update whose message and dates pass their own validation, which
    comes before the identifier is looked at. *)
Theorem malformed_id_rejected id u db :
  ObjectId_parse id = None →
  (∀ m e s utcnow,
     ∃ status detail db',
       update_announcement id m e s u utcnow db
       = (HTTPException status detail, db')
       ∧ announcements_untouched db db'
       ∧ (authenticated u db →
          status = 400
          ∧ (fields_valid m e s → detail = "Invalid announcement id"))
       ∧ (¬ authenticated u db → status = 401))
  ∧ (∃ status detail db',
       delete_announcement id u db = (HTTPException status detail, db')
       ∧ announcements_untouched db db'
       ∧ (authenticated u db →
          status = 400 ∧ detail = "Invalid announcement id")
       ∧ (¬ authenticated u db → status = 401)).
Proof.
  intros Hid. split; [|by apply delete_malformed].
  intros m e s utcnow.
  destruct (update_cases id m e s u utcnow db)
    as (r & db' & Hrun & [(Hno & Hun & detail & ->)
                         |[(Hauth & Hinvalid & Hun & detail & ->)
                          |(Hauth & Hvalid & Hok)]]).
  - by exists 401, detail, db'.
  - exists 400, detail, db'. by split_and!.
  - rewrite Hid in Hok. destruct Hok as [Hun ->].
    exists 400, "Invalid announcement id", db'. by split_and!.
Qed.

(** ** The reference time of list-active *)

(** C3 (as amended). Without a [now] parameter, or with an empty one, the
    reference time of list-active is the current UTC instant.  A [now] that
    is not empty and does not parse as ISO-8601 makes the request fail with
    the parser's [ValueError], which is not turned into an [HTTPException],
    before the store is called. *)
Theorem reference_time_default now utcnow db :
  (now = None ∨ now = Some "" →
   get_active_announcements now utcnow db = active_announcements utcnow db)
  ∧ (∀ s, now = Some s → s ≠ "" → fromisoformat s = None →
     get_active_announcements now utcnow db = (Raise ValueError, db)).
Proof.
  split.
  - by intros [-> | ->].
  - intros s -> Hs Hparse.
    unfold get_active_announcements, reference_time, str_truthy.
    unfold mbind, handler_bind.
    by rewrite (bool_decide_eq_false_2 _ Hs), Hparse.
Qed.

(** ** Checking the hypotheses on a concrete database *)

Lemma identified_check c :
  forallb (λ A, bool_decide (is_Some (A !! "_id"))) c = true → identified c.
Proof.
  rewrite forallb_forall. intros Hall A HA%list_elem_of_In.
  apply Hall in HA. by apply bool_decide_eq_true in HA.
Qed.

Lemma unknown_teacher_check name db :
  forallb (λ t, negb (bool_decide (t !! "_id" = Some (VStr name))))
    (teachers_collection db) = true →
  unknown_teacher name db.
Proof.
  rewrite forallb_forall. intros Hall t Ht%list_elem_of_In.
  apply Hall in Ht. by apply negb_true_iff, bool_decide_eq_false in Ht.
Qed.

Lemma fresh_id_check generated db :
  existsb (has_id (Some (VOid generated))) (announcements_collection db)
  = false →
  fresh_id generated db.
Proof. intros Hex. unfold fresh_id. by apply existsb_has_id_false. Qed.

End Properties.

(** * Further properties *)

(** ** Trimming *)

Section Trimming.

Lemma list_ascii_rev_app s1 s2 :
  list_ascii_of_string (String.rev_app s1 s2)
  = reverse (list_ascii_of_string s1) ++ list_ascii_of_string s2.
Proof.
  revert s2. induction s1 as [|a s1 IH]; intros s2; simpl; [done|].
  rewrite IH. simpl. by rewrite reverse_cons, <- app_assoc.
Qed.

Lemma list_ascii_rev s :
  list_ascii_of_string (String.rev s) = reverse (list_ascii_of_string s).
Proof. unfold String.rev. by rewrite list_ascii_rev_app, app_nil_r. Qed.

Lemma list_ascii_lstrip s :
  list_ascii_of_string (lstrip s) = lstrip_chars (list_ascii_of_string s).
Proof.
  induction s as [|a s IH]; simpl; [done|]. by destruct (isspace a).
Qed.

Lemma list_ascii_rstrip s :
  list_ascii_of_string (rstrip s)
  = reverse (lstrip_chars (reverse (list_ascii_of_string s))).
Proof. unfold rstrip. by rewrite list_ascii_rev, list_ascii_lstrip, list_ascii_rev. Qed.

Lemma list_ascii_inj s1 s2 :
  list_ascii_of_string s1 = list_ascii_of_string s2 → s1 = s2.
Proof.
  intros Heq. rewrite <- (string_of_list_ascii_of_string s1),
    <- (string_of_list_ascii_of_string s2). by rewrite Heq.
Qed.

Lemma lstrip_chars_nil l :
  lstrip_chars l = [] ↔ Forall (λ c, isspace c = true) l.
Proof.
  induction l as [|c l IH]; simpl; [by split|].
  destruct (isspace c) eqn:Hc.
  - rewrite IH. split; [by constructor|by inversion 1].
  - split; [done|]. inversion 1; congruence.
Qed.

Lemma lstrip_chars_clean l : starts_clean (lstrip_chars l).
Proof.
  induction l as [|c l IH]; simpl; [done|]. by destruct (isspace c) eqn:Hc.
Qed.

Lemma lstrip_chars_id l : starts_clean l → lstrip_chars l = l.
Proof. destruct l as [|c l]; simpl; [done|]. by intros ->. Qed.

Lemma lstrip_chars_app l c l' :
  isspace c = false →
  lstrip_chars (l ++ c :: l') = lstrip_chars l ++ c :: l'.
Proof.
  intros Hc. induction l as [|a l IH]; simpl; [by rewrite Hc|].
  by destruct (isspace a).
Qed.

Lemma strip_chars s :
  let r := list_ascii_of_string (strip s) in
  starts_clean r ∧ starts_clean (reverse r)
  ∧ (r = [] ↔ blank s).
Proof.
  unfold strip, blank. rewrite list_ascii_rstrip, list_ascii_lstrip.
  set (l := list_ascii_of_string s).
  pose proof (lstrip_chars_clean l) as Hclean.
  pose proof (lstrip_chars_nil l) as Hnil.
  destruct (lstrip_chars l) as [|c t] eqn:Ht; cbv zeta.
  { split_and!; [done..|]. rewrite <- Hnil. done. }
  simpl in Hclean. rewrite reverse_cons, lstrip_chars_app by done.
  rewrite reverse_app. simpl. split_and!.
  - done.
  - rewrite reverse_cons, reverse_involutive.
    rewrite <- (lstrip_chars_app _ _ []) by done. apply lstrip_chars_clean.
  - split; [done|]. intros Hall%Hnil. done.
Qed.

Lemma strip_blank s : strip s = "" ↔ blank s.
Proof.
  destruct (strip_chars s) as (_ & _ & Hnil). cbv zeta in Hnil.
  rewrite <- Hnil. split; [by intros ->|].
  intros Hr. by apply list_ascii_inj.
Qed.

Lemma strip_trimmed s : trimmed (strip s).
Proof.
  destruct (strip_chars s) as (Hstart & Hend & _). cbv zeta in *.
  split; apply list_ascii_inj.
  - by rewrite list_ascii_lstrip, lstrip_chars_id.
  - by rewrite list_ascii_rstrip, lstrip_chars_id, reverse_involutive.
Qed.

End Trimming.


Section Further.
Context `{platform : Platform}.

Implicit Types (db : database) (A B doc : document) (c : list document).

Ltac step :=
  unfold mbind, handler_bind, mret, handler_ret, throw, throw_exn in *;
  simpl in *.

(** ** The steps of a request, with what they leave behind *)

Lemma parse_datetime_run text db :
  _parse_datetime text db = (parse_outcome text, db).
Proof.
  unfold _parse_datetime, parse_outcome. destruct text as [s|]; [|done].
  case_bool_decide; [done|]. by destruct (fromisoformat s).
Qed.

Lemma parse_outcome_cases text :
  (∃ d, parsed text d ∧ parse_outcome text = Return d)
  ∨ (∃ s, text = Some s ∧ s ≠ "" ∧ fromisoformat s = None
       ∧ parse_outcome text
         = HTTPException 400 ("Invalid datetime format: " +:+ s)).
Proof.
  unfold parsed, parse_outcome. destruct text as [s|]; [|left; by exists None].
  case_bool_decide as Hs; [left; by exists None|].
  destruct (fromisoformat s) as [d|] eqn:Hd.
  - left. exists (Some d). eauto.
  - right. by exists s.
Qed.

Lemma untouched_teachers_only db db1 log :
  announcements_collection db1 = announcements_collection db →
  calls db1 = calls db ++ log →
  log `prefix_of` [(teachers, "find_one")] →
  announcements_untouched db db1.
Proof.
  intros Hann Hcalls [k Hk]. split; [done|]. exists log. split; [done|].
  intros method Hin.
  assert ((announcements, method) ∈ [(teachers, "find_one")]) as Hin'.
  { rewrite Hk. apply elem_of_app. by left. }
  by apply list_elem_of_singleton in Hin'.
Qed.

Lemma require_teacher_footprint u db :
  ∃ r db1 log,
    _require_teacher u db = (r, db1)
    ∧ announcements_collection db1 = announcements_collection db
    ∧ teachers_collection db1 = teachers_collection db
    ∧ calls db1 = calls db ++ log
    ∧ ((authenticated u db ∧ r = Return ()
        ∧ log = [(teachers, "find_one")])
       ∨ (¬ authenticated u db ∧ (∃ detail, r = HTTPException 401 detail)
          ∧ log `prefix_of` [(teachers, "find_one")])).
Proof.
  unfold authenticated, _require_teacher.
  destruct u as [name|]; [destruct (str_truthy name)|]; simpl.
  - unfold teachers_find_one, called. step.
    destruct (doc_truthy _); simpl;
      eexists _, _, [(teachers, "find_one")];
      (split_and!; [done..|]); [left|right]; eauto.
  - eexists _, _, []. split_and!; [done|done|done|by rewrite app_nil_r|].
    right. split_and!; [done|by eauto|by eexists].
  - eexists _, _, []. split_and!; [done|done|done|by rewrite app_nil_r|].
    right. split_and!; [done|by eauto|by eexists].
Qed.

Lemma untouched_by_log db db' log :
  announcements_collection db' = announcements_collection db →
  calls db' = calls db ++ log →
  log `prefix_of` [(teachers, "find_one")] →
  announcements_untouched db db'.
Proof. apply untouched_teachers_only. Qed.

Lemma create_after_checks message end_date start_date u utcnow generated
    db db1 :
  _require_teacher u db = (Return (), db1) →
  strip message ≠ "" →
  create_announcement message end_date start_date u utcnow generated db
  = match parse_outcome (Some end_date) with
    | Return (Some e) =>
        match parse_outcome start_date with
        | Return sd =>
            (inserted_id ←
               announcements_insert_one
                 (new_document (strip message) sd e utcnow) generated;
             created ←
               announcements_find_one (Qfield "_id" (Ceq inserted_id));
             found_response created) db1
        | HTTPException status detail => (HTTPException status detail, db1)
        | Raise x => (Raise x, db1)
        end
    | Return None => (HTTPException 400 "end_date is required", db1)
    | HTTPException status detail => (HTTPException status detail, db1)
    | Raise x => (Raise x, db1)
    end.
Proof.
  intros Hu Hm. unfold create_announcement.
  unfold mbind, handler_bind at 1. rewrite Hu.
  apply message_required_check in Hm as ->.
  unfold mbind, handler_bind at 1. rewrite parse_datetime_run.
  destruct (parse_outcome (Some end_date)) as [[e|]| |]; try done.
  unfold mbind, handler_bind at 1. rewrite parse_datetime_run.
  by destruct (parse_outcome start_date).
Qed.

Lemma insert_and_read doc generated db1 :
  doc !! "_id" = None →
  let stored := <["_id" := VOid generated]> (bson_document doc) in
  ∃ r db',
    (inserted_id ← announcements_insert_one doc generated;
     created ← announcements_find_one (Qfield "_id" (Ceq inserted_id));
     found_response created) db1 = (r, db')
    ∧ teachers_collection db' = teachers_collection db1
    ∧ ((¬ fresh_id generated db1 ∧ r = Raise DuplicateKeyError
        ∧ announcements_collection db' = announcements_collection db1
        ∧ calls db' = calls db1 ++ [(announcements, "insert_one")])
       ∨ (fresh_id generated db1 ∧ r = Return (serialized stored)
          ∧ announcements_collection db'
            = announcements_collection db1 ++ [stored]
          ∧ calls db'
            = calls db1 ++ [(announcements, "insert_one");
                            (announcements, "find_one")])).
Proof.
  intros Hdoc stored.
  unfold mbind, handler_bind at 1. unfold announcements_insert_one.
  rewrite insert_one_new by done.
  destruct (existsb (has_id (Some (VOid generated)))
              (announcements_collection db1)) eqn:Hex.
  - eexists _, _. split_and!; [done|done|]. left. split_and!; [|done..].
    intros Hfresh. apply existsb_has_id_false in Hfresh. congruence.
  - assert (fresh_id generated db1) as Hfresh
      by (unfold fresh_id; by apply existsb_has_id_false).
    fold stored. unfold mbind, handler_bind, announcements_find_one. simpl.
    rewrite (find_one_inserted generated _ stored);
      [|done|by apply lookup_insert_eq].
    simpl. erewrite to_response_serialized by by apply lookup_insert_eq.
    eexists _, _. split_and!; [done|done|]. right.
    split_and!; [done|done|done|]. unfold called. simpl.
    by rewrite <- app_assoc.
Qed.

(** ** Every way a create can end *)

Lemma create_footprint message end_date start_date u utcnow generated db :
  ∃ r db' log,
    create_announcement message end_date start_date u utcnow generated db
    = (r, db')
    ∧ teachers_collection db' = teachers_collection db
    ∧ calls db' = calls db ++ log
    ∧ log `prefix_of` [(teachers, "find_one"); (announcements, "insert_one");
                       (announcements, "find_one")]
    ∧ ((¬ authenticated u db ∧ announcements_untouched db db'
        ∧ ∃ detail, r = HTTPException 401 detail)
       ∨ (authenticated u db ∧ announcements_untouched db db'
          ∧ ((strip message = ""
              ∧ r = HTTPException 400 "Message is required")
             ∨ (strip message ≠ "" ∧ end_date = ""
                ∧ r = HTTPException 400 "end_date is required")
             ∨ (strip message ≠ "" ∧ end_date ≠ ""
                ∧ fromisoformat end_date = None
                ∧ r = HTTPException 400
                        ("Invalid datetime format: " +:+ end_date))
             ∨ (strip message ≠ "" ∧ is_Some (fromisoformat end_date)
                ∧ ∃ s, start_date = Some s ∧ s ≠ ""
                       ∧ fromisoformat s = None
                       ∧ r = HTTPException 400
                               ("Invalid datetime format: " +:+ s))))
       ∨ (authenticated u db
          ∧ ∃ e sd,
              strip message ≠ "" ∧ fromisoformat end_date = Some e
              ∧ parsed start_date sd
              ∧ ((¬ fresh_id generated db ∧ r = Raise DuplicateKeyError
                  ∧ announcements_collection db' = announcements_collection db)
                 ∨ (fresh_id generated db
                    ∧ r = Return (serialized
                            (created_document message sd e utcnow generated))
                    ∧ announcements_collection db'
                      = announcements_collection db
                        ++ [created_document message sd e utcnow generated])))).
Proof.
  destruct (require_teacher_footprint u db)
    as (r0 & db1 & log1 & Hu & Hann & Ht & Hcalls
        & [(Hauth & -> & ->)|(Hno & [detail ->] & Hlog)]).
  2: { exists (HTTPException 401 detail), db1, log1.
       split_and!; [by apply create_rejected|done|done| |].
       - destruct Hlog as [k Hk]. exists (k ++ [(announcements, "insert_one");
                                              (announcements, "find_one")]).
         rewrite app_assoc, <- Hk. done.
       - left. split_and!; [done| |by eauto].
         by eapply untouched_by_log. }
  assert (announcements_untouched db db1) as Hun.
  { eapply untouched_by_log; [done|done|]. by exists []. }
  assert ([(teachers, "find_one")]
          `prefix_of` [(teachers, "find_one"); (announcements, "insert_one");
                       (announcements, "find_one")]) as Hpre
    by (by eexists).
  destruct (decide (strip message = "")) as [Hblank|Hm].
  { exists (HTTPException 400 "Message is required"), db1, [(teachers, "find_one")].
    split_and!; [|done..|].
    - unfold create_announcement. unfold mbind, handler_bind at 1. rewrite Hu.
      assert (negb (str_truthy message) || negb (str_truthy (strip message))
              = true) as ->; [|done].
      apply not_false_iff_true. rewrite message_required_check. tauto.
    - right; left. eauto. }
  rewrite (create_after_checks _ _ _ _ _ _ _ _ Hu Hm).
  unfold parse_outcome at 1.
  case_bool_decide as Hend.
  { eexists _, db1, _. split_and!; [done..|]. right; left.
    split_and!; [done..|]. right; left. eauto. }
  destruct (fromisoformat end_date) as [e|] eqn:He.
  2: { eexists _, db1, _. split_and!; [done..|]. right; left.
       split_and!; [done..|]. right; right; left. eauto. }
  destruct (parse_outcome_cases start_date)
    as [(sd & Hsd & ->)|(s & -> & Hs & Hnone & ->)].
  2: { eexists _, db1, _. split_and!; [done..|]. right; left.
       split_and!; [done..|]. right; right; right.
       split_and!; [done|by eauto|]. by exists s. }
  destruct (insert_and_read (new_document (strip message) sd e utcnow)
              generated db1 (new_document_no_id _ _ _ _))
    as (r & db' & -> & Ht' & [(Hused & -> & Hann' & Hcalls')
                            |(Hfresh & -> & Hann' & Hcalls')]).
  - exists (Raise DuplicateKeyError), db',
      [(teachers, "find_one"); (announcements, "insert_one")].
    split_and!; [done|congruence| |by eexists|].
    { rewrite Hcalls', Hcalls. by rewrite <- app_assoc. }
    right; right. split; [done|]. exists e, sd. split_and!; [done..|].
    left. split_and!; [|done|congruence].
    unfold fresh_id in *. by rewrite <- Hann.
  - eexists _, db',
      [(teachers, "find_one"); (announcements, "insert_one");
       (announcements, "find_one")].
    split_and!; [done|congruence| |done|].
    { rewrite Hcalls', Hcalls. by rewrite <- app_assoc. }
    right; right. split; [done|]. exists e, sd. split_and!; [done..|].
    right. split_and!; [|done|].
    + unfold fresh_id in *. by rewrite <- Hann.
    + unfold created_document. by rewrite Hann', Hann.
Qed.

(** ** Every way an update can end *)

Lemma update_fields_outcome m e s utcnow db :
  ∃ r,
    update_fields m e s utcnow db = (r, db)
    ∧ ((∃ text, m = Some text ∧ strip text = ""
          ∧ r = HTTPException 400 "Message cannot be empty")
       ∨ (message_ok m
          ∧ ∃ text, s = Some text ∧ text ≠ "" ∧ fromisoformat text = None
              ∧ r = HTTPException 400 ("Invalid datetime format: " +:+ text))
       ∨ (message_ok m ∧ (∃ sd, parsed s sd) ∧ e = Some ""
          ∧ r = HTTPException 400 "end_date cannot be null")
       ∨ (message_ok m ∧ (∃ sd, parsed s sd)
          ∧ ∃ text, e = Some text ∧ text ≠ "" ∧ fromisoformat text = None
              ∧ r = HTTPException 400 ("Invalid datetime format: " +:+ text))
       ∨ (∃ ed sd, message_ok m ∧ parsed s sd ∧ parsed_end e ed
            ∧ r = Return (fields_set m e s ed sd utcnow))).
Proof.
  assert (∀ text, negb (str_truthy (strip text)) = false → strip text ≠ "")
    as Hcheck.
  { intros text. unfold str_truthy.
    by rewrite negb_false_iff, negb_true_iff, bool_decide_eq_false. }
  assert (∀ text, negb (str_truthy (strip text)) = true → strip text = "")
    as Hblank.
  { intros text. unfold str_truthy.
    by rewrite negb_true_iff, negb_false_iff, bool_decide_eq_true. }
  unfold update_fields, fields_set, message_ok, parsed, parsed_end,
    _parse_datetime.
  destruct m as [text|];
    [destruct (negb (str_truthy (strip text))) eqn:Hm;
       [apply Hblank in Hm|apply Hcheck in Hm]|];
    destruct s as [s|]; destruct e as [e|]; step; rewrite ?Hm; simpl;
    repeat case_bool_decide; simplify_eq;
    rewrite ?fromisoformat_empty;
    repeat (match goal with
            | |- context [fromisoformat ?x] =>
                destruct (fromisoformat x) eqn:?
            end); simpl;
    (eexists; split; [reflexivity|]).
  all: first
    [ by left; eexists
    | by right; left; split; [|eexists; split_and!]
    | by right; right; left; split_and!; eauto
    | by right; right; right; left; split_and!; eauto
    | right; right; right; right; eexists _, _; repeat split; try done;
      by eauto ].
Qed.

Lemma update_store_run id update db1 :
  bson_document update !! "_id" = None →
  ∃ r db' log,
    (oid ← _to_object_id id;
     matched_count ←
       announcements_update_one (Qfield "_id" (Ceq (VOid oid))) update;
     if bool_decide (matched_count = 0)
     then throw 404 "Announcement not found"
     else
       oid ← _to_object_id id;
       doc ← announcements_find_one (Qfield "_id" (Ceq (VOid oid)));
       found_response doc) db1 = (r, db')
    ∧ teachers_collection db' = teachers_collection db1
    ∧ calls db' = calls db1 ++ log
    ∧ match ObjectId_parse id with
      | None =>
          log = [] ∧ announcements_collection db' = announcements_collection db1
          ∧ r = HTTPException 400 "Invalid announcement id"
      | Some oid =>
          match find_one (by_id oid) (announcements_collection db1) with
          | None =>
              log = [(announcements, "update_one")]
              ∧ announcements_collection db' = announcements_collection db1
              ∧ r = HTTPException 404 "Announcement not found"
          | Some old =>
              log = [(announcements, "update_one");
                     (announcements, "find_one")]
              ∧ r = Return (serialized (bson_document update ∪ old))
              ∧ ∃ c1 c2,
                  announcements_collection db1 = c1 ++ old :: c2
                  ∧ (∀ B, B ∈ c1 → B !! "_id" ≠ Some (VOid oid))
                  ∧ old !! "_id" = Some (VOid oid)
                  ∧ announcements_collection db' = c1 ++ (bson_document update ∪ old) :: c2
          end
      end.
Proof.
  intros Hupdate. unfold _to_object_id.
  destruct (ObjectId_parse id) as [oid|] eqn:Hid.
  2: { eexists _, _, []. split_and!; [done|done|by rewrite app_nil_r|done..]. }
  unfold mbind, handler_bind, mret, handler_ret, announcements_update_one,
    announcements_find_one.
  pose proof (update_one_spec (by_id oid) update
                (announcements_collection db1)) as Hup.
  fold (by_id oid).
  destruct (find_one (by_id oid) (announcements_collection db1))
    as [old|] eqn:Hold.
  - destruct Hup as (c1 & c2 & Hc & Hc1 & Hup). rewrite Hup. simpl.
    assert (old !! "_id" = Some (VOid oid)) as Hold_id.
    { apply find_one_Some in Hold as [_ Hmatch]. unfold by_id in Hmatch.
      rewrite matches_id in Hmatch by done.
      by apply bool_decide_eq_true in Hmatch. }
    assert ((bson_document update ∪ old) !! "_id" = Some (VOid oid)) as Hnew_id
      by by rewrite lookup_union_r.
    assert (find_one (by_id oid) (c1 ++ (bson_document update ∪ old) :: c2)
            = Some (bson_document update ∪ old)) as Hfind.
    { apply find_one_middle; [done|]. unfold by_id.
      rewrite matches_id by done. by apply bool_decide_eq_true_2. }
    rewrite Hfind. simpl. rewrite (to_response_serialized _ _ _ Hnew_id).
    eexists _, _, _. split_and!; [done|done| |done|done|].
    { unfold called. simpl. by rewrite <- app_assoc. }
    exists c1, c2. split_and!; [done| |done|done].
    intros B HB. specialize (Hc1 B HB). unfold by_id in Hc1.
    rewrite matches_id in Hc1 by done. by apply bool_decide_eq_false in Hc1.
  - rewrite Hup. simpl. eexists _, _, _. by split_and!.
Qed.

Lemma update_footprint id m e s u utcnow db :
  ∃ r db' log,
    update_announcement id m e s u utcnow db = (r, db')
    ∧ teachers_collection db' = teachers_collection db
    ∧ calls db' = calls db ++ log
    ∧ log `prefix_of` [(teachers, "find_one"); (announcements, "update_one");
                       (announcements, "find_one")]
    ∧ ((¬ authenticated u db ∧ announcements_untouched db db'
        ∧ ∃ detail, r = HTTPException 401 detail)
       ∨ (authenticated u db ∧ announcements_untouched db db'
          ∧ fst (update_fields m e s utcnow db') = r
          ∧ ∃ detail, r = HTTPException 400 detail)
       ∨ (authenticated u db
          ∧ ∃ ed sd,
              message_ok m ∧ parsed s sd ∧ parsed_end e ed
              ∧ match ObjectId_parse id with
                | None =>
                    announcements_untouched db db'
                    ∧ r = HTTPException 400 "Invalid announcement id"
                | Some oid =>
                    match find_one (by_id oid) (announcements_collection db)
                    with
                    | None =>
                        announcements_collection db'
                        = announcements_collection db
                        ∧ r = HTTPException 404 "Announcement not found"
                    | Some old =>
                        let new :=
                          bson_document (fields_set m e s ed sd utcnow) ∪ old in
                        r = Return (serialized new)
                        ∧ ∃ c1 c2,
                            announcements_collection db = c1 ++ old :: c2
                            ∧ (∀ B, B ∈ c1 → B !! "_id" ≠ Some (VOid oid))
                            ∧ old !! "_id" = Some (VOid oid)
                            ∧ announcements_collection db' = c1 ++ new :: c2
                    end
                end)).
Proof.
  destruct (require_teacher_footprint u db)
    as (r0 & db1 & log1 & Hu & Hann & Ht & Hcalls
        & [(Hauth & -> & ->)|(Hno & [detail ->] & Hlog)]).
  2: { exists (HTTPException 401 detail), db1, log1.
       split_and!; [by apply update_rejected|done|done| |].
       - destruct Hlog as [k Hk]. exists (k ++ [(announcements, "update_one");
                                              (announcements, "find_one")]).
         rewrite app_assoc, <- Hk. done.
       - left. split_and!; [done| |by eauto].
         by eapply untouched_by_log. }
  assert (announcements_untouched db db1) as Hun.
  { eapply untouched_by_log; [done|done|]. by exists []. }
  unfold update_announcement. unfold mbind. unfold handler_bind at 1.
  rewrite Hu. unfold handler_bind at 1.
  destruct (update_fields_outcome m e s utcnow db1) as (r & Hf & Hcase).
  rewrite Hf.
  assert ((∃ detail, r = HTTPException 400 detail)
          ∨ ∃ ed sd, message_ok m ∧ parsed s sd ∧ parsed_end e ed
                     ∧ r = Return (fields_set m e s ed sd utcnow)) as [[detail ->]|Hok].
  { destruct Hcase as [(? & _ & _ & ->)|[(_ & ? & _ & _ & _ & ->)
                      |[(_ & _ & _ & ->)|[(_ & _ & ? & _ & _ & _ & ->)|Hok]]]];
      eauto. }
  { exists (HTTPException 400 detail), db1, [(teachers, "find_one")].
    split_and!; [done|done|done|by eexists|].
    right; left. split_and!; [done|done|by rewrite Hf|by eauto]. }
  destruct Hok as (ed & sd & Hm & Hs & He & ->). cbv beta iota.
  destruct (update_store_run id (fields_set m e s ed sd utcnow) db1
              (fields_set_no_id _ _ _ _ _ _))
    as (r & db' & log & Hstore & Ht' & Hcalls' & Hcase').
  unfold mbind in Hstore. rewrite Hstore.
  exists r, db', ([(teachers, "find_one")] ++ log).
  split_and!; [done|congruence|by rewrite Hcalls', Hcalls, app_assoc| |].
  - destruct (ObjectId_parse id) as [oid|];
      [destruct (find_one (by_id oid) (announcements_collection db1))|].
    + destruct Hcase' as (-> & _). done.
    + destruct Hcase' as (-> & _). by eexists.
    + destruct Hcase' as (-> & _). by eexists.
  - right; right. split; [done|]. exists ed, sd. split_and!; [done..|].
    rewrite <- Hann.
    destruct (ObjectId_parse id) as [oid|];
      [destruct (find_one (by_id oid) (announcements_collection db1))|].
    + destruct Hcase' as (_ & -> & c1 & c2 & ? & ? & ? & ?).
      split; [done|]. by exists c1, c2.
    + destruct Hcase' as (_ & ? & ->). done.
    + destruct Hcase' as (-> & Hann' & ->). split; [|done].
      apply (untouched_by_log db db' [(teachers, "find_one")]);
        [congruence| |done].
      rewrite Hcalls', Hcalls. by rewrite app_nil_r.
Qed.

(** ** Every way a delete can end *)

Lemma delete_footprint id u db :
  ∃ r db' log,
    delete_announcement id u db = (r, db')
    ∧ teachers_collection db' = teachers_collection db
    ∧ calls db' = calls db ++ log
    ∧ log `prefix_of` [(teachers, "find_one"); (announcements, "delete_one")]
    ∧ ((¬ authenticated u db ∧ announcements_untouched db db'
        ∧ ∃ detail, r = HTTPException 401 detail)
       ∨ (authenticated u db
          ∧ match ObjectId_parse id with
            | None =>
                announcements_untouched db db'
                ∧ r = HTTPException 400 "Invalid announcement id"
            | Some oid =>
                match find_one (by_id oid) (announcements_collection db) with
                | None =>
                    announcements_collection db' = announcements_collection db
                    ∧ r = HTTPException 404 "Announcement not found"
                | Some old =>
                    r = Return (<["message" := VStr "Announcement deleted"]> ∅)
                    ∧ ∃ c1 c2,
                        announcements_collection db = c1 ++ old :: c2
                        ∧ (∀ B, B ∈ c1 → B !! "_id" ≠ Some (VOid oid))
                        ∧ old !! "_id" = Some (VOid oid)
                        ∧ announcements_collection db' = c1 ++ c2
                end
            end)).
Proof.
  destruct (require_teacher_footprint u db)
    as (r0 & db1 & log1 & Hu & Hann & Ht & Hcalls
        & [(Hauth & -> & ->)|(Hno & [detail ->] & Hlog)]).
  2: { exists (HTTPException 401 detail), db1, log1.
       split_and!; [by apply delete_rejected|done|done| |].
       - destruct Hlog as [k Hk]. exists (k ++ [(announcements, "delete_one")]).
         rewrite app_assoc, <- Hk. done.
       - left. split_and!; [done| |by eauto].
         by eapply untouched_by_log. }
  unfold delete_announcement. unfold mbind. unfold handler_bind at 1.
  rewrite Hu. unfold handler_bind at 1. unfold _to_object_id.
  destruct (ObjectId_parse id) as [oid|] eqn:Hid.
  2: { exists (HTTPException 400 "Invalid announcement id"), db1,
         [(teachers, "find_one")].
       split_and!; [done|done|done|by eexists|]. right. split; [done|].
       split; [|done]. eapply untouched_by_log; [done|done|by exists []]. }
  unfold handler_bind, mret, handler_ret, announcements_delete_one.
  pose proof (delete_one_spec (by_id oid) (announcements_collection db1))
    as Hdel.
  fold (by_id oid). rewrite <- Hann.
  destruct (find_one (by_id oid) (announcements_collection db1))
    as [old|] eqn:Hold.
  - destruct Hdel as (c1 & c2 & Hc & Hc1 & Hdel). rewrite Hdel. simpl.
    eexists _, _, [(teachers, "find_one"); (announcements, "delete_one")].
    split_and!; [done|done| |done|].
    { unfold called. simpl. by rewrite Hcalls, <- app_assoc. }
    right. split; [done|]. split; [done|]. exists c1, c2.
    split_and!; [done| | |done].
    + intros B HB. specialize (Hc1 B HB). unfold by_id in Hc1.
      rewrite matches_id in Hc1 by done.
      by apply bool_decide_eq_false in Hc1.
    + apply find_one_Some in Hold as [_ Hmatch]. unfold by_id in Hmatch.
      rewrite matches_id in Hmatch by done.
      by apply bool_decide_eq_true in Hmatch.
  - rewrite Hdel. simpl.
    eexists _, _, [(teachers, "find_one"); (announcements, "delete_one")].
    split_and!; [done|done| |done|].
    { unfold called. simpl. by rewrite Hcalls, <- app_assoc. }
    right. by split_and!.
Qed.

(** ** The two listings *)

Lemma mapM_to_response_db c db : snd (mapM to_response c db) = db.
Proof.
  induction c as [|A c IH]; [done|].
  cbn [mapM]. unfold mbind, handler_bind at 1. unfold to_response at 1.
  destruct (A !! "_id") as [i|]; [|done].
  unfold mret, handler_ret at 1. unfold mbind, handler_bind at 1.
  destruct (mapM to_response c db) as [[l| |] db'] eqn:Hrun;
    simpl in *; by subst.
Qed.

Lemma listing_footprint (q : query) (dir : direction) db :
  let run := (cursor ← announcements_find q;
              mapM to_response (sort "end_date" dir cursor)) db in
  announcements_collection (snd run) = announcements_collection db
  ∧ teachers_collection (snd run) = teachers_collection db
  ∧ calls (snd run) = calls db ++ [(announcements, "find")].
Proof.
  cbv zeta. unfold mbind, handler_bind, announcements_find.
  set (db1 := Database _ _ _).
  pose proof (mapM_to_response_db
                (sort "end_date" dir (find q (announcements_collection db)))
                db1) as Hdb.
  destruct (mapM to_response _ db1) as [[l| |] db'] eqn:Hrun;
    simpl in *; by subst.
Qed.

Lemma authenticated_teachers u db db' :
  teachers_collection db' = teachers_collection db →
  authenticated u db → authenticated u db'.
Proof.
  unfold authenticated, _require_teacher. intros Ht.
  destruct u as [name|]; [|done]. destruct (str_truthy name); [|done].
  unfold teachers_find_one. step. rewrite Ht.
  by destruct (doc_truthy _).
Qed.

Lemma find_one_fresh oid db :
  fresh_id oid db →
  find_one (by_id oid) (announcements_collection db) = None.
Proof.
  intros Hfresh. apply find_one_None. intros A HA. unfold by_id.
  rewrite matches_id by done. apply bool_decide_eq_false_2. by apply Hfresh.
Qed.

(** ** Deleting *)

(** A delete by an authenticated caller, with an identifier that designates
    a record, acknowledges and removes that record, the first with the
    identifier, and leaves every other one in place and in order. *)
Theorem delete_removes id u db oid old :
  authenticated u db →
  ObjectId_parse id = Some oid →
  find_one (by_id oid) (announcements_collection db) = Some old →
  ∃ db' c1 c2,
    delete_announcement id u db
    = (Return (<["message" := VStr "Announcement deleted"]> ∅), db')
    ∧ announcements_collection db = c1 ++ old :: c2
    ∧ announcements_collection db' = c1 ++ c2
    ∧ (∀ B, B ∈ c1 → B !! "_id" ≠ Some (VOid oid)).
Proof.
  intros Hauth Hid Hold.
  destruct (delete_footprint id u db)
    as (r & db' & log & Hrun & _ & _ & _ & [(Hno & _)|(_ & Hcase)]); [done|].
  rewrite Hid, Hold in Hcase.
  destruct Hcase as (-> & c1 & c2 & Hc & Hc1 & _ & Hc').
  by exists db', c1, c2.
Qed.

Lemma not_found_run id u db oid m e s utcnow :
  authenticated u db →
  ObjectId_parse id = Some oid →
  fresh_id oid db →
  (fields_valid m e s →
   fst (update_announcement id m e s u utcnow db)
   = HTTPException 404 "Announcement not found"
   ∧ announcements_collection (snd (update_announcement id m e s u utcnow db))
     = announcements_collection db)
  ∧ fst (delete_announcement id u db)
    = HTTPException 404 "Announcement not found"
  ∧ announcements_collection (snd (delete_announcement id u db))
    = announcements_collection db.
Proof.
  intros Hauth Hid Hfresh%find_one_fresh. split.
  - intros (Hm & [sd Hs] & [ed He]).
    destruct (update_footprint id m e s u utcnow db)
      as (r & db' & log & Hrun & _ & _ & _
          & [(Hno & _)|[(_ & _ & Hf & detail & ->)|(_ & Hcase)]]);
      [done| |].
    + rewrite (update_fields_valid m e s ed sd) in Hf by done. done.
    + destruct Hcase as (? & ? & _ & _ & _ & Hcase).
      rewrite Hid, Hfresh in Hcase. destruct Hcase as [Hann ->].
      by rewrite Hrun.
  - destruct (delete_footprint id u db)
      as (r & db' & log & Hrun & _ & _ & _ & [(Hno & _)|(_ & Hcase)]);
      [done|].
    rewrite Hid, Hfresh in Hcase. destruct Hcase as [Hann ->].
    by rewrite Hrun.
Qed.

(** An update or a delete by an authenticated caller, with a well-formed
    identifier that no record has, fails with 404 "Announcement not found";
    nothing is created in its place and the collection stays as it was. *)
Theorem unknown_id_not_found id u db oid m e s utcnow :
  authenticated u db →
  ObjectId_parse id = Some oid →
  fresh_id oid db →
  (fields_valid m e s →
   fst (update_announcement id m e s u utcnow db)
   = HTTPException 404 "Announcement not found"
   ∧ announcements_collection (snd (update_announcement id m e s u utcnow db))
     = announcements_collection db)
  ∧ fst (delete_announcement id u db)
    = HTTPException 404 "Announcement not found"
  ∧ announcements_collection (snd (delete_announcement id u db))
    = announcements_collection db.
Proof. apply not_found_run. Qed.

Lemma unique_ids_middle c1 old c2 i :
  unique_ids (c1 ++ old :: c2) → old !! "_id" = Some i →
  ∀ B, B ∈ c1 ++ c2 → B !! "_id" ≠ Some i.
Proof.
  unfold unique_ids, ids. rewrite fmap_app, fmap_cons.
  intros Hnodup Hold B HB HBid.
  apply NoDup_app in Hnodup as (_ & Hdisj & [Hnotin _]%NoDup_cons).
  apply elem_of_app in HB as [HB|HB].
  - apply (Hdisj (Some i)).
    + apply list_elem_of_fmap. by exists B.
    + rewrite Hold. left.
  - apply Hnotin. rewrite Hold. apply list_elem_of_fmap. by exists B.
Qed.

(** Once an announcement is deleted, a further delete or update of the same
    identifier finds nothing: 404, as long as identifiers are unique in the
    collection. *)
Theorem delete_then_not_found id u db out db' m e s utcnow :
  unique_ids (announcements_collection db) →
  delete_announcement id u db = (Return out, db') →
  fst (delete_announcement id u db')
  = HTTPException 404 "Announcement not found"
  ∧ (fields_valid m e s →
     fst (update_announcement id m e s u utcnow db')
     = HTTPException 404 "Announcement not found").
Proof.
  intros Hunique Hrun.
  destruct (delete_footprint id u db)
    as (r & db2 & log & Hrun' & Ht & _ & _ & [(_ & _ & ? & ->)|(Hauth & Hcase)]);
    rewrite Hrun in Hrun'; simplify_eq.
  destruct (ObjectId_parse id) as [oid|] eqn:Hid; [|by destruct Hcase].
  destruct (find_one (by_id oid) (announcements_collection db))
    as [old|]; [|by destruct Hcase].
  destruct Hcase as (_ & c1 & c2 & Hc & _ & Hold & Hc').
  assert (fresh_id oid db2) as Hfresh.
  { unfold fresh_id. rewrite Hc'. rewrite Hc in Hunique.
    by eapply unique_ids_middle. }
  assert (authenticated u db2) as Hauth' by by eapply authenticated_teachers.
  destruct (not_found_run id u db2 oid m e s utcnow Hauth' Hid Hfresh)
    as (Hupdate & Hdelete & _).
  split; [done|]. intros Hvalid. by apply Hupdate.
Qed.

(** ** Validation, in the order the router applies it *)

(** For an authenticated caller, create checks the message, then the end
    date, then the start date, and answers 400 with the detail of the first
    check that fails; whenever it answers 400 the announcements collection
    has not been called. *)
Theorem create_validation_order message end_date start_date u utcnow
    generated db :
  authenticated u db →
  let run := create_announcement message end_date start_date u utcnow
               generated db in
  (strip message = "" → fst run = HTTPException 400 "Message is required")
  ∧ (strip message ≠ "" → end_date = "" →
     fst run = HTTPException 400 "end_date is required")
  ∧ (strip message ≠ "" → end_date ≠ "" → fromisoformat end_date = None →
     fst run = HTTPException 400 ("Invalid datetime format: " +:+ end_date))
  ∧ (∀ s, strip message ≠ "" → is_Some (fromisoformat end_date) →
          start_date = Some s → s ≠ "" → fromisoformat s = None →
          fst run = HTTPException 400 ("Invalid datetime format: " +:+ s))
  ∧ (∀ detail, fst run = HTTPException 400 detail →
               announcements_untouched db (snd run)).
Proof.
  intros Hauth run.
  destruct (create_footprint message end_date start_date u utcnow generated db)
    as (r & db' & log & Hrun & _ & _ & _ & Hcase).
  unfold run. rewrite Hrun. simpl.
  destruct Hcase as [(Hno & _)|[(_ & Hun & Hval)
                    |(_ & e & sd & Hm & He & Hs & Hstore)]];
    [done| |].
  - split_and!.
    + intros Hblank.
      destruct Hval as [(_ & ->)|[(? & _)|[(? & _)|(? & _)]]]; done.
    + intros Hm Hend.
      destruct Hval as [(? & _)|[(_ & _ & ->)|[(_ & ? & _)|(_ & Hsome & _)]]];
        try done.
      rewrite Hend, fromisoformat_empty in Hsome. by destruct Hsome.
    + intros Hm Hend Hnone.
      destruct Hval as [(? & _)|[(_ & ? & _)|[(_ & _ & _ & ->)|(_ & Hsome & _)]]];
        try done.
      rewrite Hnone in Hsome. by destruct Hsome.
    + intros s Hm Hsome -> Hs Hnone.
      destruct Hval as [(? & _)|[(_ & Hend & _)
                       |[(_ & _ & Hnone' & _)|(_ & _ & s' & ? & _ & _ & ->)]]];
        try done.
      * rewrite Hend, fromisoformat_empty in Hsome. by destruct Hsome.
      * rewrite Hnone' in Hsome. by destruct Hsome.
      * by simplify_eq.
    + done.
  - split_and!.
    + done.
    + intros _ Hend. rewrite Hend, fromisoformat_empty in He. done.
    + intros _ _ Hnone. congruence.
    + intros s _ _ -> Hne Hnone. unfold parsed in Hs.
      rewrite bool_decide_eq_false_2 in Hs by done.
      destruct Hs as [[d ->] Hd]. congruence.
    + intros detail Hr. destruct Hstore as [(_ & -> & _)|(_ & -> & _)]; done.
Qed.

Lemma parsed_unparseable s sd :
  s ≠ "" → fromisoformat s = None → ¬ parsed (Some s) sd.
Proof.
  intros Hs Hnone. unfold parsed. rewrite bool_decide_eq_false_2 by done.
  intros [[d ->] Hd]. congruence.
Qed.

Lemma parsed_end_unparseable s ed :
  fromisoformat s = None → ¬ parsed_end (Some s) ed.
Proof. intros Hnone [[d ->] Hd]. congruence. Qed.

Lemma parsed_end_empty ed : ¬ parsed_end (Some "") ed.
Proof. apply parsed_end_unparseable, fromisoformat_empty. Qed.

(** For an authenticated caller, update checks the message, then the start
    date, then the end date (the start date before the end date, unlike
    create), and answers 400 with the detail of the first check that
    fails. *)
Theorem update_validation_order id m e s u utcnow db :
  authenticated u db →
  let run := update_announcement id m e s u utcnow db in
  (∀ text, m = Some text → strip text = "" →
           fst run = HTTPException 400 "Message cannot be empty")
  ∧ (∀ text, message_ok m → s = Some text → text ≠ "" →
             fromisoformat text = None →
             fst run = HTTPException 400 ("Invalid datetime format: " +:+ text))
  ∧ (message_ok m → (∃ sd, parsed s sd) → e = Some "" →
     fst run = HTTPException 400 "end_date cannot be null")
  ∧ (∀ text, message_ok m → (∃ sd, parsed s sd) → e = Some text →
             text ≠ "" → fromisoformat text = None →
             fst run = HTTPException 400 ("Invalid datetime format: " +:+ text)).
Proof.
  intros Hauth run.
  destruct (update_footprint id m e s u utcnow db)
    as (r & db' & log & Hrun & _ & _ & _
        & [(Hno & _)|[(_ & _ & Hf & _)|(_ & ed & sd & Hm & Hs & He & _)]]);
    [done| |]; unfold run; rewrite Hrun; simpl.
  - destruct (update_fields_outcome m e s utcnow db') as (r' & Hf' & Hcase).
    rewrite Hf' in Hf. simpl in Hf. subst r'.
    split_and!.
    + intros text -> Hblank.
      destruct Hcase as [(? & ? & _ & ->)|[(Hm & _)|[(Hm & _)|[(Hm & _)
                        |(? & ? & Hm & _)]]]]; by simplify_eq/=.
    + intros text Hm -> Hne Hnone.
      destruct Hcase as [(? & -> & Hblank & _)|[(_ & ? & ? & _ & _ & ->)
                        |[(_ & [? Hs] & _)|[(_ & [? Hs] & _)
                        |(? & ? & _ & Hs & _)]]]];
        simplify_eq/=; try done;
        by apply parsed_unparseable in Hs.
    + intros Hm [sd Hs] ->.
      destruct Hcase as [(? & -> & Hblank & _)|[(_ & ? & -> & ? & ? & _)
                        |[(_ & _ & _ & ->)|[(_ & _ & ? & ? & ? & _)
                        |(? & ? & _ & _ & He & _)]]]];
        simplify_eq/=; try done.
      * by apply parsed_unparseable in Hs.
      * by apply parsed_end_empty in He.
    + intros text Hm [sd Hs] -> Hne Hnone.
      destruct Hcase as [(? & -> & Hblank & _)|[(_ & ? & -> & ? & ? & _)
                        |[(_ & _ & ? & _)|[(_ & _ & ? & ? & _ & _ & ->)
                        |(? & ? & _ & _ & He & _)]]]];
        simplify_eq/=; try done.
      * by apply parsed_unparseable in Hs.
      * by apply parsed_end_unparseable in He.
  - split_and!.
    + intros text -> Hblank. done.
    + intros text _ -> Hne Hnone. by apply parsed_unparseable in Hs.
    + intros _ _ ->. by apply parsed_end_empty in He.
    + intros text _ _ -> _ Hnone. by apply parsed_end_unparseable in He.
Qed.

(** ** What a request leaves behind *)

(** A create, an update or a delete that does not return has written
    nothing: the announcements are as they were. *)
Theorem failure_writes_nothing message end_date start_date (id : string)
    m e s u utcnow generated db :
  let created := create_announcement message end_date start_date u utcnow
                   generated db in
  let updated := update_announcement id m e s u utcnow db in
  let deleted := delete_announcement id u db in
  (failed (fst created) →
   announcements_collection (snd created) = announcements_collection db)
  ∧ (failed (fst updated) →
     announcements_collection (snd updated) = announcements_collection db)
  ∧ (failed (fst deleted) →
     announcements_collection (snd deleted) = announcements_collection db).
Proof.
  cbv zeta. unfold failed. split_and!.
  - destruct (create_footprint message end_date start_date u utcnow
                generated db)
      as (r & db' & log & -> & _ & _ & _
          & [(_ & [Hann _] & _)|[(_ & [Hann _] & _)
            |(_ & ? & ? & _ & _ & _ & [(_ & _ & Hann)|(_ & -> & _)])]]);
      simpl; done.
  - destruct (update_footprint id m e s u utcnow db)
      as (r & db' & log & -> & _ & _ & _
          & [(_ & [Hann _] & _)|[(_ & [Hann _] & _)
            |(_ & ? & ? & _ & _ & _ & Hcase)]]); simpl; try done.
    destruct (ObjectId_parse id) as [oid|];
      [destruct (find_one (by_id oid) (announcements_collection db))|].
    + by destruct Hcase as [-> _].
    + by destruct Hcase as [-> _].
    + by destruct Hcase as [[-> _] _].
  - destruct (delete_footprint id u db)
      as (r & db' & log & -> & _ & _ & _
          & [(_ & [Hann _] & _)|(_ & Hcase)]); simpl; try done.
    destruct (ObjectId_parse id) as [oid|];
      [destruct (find_one (by_id oid) (announcements_collection db))|].
    + by destruct Hcase as [-> _].
    + by destruct Hcase as [-> _].
    + by destruct Hcase as [[-> _] _].
Qed.

Lemma reference_time_cases now utcnow db :
  ∃ r, reference_time now utcnow db = (r, db)
       ∧ (r = Raise ValueError ∨ ∃ T, r = Return T).
Proof.
  unfold reference_time.
  destruct now as [text|]; [destruct (str_truthy text);
    [destruct (fromisoformat text)|]|]; eexists; (split; [done|]); eauto.
Qed.

Lemma get_active_cases now utcnow db :
  get_active_announcements now utcnow db = (Raise ValueError, db)
  ∨ ∃ T, get_active_announcements now utcnow db = active_announcements T db.
Proof.
  unfold get_active_announcements. unfold mbind, handler_bind.
  destruct (reference_time_cases now utcnow db) as (r & -> & [->|[T ->]]).
  - by left.
  - right. by exists T.
Qed.

(** The two listings only read: whatever they answer, both collections are
    as they were, and list-all has made one [find] on the announcements,
    list-active one or, when [now] does not parse, none. *)
Theorem listings_read_only now utcnow db :
  let active := get_active_announcements now utcnow db in
  let all := list_announcements db in
  announcements_collection (snd active) = announcements_collection db
  ∧ teachers_collection (snd active) = teachers_collection db
  ∧ (calls (snd active) = calls db ++ [(announcements, "find")]
     ∨ (calls (snd active) = calls db ∧ fst active = Raise ValueError))
  ∧ announcements_collection (snd all) = announcements_collection db
  ∧ teachers_collection (snd all) = teachers_collection db
  ∧ calls (snd all) = calls db ++ [(announcements, "find")].
Proof.
  cbv zeta.
  destruct (listing_footprint (Qand []) DESCENDING db) as (Ha & Ht & Hc).
  cbv zeta in *.
  assert (announcements_collection
            (snd (get_active_announcements now utcnow db))
          = announcements_collection db
          ∧ teachers_collection (snd (get_active_announcements now utcnow db))
            = teachers_collection db
          ∧ (calls (snd (get_active_announcements now utcnow db))
             = calls db ++ [(announcements, "find")]
             ∨ (calls (snd (get_active_announcements now utcnow db)) = calls db
                ∧ fst (get_active_announcements now utcnow db)
                  = Raise ValueError))) as (? & ? & ?); [|by split_and!].
  destruct (get_active_cases now utcnow db) as [->|[T ->]].
  - split_and!; [done|done|by right].
  - destruct (listing_footprint (active_query T) ASCENDING db)
      as (Ha' & Ht' & Hc'). cbv zeta in *.
    split_and!; [done|done|by left].
Qed.

(** No request ever writes to the teachers collection. *)
Theorem teachers_never_modified message end_date start_date (id : string)
    m e s u now utcnow generated db :
  teachers_collection
    (snd (create_announcement message end_date start_date u utcnow
            generated db)) = teachers_collection db
  ∧ teachers_collection (snd (update_announcement id m e s u utcnow db))
    = teachers_collection db
  ∧ teachers_collection (snd (delete_announcement id u db))
    = teachers_collection db
  ∧ teachers_collection (snd (get_active_announcements now utcnow db))
    = teachers_collection db
  ∧ teachers_collection (snd (list_announcements db)) = teachers_collection db.
Proof.
  split_and!.
  - by destruct (create_footprint message end_date start_date u utcnow
                   generated db) as (r & db' & log & -> & Ht & _).
  - by destruct (update_footprint id m e s u utcnow db)
      as (r & db' & log & -> & Ht & _).
  - by destruct (delete_footprint id u db) as (r & db' & log & -> & Ht & _).
  - destruct (get_active_cases now utcnow db) as [->|[T ->]]; [done|].
    by destruct (listing_footprint (active_query T) ASCENDING db)
      as (_ & Ht & _).
  - by destruct (listing_footprint (Qand []) DESCENDING db) as (_ & Ht & _).
Qed.

(** The calls of a request, in order: at most one lookup of the teacher,
    then at most one write on the announcements, then at most one read
    back. *)
Theorem call_budget message end_date start_date (id : string) m e s u utcnow
    generated db :
  (∃ log,
     calls (snd (create_announcement message end_date start_date u utcnow
                   generated db)) = calls db ++ log
     ∧ log `prefix_of` [(teachers, "find_one"); (announcements, "insert_one");
                        (announcements, "find_one")])
  ∧ (∃ log,
       calls (snd (update_announcement id m e s u utcnow db)) = calls db ++ log
       ∧ log `prefix_of` [(teachers, "find_one");
                          (announcements, "update_one");
                          (announcements, "find_one")])
  ∧ (∃ log,
       calls (snd (delete_announcement id u db)) = calls db ++ log
       ∧ log `prefix_of` [(teachers, "find_one");
                          (announcements, "delete_one")]).
Proof.
  split_and!.
  - destruct (create_footprint message end_date start_date u utcnow
                generated db) as (r & db' & log & -> & _ & Hc & Hp & _).
    by exists log.
  - destruct (update_footprint id m e s u utcnow db)
      as (r & db' & log & -> & _ & Hc & Hp & _).
    by exists log.
  - destruct (delete_footprint id u db)
      as (r & db' & log & -> & _ & Hc & Hp & _).
    by exists log.
Qed.

(** ** The HTTP errors of a request *)

Lemma mapM_to_response_raises c db status detail :
  fst (mapM to_response c db) ≠ HTTPException status detail.
Proof.
  induction c as [|A c IH]; [done|].
  cbn [mapM]. unfold mbind, handler_bind at 1. unfold to_response at 1.
  destruct (A !! "_id") as [i|]; [|done].
  unfold mret, handler_ret at 1. unfold mbind, handler_bind at 1.
  destruct (mapM to_response c db) as [[l| |] db'] eqn:Hrun; simpl in *;
    [done| |done].
  intros [= -> ->]. by apply IH.
Qed.

(** The [HTTPException]s of the router: create raises 400 or 401, never 404;
    update raises 400, 401, or 404 "Announcement not found"; delete raises
    400 "Invalid announcement id", 401, or 404 "Announcement not found"; the
    two listings raise none. *)
Theorem http_errors message end_date start_date (id : string) m e s u now
    utcnow generated db status detail :
  (fst (create_announcement message end_date start_date u utcnow generated db)
   = HTTPException status detail →
   status = 400 ∨ status = 401)
  ∧ (fst (update_announcement id m e s u utcnow db)
     = HTTPException status detail →
     status = 400 ∨ status = 401
     ∨ (status = 404 ∧ detail = "Announcement not found"))
  ∧ (fst (delete_announcement id u db) = HTTPException status detail →
     (status = 400 ∧ detail = "Invalid announcement id") ∨ status = 401
     ∨ (status = 404 ∧ detail = "Announcement not found"))
  ∧ fst (get_active_announcements now utcnow db) ≠ HTTPException status detail
  ∧ fst (list_announcements db) ≠ HTTPException status detail.
Proof.
  split_and!.
  - destruct (create_footprint message end_date start_date u utcnow
                generated db)
      as (r & db' & log & -> & _ & _ & _
          & [(_ & _ & ? & ->)|[(_ & _ & Hval)
            |(_ & ? & ? & _ & _ & _ & [(_ & -> & _)|(_ & -> & _)])]]);
      simpl; [intros [= <- _]; by right| |done..].
    destruct Hval as [(_ & ->)|[(_ & _ & ->)|[(_ & _ & _ & ->)
                     |(_ & _ & ? & _ & _ & _ & ->)]]];
      intros [= <- _]; by left.
  - destruct (update_footprint id m e s u utcnow db)
      as (r & db' & log & -> & _ & _ & _
          & [(_ & _ & ? & ->)|[(_ & _ & _ & ? & ->)
            |(_ & ? & ? & _ & _ & _ & Hcase)]]); simpl;
      [intros [= <- _]; by right; left|intros [= <- _]; by left|].
    destruct (ObjectId_parse id) as [oid|];
      [destruct (find_one (by_id oid) (announcements_collection db))|].
    + by destruct Hcase as [-> _].
    + destruct Hcase as [_ ->]. intros [= <- <-]. by right; right.
    + destruct Hcase as [_ ->]. intros [= <- _]. by left.
  - destruct (delete_footprint id u db)
      as (r & db' & log & -> & _ & _ & _
          & [(_ & _ & ? & ->)|(_ & Hcase)]); simpl;
      [intros [= <- _]; by right; left|].
    destruct (ObjectId_parse id) as [oid|];
      [destruct (find_one (by_id oid) (announcements_collection db))|].
    + by destruct Hcase as [-> _].
    + destruct Hcase as [_ ->]. intros [= <- <-]. by right; right.
    + destruct Hcase as [_ ->]. intros [= <- <-]. by left.
  - destruct (get_active_cases now utcnow db) as [->|[T ->]]; [done|].
    unfold active_announcements, mbind, handler_bind, announcements_find.
    apply mapM_to_response_raises.
  - unfold list_announcements, mbind, handler_bind, announcements_find.
    apply mapM_to_response_raises.
Qed.

(** ** Serialization *)

Lemma iso_value_not_date v d : iso_value v ≠ VDate d.
Proof. by destruct v. Qed.



Lemma serialized_lookup A (k : string) :
  serialized A !! k
  = if bool_decide (k = "id")
    then Some (VStr (py_str (default VNull (A !! "_id"))))
    else if bool_decide (k = "_id") then None
    else if bool_decide (k ∈ date_keys) then iso_value <$> A !! k
    else A !! k.
Proof.
  unfold serialized. rewrite lookup_serialize_dates.
  destruct (decide (k = "id")) as [->|Hid].
  - rewrite bool_decide_eq_false_2 by (unfold date_keys; set_solver).
    by rewrite lookup_insert_eq.
  - rewrite (bool_decide_eq_false_2 (k = "id")) by done.
    rewrite lookup_insert_ne by done.
    destruct (decide (k = "_id")) as [->|Hid'].
    + rewrite bool_decide_eq_false_2 by (unfold date_keys; set_solver).
      by rewrite lookup_delete_eq.
    + rewrite (bool_decide_eq_false_2 (k = "_id")) by done.
      by rewrite lookup_delete_ne.
Qed.

Lemma new_document_lookup message sd e now (k : string) :
  new_document message sd e now !! k
  = if bool_decide (k = "message") then Some (VStr message)
    else if bool_decide (k = "start_date") then Some (opt_date sd)
    else if bool_decide (k = "end_date") then Some (VDate e)
    else if bool_decide (k = "created_at") then Some (VDate now)
    else if bool_decide (k = "updated_at") then Some (VDate now)
    else None.
Proof.
  unfold new_document.
  repeat (case_bool_decide;
          [subst k; by rewrite ?lookup_insert_ne, ?lookup_insert_eq by done|
           rewrite lookup_insert_ne by done]).
  done.
Qed.

(** ** What a create stores and answers *)

(** The response of a successful create has exactly the six keys [id],
    [message], [start_date], [end_date], [created_at] and [updated_at]; [id]
    is the text of the generated identifier, the two timestamps are both the
    clock reading of the request as the store keeps it, cut to the
    millisecond, and no value is left as a raw date. *)
Theorem create_response_shape message end_date start_date u utcnow generated
    db out db' :
  create_announcement message end_date start_date u utcnow generated db
  = (Return out, db') →
  (∀ k : string, is_Some (out !! k) ↔ k ∈ response_keys)
  ∧ out !! "id" = Some (VStr (ObjectId_str generated))
  ∧ out !! "created_at" = Some (VStr (isoformat (bson_date utcnow)))
  ∧ out !! "updated_at" = Some (VStr (isoformat (bson_date utcnow)))
  ∧ (∀ (k : string) d, out !! k ≠ Some (VDate d)).
Proof.
  intros Hrun.
  destruct (create_footprint message end_date start_date u utcnow generated db)
    as (r & db2 & log & Hrun' & _ & _ & _ & Hcase).
  rewrite Hrun in Hrun'. injection Hrun' as <- <-.
  destruct Hcase as [(_ & _ & ? & [=])|[(_ & _ & Hval)
                    |(_ & e & sd & _ & _ & _ & [(_ & [=] & _)|(_ & [= ->] & _)])]].
  { destruct Hval as [(_ & [=])|[(_ & _ & [=])|[(_ & _ & _ & [=])
                     |(_ & _ & ? & _ & _ & _ & [=])]]]. }
  assert (∀ k : string,
            serialized (created_document message sd e utcnow generated) !! k
            = if bool_decide (k = "id") then Some (VStr (ObjectId_str generated))
              else if bool_decide (k = "message")
                   then Some (VStr (strip message))
              else if bool_decide (k = "start_date")
                   then Some (iso_value (opt_date (bson_date <$> sd)))
              else if bool_decide (k = "end_date")
                   then Some (VStr (isoformat (bson_date e)))
              else if bool_decide (k = "created_at")
                   then Some (VStr (isoformat (bson_date utcnow)))
              else if bool_decide (k = "updated_at")
                   then Some (VStr (isoformat (bson_date utcnow)))
              else None) as Hlookup.
  { intros k. rewrite serialized_lookup. unfold created_document.
    rewrite bson_new_document, lookup_insert_eq.
    assert ((<["_id" := VOid generated]>
               (new_document (strip message) (bson_date <$> sd) (bson_date e)
                  (bson_date utcnow)) : document) !! k
            = if bool_decide (k = "_id") then Some (VOid generated)
              else new_document (strip message) (bson_date <$> sd)
                     (bson_date e) (bson_date utcnow) !! k) as ->.
    { case_bool_decide as Hk; [subst k; apply lookup_insert_eq|].
      by rewrite lookup_insert_ne. }
    rewrite new_document_lookup.
    destruct (decide (k = "id")) as [->|?]; [done|].
    destruct (decide (k = "_id")) as [->|?]; [done|].
    destruct (decide (k = "message")) as [->|?]; [done|].
    destruct (decide (k = "start_date")) as [->|?]; [done|].
    destruct (decide (k = "end_date")) as [->|?]; [done|].
    destruct (decide (k = "created_at")) as [->|?]; [done|].
    destruct (decide (k = "updated_at")) as [->|?]; [done|].
    rewrite !(bool_decide_eq_false_2 (k = _)) by done.
    by destruct (bool_decide _). }
  split_and!.
  - intros k. rewrite Hlookup. unfold response_keys.
    destruct (decide (k = "id")) as [->|?]; [split; [set_solver|by eauto]|].
    destruct (decide (k = "message")) as [->|?];
      [split; [set_solver|by eauto]|].
    destruct (decide (k = "start_date")) as [->|?];
      [split; [set_solver|by eauto]|].
    destruct (decide (k = "end_date")) as [->|?];
      [split; [set_solver|by eauto]|].
    destruct (decide (k = "created_at")) as [->|?];
      [split; [set_solver|by eauto]|].
    destruct (decide (k = "updated_at")) as [->|?];
      [split; [set_solver|by eauto]|].
    rewrite !(bool_decide_eq_false_2 (k = _)) by done.
    split; [by intros []|]. set_solver.
  - by rewrite Hlookup.
  - by rewrite Hlookup.
  - by rewrite Hlookup.
  - intros k d. rewrite Hlookup.
    repeat (case_bool_decide; [try done|]); [|done].
    by destruct sd.
Qed.

(** ** Identifiers *)

Lemma ids_app c1 c2 : ids (c1 ++ c2) = ids c1 ++ ids c2.
Proof. unfold ids. by rewrite fmap_app. Qed.

Lemma update_ids id m e s u utcnow db :
  ids (announcements_collection (snd (update_announcement id m e s u utcnow db)))
  = ids (announcements_collection db).
Proof.
  destruct (update_footprint id m e s u utcnow db)
    as (r & db' & log & -> & _ & _ & _
        & [(_ & [Hann _] & _)|[(_ & [Hann _] & _)
          |(_ & ed & sd & _ & _ & _ & Hcase)]]); simpl; try by rewrite Hann.
  destruct (ObjectId_parse id) as [oid|];
    [destruct (find_one (by_id oid) (announcements_collection db))
       as [old|]|].
  - destruct Hcase as (_ & c1 & c2 & -> & _ & Hold & ->).
    rewrite !ids_app. unfold ids. simpl.
    by rewrite lookup_union_r by apply fields_set_no_id.
  - destruct Hcase as [-> _]. done.
  - destruct Hcase as [[-> _] _]. done.
Qed.

(** An update never changes the identifiers of the collection: as many
    documents, with the same identifiers in the same order, whatever the
    request answers.  A create and a delete keep the identifiers unique when
    they were. *)
Theorem identifiers_kept message end_date start_date (id : string) m e s u
    utcnow generated db :
  ids (announcements_collection (snd (update_announcement id m e s u utcnow db)))
  = ids (announcements_collection db)
  ∧ (unique_ids (announcements_collection db) →
     unique_ids
       (announcements_collection
          (snd (create_announcement message end_date start_date u utcnow
                  generated db)))
     ∧ unique_ids (announcements_collection (snd (delete_announcement id u db)))).
Proof.
  split; [apply update_ids|]. intros Hunique. split.
  - destruct (create_footprint message end_date start_date u utcnow
                generated db)
      as (r & db' & log & -> & _ & _ & _
          & [(_ & [Hann _] & _)|[(_ & [Hann _] & _)
            |(_ & ? & ? & _ & _ & _
              & [(_ & _ & Hann)|(Hfresh & _ & Hann)])]]);
      simpl; try by rewrite Hann.
    rewrite Hann. unfold unique_ids in *. rewrite ids_app.
    apply NoDup_app. split_and!; [done| |].
    + intros i Hi [->|[]%elem_of_nil]%elem_of_cons.
      unfold created_document in Hi. rewrite lookup_insert_eq in Hi.
      apply list_elem_of_fmap in Hi as (A & HA & Hin).
      by apply (Hfresh A Hin).
    + apply NoDup_singleton.
  - destruct (delete_footprint id u db)
      as (r & db' & log & -> & _ & _ & _ & [(_ & [Hann _] & _)|(_ & Hcase)]);
      simpl; [by rewrite Hann|].
    destruct (ObjectId_parse id) as [oid|];
      [destruct (find_one (by_id oid) (announcements_collection db))
         as [old|]|].
    + destruct Hcase as (_ & c1 & c2 & Hc & _ & _ & ->).
      unfold unique_ids in *. rewrite Hc in Hunique.
      rewrite ids_app in *. unfold ids in Hunique. simpl in Hunique.
      apply NoDup_app in Hunique as (H1 & Hdisj & [_ H2]%NoDup_cons).
      apply NoDup_app. split_and!; [done| |done].
      intros i Hi Hi'. apply (Hdisj i Hi). by right.
    + destruct Hcase as [-> _]. done.
    + destruct Hcase as [[-> _] _]. done.
Qed.

(** ** Partial update *)

Lemma fields_set_other m e s ed sd utcnow (key : string) :
  key ∉ update_keys →
  bson_document (fields_set m e s ed sd utcnow) !! key = None.
Proof.
  rewrite bson_fields_set. unfold update_keys. intros Hkey.
  assert (key ≠ "updated_at" ∧ key ≠ "message" ∧ key ≠ "start_date"
          ∧ key ≠ "end_date") as (? & ? & ? & ?) by set_solver.
  unfold fields_set. destruct m, s, e, ed; cbv zeta; simpl;
    by rewrite ?lookup_insert_ne by done.
Qed.

(** A successful update rewrites one record, the first with the identifier,
    where it stands; in it, only [updated_at] and the fields the request
    provides can change: every other key, and [message], [start_date] and
    [end_date] when their argument is absent, keep their value.  The
    response is the serialization of the record as it now is. *)
Theorem update_changes_only_given id m e s u utcnow db out db' :
  update_announcement id m e s u utcnow db = (Return out, db') →
  ∃ c1 old new c2,
    announcements_collection db = c1 ++ old :: c2
    ∧ announcements_collection db' = c1 ++ new :: c2
    ∧ out = serialized new
    ∧ (∀ key : string, key ∉ update_keys → new !! key = old !! key)
    ∧ (m = None → new !! "message" = old !! "message")
    ∧ (s = None → new !! "start_date" = old !! "start_date")
    ∧ (e = None → new !! "end_date" = old !! "end_date").
Proof.
  intros Hrun.
  destruct (update_footprint id m e s u utcnow db)
    as (r & db2 & log & Hrun' & _ & _ & _ & Hcase).
  rewrite Hrun in Hrun'. injection Hrun' as <- <-.
  destruct Hcase as [(_ & _ & ? & [=])|[(_ & _ & _ & ? & [=])
                    |(_ & ed & sd & _ & _ & He & Hcase)]].
  destruct (ObjectId_parse id) as [oid|]; [|by destruct Hcase].
  destruct (find_one (by_id oid) (announcements_collection db)) as [old|];
    [|by destruct Hcase].
  destruct Hcase as ([= ->] & c1 & c2 & Hc & _ & _ & Hc').
  destruct (fields_set_lookup m e s ed sd utcnow He)
    as (_ & _ & Hmessage & Hstart & Hend).
  exists c1, old, (bson_document (fields_set m e s ed sd utcnow) ∪ old), c2.
  split_and!; [done|done|done|..].
  - intros key Hkey. by rewrite lookup_union_r by by apply fields_set_other.
  - intros ->. by rewrite lookup_union_r.
  - intros ->. by rewrite lookup_union_r.
  - intros ->. simpl in He. subst ed. by rewrite lookup_union_r.
Qed.

(** The response of a successful update shows what the request gave: the
    identifier of the request, the trimmed message, and, as ISO text, the
    clock reading under [updated_at] and each date that was given, all three
    as the store keeps them, cut to the millisecond; none of the four date
    fields is left as a raw date. *)
Theorem update_response_fields id m e s u utcnow db out db' :
  update_announcement id m e s u utcnow db = (Return out, db') →
  (∃ oid, ObjectId_parse id = Some oid
          ∧ out !! "id" = Some (VStr (ObjectId_str oid)))
  ∧ out !! "updated_at" = Some (VStr (isoformat (bson_date utcnow)))
  ∧ (∀ text, m = Some text → out !! "message" = Some (VStr (strip text)))
  ∧ (∀ text d, s = Some text → fromisoformat text = Some d →
               out !! "start_date" = Some (VStr (isoformat (bson_date d))))
  ∧ (∀ text d, e = Some text → fromisoformat text = Some d →
               out !! "end_date" = Some (VStr (isoformat (bson_date d))))
  ∧ (∀ (k : string) d,
       k ∈ ["start_date"; "end_date"; "created_at"; "updated_at"] →
       out !! k ≠ Some (VDate d)).
Proof.
  intros Hrun.
  destruct (update_footprint id m e s u utcnow db)
    as (r & db2 & log & Hrun' & _ & _ & _ & Hcase).
  rewrite Hrun in Hrun'. injection Hrun' as <- <-.
  destruct Hcase as [(_ & _ & ? & [=])|[(_ & _ & _ & ? & [=])
                    |(_ & ed & sd & _ & Hs & He & Hcase)]].
  destruct (ObjectId_parse id) as [oid|]; [|by destruct Hcase].
  destruct (find_one (by_id oid) (announcements_collection db)) as [old|];
    [|by destruct Hcase].
  destruct Hcase as ([= ->] & c1 & c2 & _ & _ & Hold & _).
  destruct (fields_set_lookup m e s ed sd utcnow He)
    as (Hupdated & _ & Hmessage & Hstart & Hend).
  split_and!.
  - exists oid. split; [done|]. rewrite serialized_lookup.
    rewrite bool_decide_eq_true_2 by done.
    rewrite lookup_union_r by (by apply fields_set_other; unfold update_keys;
                               set_solver).
    by rewrite Hold.
  - rewrite serialized_lookup.
    rewrite bool_decide_eq_false_2, bool_decide_eq_false_2 by done.
    rewrite bool_decide_eq_true_2 by (unfold date_keys; set_solver).
    by rewrite (lookup_union_Some_l _ _ _ _ Hupdated).
  - intros text ->. rewrite serialized_lookup.
    rewrite bool_decide_eq_false_2, bool_decide_eq_false_2 by done.
    rewrite bool_decide_eq_false_2 by (unfold date_keys; set_solver).
    by rewrite (lookup_union_Some_l _ _ _ _ Hmessage).
  - intros text d -> Hd. rewrite serialized_lookup.
    rewrite bool_decide_eq_false_2, bool_decide_eq_false_2 by done.
    rewrite bool_decide_eq_true_2 by (unfold date_keys; set_solver).
    rewrite (lookup_union_Some_l _ _ _ _ Hstart).
    unfold parsed in Hs. case_bool_decide as Htext.
    + subst text. by rewrite fromisoformat_empty in Hd.
    + destruct Hs as [_ Hsd]. rewrite Hd in Hsd. by subst sd.
  - intros text d -> Hd. rewrite serialized_lookup.
    rewrite bool_decide_eq_false_2, bool_decide_eq_false_2 by done.
    rewrite bool_decide_eq_true_2 by (unfold date_keys; set_solver).
    destruct He as [_ Hed]. rewrite Hd in Hed. subst ed.
    by rewrite (lookup_union_Some_l _ _ _ _ Hend).
  - intros k d Hk. rewrite serialized_lookup.
    assert (k ≠ "id" ∧ k ≠ "_id") as [? ?] by set_solver.
    rewrite bool_decide_eq_false_2, bool_decide_eq_false_2 by done.
    rewrite bool_decide_eq_true_2 by done.
    destruct (_ !! k) as [v|]; [|done]. simpl. intros [= Hv].
    by apply iso_value_not_date in Hv.
Qed.

(** Repeating an update that succeeded, with the same arguments and at the
    same clock reading, succeeds again with the same response and leaves the
    collection as the first one left it. *)
Theorem update_twice id m e s u utcnow db out db' :
  update_announcement id m e s u utcnow db = (Return out, db') →
  ∃ db'',
    update_announcement id m e s u utcnow db' = (Return out, db'')
    ∧ announcements_collection db'' = announcements_collection db'.
Proof.
  intros Hrun.
  destruct (update_footprint id m e s u utcnow db)
    as (r & db2 & log & Hrun' & Ht & _ & _ & Hcase).
  rewrite Hrun in Hrun'. injection Hrun' as <- <-.
  destruct Hcase as [(_ & _ & ? & [=])|[(_ & _ & _ & ? & [=])
                    |(Hauth & ed & sd & Hm & Hs & He & Hcase)]].
  destruct (ObjectId_parse id) as [oid|] eqn:Hid; [|by destruct Hcase].
  destruct (find_one (by_id oid) (announcements_collection db)) as [old|];
    [|by destruct Hcase].
  destruct Hcase as ([= ->] & c1 & c2 & Hc & Hc1 & Hold & Hc').
  set (update := bson_document (fields_set m e s ed sd utcnow)) in *.
  assert (find_one (by_id oid) (announcements_collection db')
          = Some (update ∪ old)) as Hfind.
  { rewrite Hc'. apply find_one_middle.
    - intros B HB. unfold by_id. rewrite matches_id by done.
      apply bool_decide_eq_false_2. by apply Hc1.
    - unfold by_id. rewrite matches_id by done.
      apply bool_decide_eq_true_2.
      unfold update. by rewrite lookup_union_r by apply fields_set_no_id. }
  assert (update ∪ (update ∪ old) = update ∪ old) as Hidem.
  { by rewrite (assoc_L (∪)), (idemp_L (∪)). }
  destruct (update_found id m e s u utcnow db' ed sd oid (update ∪ old))
    as (db'' & Hrun'' & _ & c1' & c2' & Hc1' & Hc2'); try done.
  { by eapply authenticated_teachers. }
  cbv zeta in *. fold update in Hrun'', Hc2'. rewrite Hidem in Hrun'', Hc2'.
  exists db''. split; [done|]. by rewrite Hc2', Hc1'.
Qed.

(** ** Requests, then listings *)

Lemma list_all_run db :
  identified (announcements_collection db) →
  fst (list_announcements db)
  = Return (serialized <$> sort "end_date" DESCENDING
                             (announcements_collection db)).
Proof.
  intros Hid. unfold list_announcements.
  unfold mbind at 1. unfold handler_bind at 1. unfold announcements_find.
  rewrite find_all. rewrite mapM_to_response; [done|].
  intros A HA. apply Hid. by rewrite <- (sort_Permutation "end_date" DESCENDING).
Qed.

Lemma get_active_at now utcnow T db :
  reference_is now utcnow T →
  get_active_announcements now utcnow db = active_announcements T db.
Proof.
  intros Href. unfold get_active_announcements. unfold mbind, handler_bind at 1.
  assert (reference_time now utcnow db = (Return T, db)) as ->; [|done].
  destruct Href as [[-> ->]|(s & -> & Hs)]; [done|].
  unfold reference_time, str_truthy. case_bool_decide as Hempty; simpl.
  - rewrite Hempty, fromisoformat_empty in Hs. done.
  - by rewrite Hs.
Qed.

Lemma active_run T db :
  identified (announcements_collection db) →
  fst (active_announcements T db)
  = Return (serialized <$> sort "end_date" ASCENDING
                             (find (active_query T)
                                (announcements_collection db))).
Proof.
  intros Hid. unfold active_announcements.
  unfold mbind at 1. unfold handler_bind at 1. unfold announcements_find.
  rewrite mapM_to_response; [done|].
  intros A HA. apply Hid.
  rewrite (sort_Permutation "end_date" ASCENDING) in HA.
  by apply elem_of_find in HA as [HA _].
Qed.

Lemma listed A db :
  identified (announcements_collection db) →
  A ∈ announcements_collection db →
  ∃ listing,
    fst (list_announcements db) = Return listing ∧ serialized A ∈ listing.
Proof.
  intros Hid HA. eexists. split; [by apply list_all_run|].
  apply list_elem_of_fmap. exists A. split; [done|].
  by rewrite (sort_Permutation "end_date" DESCENDING).
Qed.

Lemma identified_app c1 A c2 :
  identified (c1 ++ c2) → is_Some (A !! "_id") → identified (c1 ++ A :: c2).
Proof.
  intros Hid HA B [HB|[->|HB]%elem_of_cons]%elem_of_app; [|done|];
    apply Hid, elem_of_app; auto.
Qed.

Lemma identified_remove c1 A c2 :
  identified (c1 ++ A :: c2) → identified (c1 ++ c2).
Proof.
  intros Hid B [HB|HB]%elem_of_app; apply Hid, elem_of_app; [by left|].
  right. by right.
Qed.

(** What a successful create or update answers is what list-all shows for
    that announcement right afterwards. *)
Theorem response_is_listed message end_date start_date (id : string) m e s u
    utcnow generated db :
  identified (announcements_collection db) →
  (∀ out db',
     create_announcement message end_date start_date u utcnow generated db
     = (Return out, db') →
     ∃ listing, fst (list_announcements db') = Return listing ∧ out ∈ listing)
  ∧ (∀ out db',
       update_announcement id m e s u utcnow db = (Return out, db') →
       ∃ listing,
         fst (list_announcements db') = Return listing ∧ out ∈ listing).
Proof.
  intros Hid. split; intros out db' Hrun.
  - destruct (create_footprint message end_date start_date u utcnow
                generated db)
      as (r & db2 & log & Hrun' & _ & _ & _ & Hcase).
    rewrite Hrun in Hrun'. injection Hrun' as <- <-.
    destruct Hcase as [(_ & _ & ? & [=])|[(_ & _ & Hval)
      |(_ & e' & sd & _ & _ & _ & [(_ & [=] & _)|(_ & [= ->] & Hann)])]].
    { destruct Hval as [(_ & [=])|[(_ & _ & [=])|[(_ & _ & _ & [=])
                       |(_ & _ & ? & _ & _ & _ & [=])]]]. }
    apply listed.
    + rewrite Hann. rewrite <- (app_nil_r (_ ++ [_])), <- app_assoc.
      apply identified_app; [by rewrite app_nil_r|].
      unfold created_document. rewrite lookup_insert_eq. by eexists.
    + rewrite Hann. apply elem_of_app. right. left.
  - destruct (update_footprint id m e s u utcnow db)
      as (r & db2 & log & Hrun' & _ & _ & _ & Hcase).
    rewrite Hrun in Hrun'. injection Hrun' as <- <-.
    destruct Hcase as [(_ & _ & ? & [=])|[(_ & _ & _ & ? & [=])
                      |(_ & ed & sd & _ & _ & _ & Hcase)]].
    destruct (ObjectId_parse id) as [oid|]; [|by destruct Hcase].
    destruct (find_one (by_id oid) (announcements_collection db)) as [old|];
      [|by destruct Hcase].
    destruct Hcase as ([= ->] & c1 & c2 & Hc & _ & Hold & Hc').
    apply listed.
    + rewrite Hc'. apply identified_app.
      * rewrite Hc in Hid. by eapply identified_remove.
      * rewrite lookup_union_r by apply fields_set_no_id. by eexists.
    + rewrite Hc'. apply elem_of_app. right. left.
Qed.

(** A created announcement is listed as active at every reference time that
    is not after its end date and, if it has a start date, not before it,
    the two dates taken as the store keeps them, cut to the millisecond. *)
Theorem created_is_active message end_date start_date u utcnow generated
    db out db' now clock T e sd :
  identified (announcements_collection db) →
  create_announcement message end_date start_date u utcnow generated db
  = (Return out, db') →
  fromisoformat end_date = Some e → parsed start_date sd →
  reference_is now clock T →
  datetime_le T (bson_date e) →
  (∀ d, sd = Some d → datetime_le (bson_date d) T) →
  ∃ listing,
    fst (get_active_announcements now clock db') = Return listing
    ∧ out ∈ listing.
Proof.
  intros Hid Hrun He Hsd Href HTe Hstart.
  destruct (create_footprint message end_date start_date u utcnow generated db)
    as (r & db2 & log & Hrun' & _ & _ & _ & Hcase).
  rewrite Hrun in Hrun'. injection Hrun' as <- <-.
  destruct Hcase as [(_ & _ & ? & [=])|[(_ & _ & Hval)
    |(_ & e' & sd' & _ & He' & Hsd' & [(_ & [=] & _)|(_ & [= ->] & Hann)])]].
  { destruct Hval as [(_ & [=])|[(_ & _ & [=])|[(_ & _ & _ & [=])
                     |(_ & _ & ? & _ & _ & _ & [=])]]]. }
  assert (e' = e) as -> by congruence.
  assert (sd' = sd) as ->.
  { unfold parsed in *. destruct start_date as [t|]; [|congruence].
    case_bool_decide; [congruence|].
    destruct Hsd as [_ <-], Hsd' as [_ <-]. done. }
  set (stored := created_document message sd e utcnow generated) in *.
  assert (identified (announcements_collection db')) as Hid'.
  { rewrite Hann. rewrite <- (app_nil_r (_ ++ [_])), <- app_assoc.
    apply identified_app; [by rewrite app_nil_r|].
    unfold stored, created_document. rewrite lookup_insert_eq. by eexists. }
  rewrite (get_active_at now clock T db' Href).
  eexists. split; [by apply active_run|].
  apply list_elem_of_fmap. exists stored. split; [done|].
  rewrite (sort_Permutation "end_date" ASCENDING).
  apply elem_of_find. split.
  { rewrite Hann. apply elem_of_app. right. left. }
  apply matches_active_query. unfold active_at, stored, created_document.
  rewrite bson_new_document.
  rewrite !lookup_insert_ne by done. rewrite !new_document_lookup. simpl.
  split; [by exists (bson_date e)|].
  destruct sd as [d|]; simpl; [|by right; left].
  right; right. exists (bson_date d). split; [done|]. by apply Hstart.
Qed.

(** Everything list-active shows, list-all shows too. *)
Theorem active_within_all now utcnow db active :
  identified (announcements_collection db) →
  fst (get_active_announcements now utcnow db) = Return active →
  ∃ all,
    fst (list_announcements db) = Return all ∧ ∀ x, x ∈ active → x ∈ all.
Proof.
  intros Hid Hactive. eexists. split; [by apply list_all_run|].
  destruct (get_active_cases now utcnow db) as [Hrun|[T Hrun]];
    rewrite Hrun in Hactive; [done|].
  rewrite active_run in Hactive by done. injection Hactive as <-.
  intros x (A & -> & HA)%list_elem_of_fmap.
  apply list_elem_of_fmap. exists A. split; [done|].
  rewrite (sort_Permutation "end_date" DESCENDING).
  rewrite (sort_Permutation "end_date" ASCENDING) in HA.
  by apply elem_of_find in HA as [HA _].
Qed.

(** ** A create, undone *)

Lemma last_occurrence (X : Type) (P : X → Prop) (l c1 c2 : list X) a :
  l ++ [a] = c1 ++ a :: c2 → P a → (∀ x, x ∈ l → ¬ P x) →
  c1 = l ∧ c2 = [].
Proof.
  intros Heq Ha Hl. destruct c2 as [|x c2 _] using rev_ind.
  - by apply app_inj_tail in Heq as [-> _].
  - rewrite app_comm_cons, app_assoc in Heq.
    apply app_inj_tail in Heq as [-> _].
    destruct (Hl a); [|done]. apply elem_of_app. right. left.
Qed.

(** Deleting the announcement a create has just stored, under the
    identifier the store gave it, is acknowledged and puts both collections
    back as they were before the create. *)
Theorem create_then_delete message end_date start_date u utcnow generated
    db out db' id :
  create_announcement message end_date start_date u utcnow generated db
  = (Return out, db') →
  ObjectId_parse id = Some generated →
  ∃ db'',
    delete_announcement id u db'
    = (Return (<["message" := VStr "Announcement deleted"]> ∅), db'')
    ∧ announcements_collection db'' = announcements_collection db
    ∧ teachers_collection db'' = teachers_collection db.
Proof.
  intros Hrun Hid.
  destruct (create_footprint message end_date start_date u utcnow generated db)
    as (r & db2 & log & Hrun' & Ht & _ & _ & Hcase).
  rewrite Hrun in Hrun'. injection Hrun' as <- <-.
  destruct Hcase as [(_ & _ & ? & [=])|[(_ & _ & Hval)
                    |(Hauth & e & sd & _ & _ & _
                      & [(_ & [=] & _)|(Hfresh & _ & Hc)])]].
  { destruct Hval as [(_ & [=])|[(_ & _ & [=])|[(_ & _ & _ & [=])
                     |(_ & _ & ? & _ & _ & _ & [=])]]]. }
  set (stored := created_document message sd e utcnow generated) in *.
  assert (stored !! "_id" = Some (VOid generated)) as Hstored
    by (unfold stored, created_document; by rewrite lookup_insert_eq).
  assert (authenticated u db') as Hauth' by by eapply authenticated_teachers.
  assert (find_one (by_id generated) (announcements_collection db')
          = Some stored) as Hfind.
  { rewrite Hc. by apply find_one_inserted. }
  destruct (delete_footprint id u db')
    as (r & db'' & log' & Hdel & Ht' & _ & _ & [(Hno & _)|(_ & Hdcase)]);
    [done|].
  rewrite Hid, Hfind in Hdcase.
  destruct Hdcase as (-> & c1 & c2 & Hc' & Hc1 & _ & Hc'').
  rewrite Hc in Hc'.
  apply (last_occurrence _ (λ A : document, A !! "_id" = Some (VOid generated)))
    in Hc' as [-> ->]; [|done|done].
  exists db''. split_and!; [done| |congruence].
  by rewrite Hc'', app_nil_r.
Qed.

(** ** Who is a teacher *)

Lemma teacher_lookup name db :
  match find_one (Qfield "_id" (Ceq (VStr name))) (teachers_collection db) with
  | Some t => doc_truthy (Some t) = true ∧ ¬ unknown_teacher name db
  | None => unknown_teacher name db
  end.
Proof.
  destruct (find_one _ _) as [t|] eqn:Hfind.
  - apply find_one_Some in Hfind as [Ht Hm]. rewrite matches_id in Hm by done.
    apply bool_decide_eq_true in Hm. split.
    + simpl. apply negb_true_iff, bool_decide_eq_false_2. intros ->.
      by rewrite lookup_empty in Hm.
    + intros Hunknown. by apply (Hunknown t).
  - intros t Ht Hid. rewrite find_one_None in Hfind.
    specialize (Hfind t Ht). rewrite matches_id in Hfind by done.
    by apply bool_decide_eq_false in Hfind.
Qed.

(** [_require_teacher] lets through exactly the callers whose user name is
    not empty and is the identifier of a teacher record.  A missing or empty
    user name is answered 401 "Authentication required" without consulting
    the teachers; a user name that no record has, 401 "Invalid teacher
    credentials". *)
Theorem require_teacher_spec u db :
  (authenticated u db
   ↔ ∃ name, u = Some name ∧ name ≠ "" ∧ ¬ unknown_teacher name db)
  ∧ (fst (_require_teacher u db) = HTTPException 401 "Authentication required"
     ↔ u = None ∨ u = Some "")
  ∧ (fst (_require_teacher u db)
     = HTTPException 401 "Invalid teacher credentials"
     ↔ ∃ name, u = Some name ∧ name ≠ "" ∧ unknown_teacher name db)
  ∧ (u = None ∨ u = Some "" → snd (_require_teacher u db) = db).
Proof.
  unfold authenticated, _require_teacher.
  destruct u as [name|]; [|by split_and!; naive_solver].
  unfold str_truthy. destruct (decide (name = "")) as [->|Hname].
  { split_and!; naive_solver. }
  rewrite bool_decide_eq_false_2 by done. cbn [negb].
  unfold teachers_find_one. step.
  pose proof (teacher_lookup name db) as Hlookup.
  destruct (find_one _ _) as [t|].
  - destruct Hlookup as [-> Hknown]. split_and!; naive_solver.
  - split_and!; naive_solver.
Qed.

(** ** Messages *)

(** For an authenticated caller, create answers 400 "Message is required"
    exactly when the message consists of whitespace only (the empty message
    included). *)
Theorem blank_message_refused message end_date start_date u utcnow generated
    db :
  authenticated u db →
  fst (create_announcement message end_date start_date u utcnow generated db)
  = HTTPException 400 "Message is required"
  ↔ blank message.
Proof.
  intros Hauth. rewrite <- strip_blank.
  destruct (create_footprint message end_date start_date u utcnow generated db)
    as (r & db' & log & -> & _ & _ & _
        & [(Hno & _)|[(_ & _ & Hval)
          |(_ & ? & ? & Hm & _ & _ & [(_ & -> & _)|(_ & -> & _)])]]);
    [done| | |]; cbn [fst]; [|done..].
  destruct Hval as [(Hblank & ->)|[(Hm & _ & ->)|[(Hm & _ & _ & ->)
                   |(Hm & _ & ? & _ & _ & _ & ->)]]]; [done|done| |].
  - split; [|done]. intros Heq. exfalso. by injection Heq.
  - split; [|done]. intros Heq. exfalso. by injection Heq.
Qed.

(** Every message the router writes is trimmed and not empty: if all stored
    announcements have such a message, they still do after any create,
    update or delete. *)
Theorem messages_stay_written message end_date start_date (id : string)
    m e s u utcnow generated db :
  (∀ A, A ∈ announcements_collection db → message_written A) →
  (∀ A, A ∈ announcements_collection
              (snd (create_announcement message end_date start_date u utcnow
                      generated db)) → message_written A)
  ∧ (∀ A, A ∈ announcements_collection
                (snd (update_announcement id m e s u utcnow db)) →
          message_written A)
  ∧ (∀ A, A ∈ announcements_collection (snd (delete_announcement id u db)) →
          message_written A).
Proof.
  intros Hall. split_and!.
  - destruct (create_footprint message end_date start_date u utcnow
                generated db)
      as (r & db' & log & -> & _ & _ & _
          & [(_ & [Hann _] & _)|[(_ & [Hann _] & _)
            |(_ & e' & sd & Hm & _ & _
              & [(_ & _ & Hann)|(_ & _ & Hann)])]]);
      simpl; rewrite Hann; try done.
    intros A [HA|[->|[]%elem_of_nil]%elem_of_cons]%elem_of_app; [by apply Hall|].
    exists (strip message). split_and!; [|apply strip_trimmed|done].
    unfold created_document. rewrite lookup_insert_ne by done.
    by rewrite bson_new_document, new_document_lookup.
  - destruct (update_footprint id m e s u utcnow db)
      as (r & db' & log & -> & _ & _ & _
          & [(_ & [Hann _] & _)|[(_ & [Hann _] & _)
            |(_ & ed & sd & Hm & _ & He & Hcase)]]);
      simpl; try (by rewrite Hann).
    destruct (ObjectId_parse id) as [oid|];
      [destruct (find_one (by_id oid) (announcements_collection db))
         as [old|]|].
    + destruct Hcase as (_ & c1 & c2 & Hc & _ & _ & ->).
      assert (message_written old) as Hold.
      { apply Hall. rewrite Hc. apply elem_of_app. right. left. }
      intros A [HA|[->|HA]%elem_of_cons]%elem_of_app.
      * apply Hall. rewrite Hc. apply elem_of_app. by left.
      * destruct (fields_set_lookup m e s ed sd utcnow He)
          as (_ & _ & Hmessage & _).
        destruct m as [text|]; simpl in *.
        -- exists (strip text). split_and!; [|apply strip_trimmed|done].
           by rewrite (lookup_union_Some_l _ _ _ _ Hmessage).
        -- destruct Hold as (text & Htext & ? & ?). exists text.
           split_and!; [|done..]. by rewrite lookup_union_r.
      * apply Hall. rewrite Hc. apply elem_of_app. right. by right.
    + destruct Hcase as [-> _]. done.
    + destruct Hcase as [[-> _] _]. done.
  - destruct (delete_footprint id u db)
      as (r & db' & log & -> & _ & _ & _ & [(_ & [Hann _] & _)|(_ & Hcase)]);
      simpl; [by rewrite Hann|].
    destruct (ObjectId_parse id) as [oid|];
      [destruct (find_one (by_id oid) (announcements_collection db))
         as [old|]|].
    + destruct Hcase as (_ & c1 & c2 & Hc & _ & _ & ->).
      intros A [HA|HA]%elem_of_app; apply Hall; rewrite Hc;
        apply elem_of_app; [by left|]. right. by right.
    + destruct Hcase as [-> _]. done.
    + destruct Hcase as [[-> _] _]. done.
Qed.

(** ** Checking the further hypotheses on a concrete database *)

Lemma messages_written_check c :
  forallb (λ A : document,
             match A !! "message" with
             | Some (VStr text) =>
                 bool_decide (lstrip text = text ∧ rstrip text = text
                              ∧ text ≠ "")
             | _ => false
             end) c = true →
  ∀ A, A ∈ c → message_written A.
Proof.
  rewrite forallb_forall. intros Hall A HA%list_elem_of_In.
  apply Hall in HA. destruct (A !! "message") as [[|text| |]|] eqn:Hm;
    try done.
  apply bool_decide_eq_true in HA as (? & ? & ?).
  exists text. by split_and!.
Qed.

End Further.
(** * The router on the concrete platform *)

(** Decidable statements about concrete requests are settled by running the
    decision procedure. *)
Ltac by_evaluation :=
  lazymatch goal with
  | |- ?P => apply (bool_decide_unpack P); vm_compute; exact I
  end.

Section Examples.
#[local] Existing Instance calendar.

Example strip_blanks :
  strip "  Final exams start Monday " = "Final exams start Monday".
Proof. reflexivity. Qed.

Example create_exams_stores :
  announcements_collection (snd create_exams) = [exams].
Proof. by_evaluation. Qed.

(** The scenarios of the specification. *)
Example active_on_june_5 :
  fst (get_active_announcements (Some "2025-06-05T00:00:00") noon school)
  = Return [serialized exams].
Proof. by_evaluation. Qed.

Example active_on_june_11 :
  fst (get_active_announcements (Some "2025-06-11T00:00:00") noon school)
  = Return [serialized fair].
Proof. by_evaluation. Qed.

Example list_all_descending :
  fst (list_announcements school) = Return [serialized fair; serialized exams].
Proof. by_evaluation. Qed.

(** An announcement as the listings show it. *)
Example serialized_exams :
  serialized exams
  = <["id" := VStr "665f1c2e9b3a4d0012345678"]>
    (<["message" := VStr "Final exams start Monday"]>
    (<["start_date" := VNull]>
    (<["end_date" := VStr "2025-06-10T00:00:00"]>
    (<["created_at" := VStr "2025-06-01T12:00:00"]>
    (<["updated_at" := VStr "2025-06-01T12:00:00"]> ∅))))).
Proof. by_evaluation. Qed.

Example create_blank_message :
  fst (create_announcement "   " "2025-06-10T00:00:00" None (Some "jwilson")
         noon exams_id school_before)
  = HTTPException 400 "Message is required".
Proof. by_evaluation. Qed.

Example update_without_teacher :
  fst (update_announcement exams_id (Some "Exams moved to Tuesday") None None
         None noon school)
  = HTTPException 401 "Authentication required".
Proof. by_evaluation. Qed.

(** Dates without a time of day or without seconds, and an identifier with
    whitespace between its bytes: the text is read, and the eleven bytes
    designate no announcement. *)
Example short_dates :
  fromisoformat "2025-06-10" = Some june_10
  ∧ fromisoformat "2025-06-10T00:00" = Some june_10.
Proof. split; vm_compute; reflexivity. Qed.

Example spaced_id_not_found :
  ObjectId_parse "665f1c2e9b3a4d00123456  " = Some "665f1c2e9b3a4d00123456"
  ∧ delete_announcement "665f1c2e9b3a4d00123456  " (Some "jwilson") school
    = (HTTPException 404 "Announcement not found",
       Database [exams; fair] [jwilson]
         [(teachers, "find_one"); (announcements, "delete_one")]).
Proof. split; by_evaluation. Qed.

Example delete_then_delete :
  fst (delete_announcement exams_id (Some "jwilson")
         (snd (delete_announcement exams_id (Some "jwilson") school)))
  = HTTPException 404 "Announcement not found".
Proof. by_evaluation. Qed.


Lemma list_all_spec_witness :
  ∃ cursor,
    fst (list_announcements school) = Return (serialized <$> cursor)
    ∧ cursor ≡ₚ announcements_collection school
    ∧ StronglySorted end_date_ge cursor
    ∧ (∀ A i, A !! "_id" = Some i →
         serialized A !! "id" = Some (VStr (py_str i))
         ∧ serialized A !! "_id" = None)
    ∧ (∀ A d, A !! "start_date" = Some (VDate d) →
         serialized A !! "start_date" = Some (VStr (isoformat d)))
    ∧ (∀ A d, A !! "end_date" = Some (VDate d) →
         serialized A !! "end_date" = Some (VStr (isoformat d)))
    ∧ (∀ A d, A !! "created_at" = Some (VDate d) →
         serialized A !! "created_at" = Some (VStr (isoformat d)))
    ∧ (∀ A d, A !! "updated_at" = Some (VDate d) →
         serialized A !! "updated_at" = Some (VStr (isoformat d)))
    ∧ (∀ A, serialized A !! "message" = A !! "message").
Proof.
  apply (list_all_spec school).
  apply identified_check. vm_compute. reflexivity.
Defined.

Lemma unauthenticated_401_witness :
  ∃ detail,
    fst (create_announcement "Picnic" "2025-06-10T00:00:00" None
           (Some "mallory") noon exams_id school) = HTTPException 401 detail
    ∧ fst (update_announcement exams_id (Some "Picnic") None None
             (Some "mallory") noon school) = HTTPException 401 detail
    ∧ fst (delete_announcement exams_id (Some "mallory") school)
      = HTTPException 401 detail.
Proof.
  apply (proj2 (unauthenticated_401 school "Picnic" "2025-06-10T00:00:00"
                  exams_id None (Some "Picnic") None None noon exams_id)
           "mallory").
  apply unknown_teacher_check. vm_compute. reflexivity.
Defined.

Lemma authentication_first_witness :
  ∃ detail db',
    announcements_untouched school db'
    ∧ ∀ (message end_date id : string) (start_date m e s : option string)
        (utcnow : datetime) (generated : ObjectId),
        create_announcement message end_date start_date (Some "mallory")
          utcnow generated school = (HTTPException 401 detail, db')
        ∧ update_announcement id m e s (Some "mallory") utcnow school
          = (HTTPException 401 detail, db')
        ∧ delete_announcement id (Some "mallory") school
          = (HTTPException 401 detail, db').
Proof.
  apply (authentication_first (Some "mallory") school).
  right. exists "mallory". split; [reflexivity|].
  apply unknown_teacher_check. vm_compute. reflexivity.
Defined.

(** The message comes back trimmed, not as it was supplied. *)
Lemma create_trims_message :
  ∃ out db',
    create_announcement "  Final exams start Monday " "2025-06-10T00:00:00"
      None (Some "jwilson") noon exams_id school_before = (Return out, db')
    ∧ out !! "message" = Some (VStr "Final exams start Monday")
    ∧ out !! "message" ≠ Some (VStr "  Final exams start Monday ").
Proof.
  exists (response_of create_exams), (snd create_exams).
  split_and!; by_evaluation.
Qed.

(** An empty [now] is present and does not parse, yet the request is served
    as if it were absent. *)
Lemma empty_now_is_served :
  fromisoformat "" = None
  ∧ get_active_announcements (Some "") noon school
    = get_active_announcements None noon school
  ∧ ∃ listing,
      fst (get_active_announcements (Some "") noon school) = Return listing.
Proof.
  split_and!; [reflexivity|reflexivity|].
  exists (default [] (returned (fst (get_active_announcements (Some "") noon
                                        school)))).
  by_evaluation.
Qed.

Lemma reference_time_default_witness :
  get_active_announcements None noon school = active_announcements noon school
  ∧ get_active_announcements (Some "next week") noon school
    = (Raise ValueError, school).
Proof.
  split.
  - apply (proj1 (reference_time_default None noon school)).
    left. reflexivity.
  - apply (proj2 (reference_time_default (Some "next week") noon school)
             "next week"); [reflexivity|by_evaluation|].
    vm_compute. reflexivity.
Defined.

Lemma update_end_date_required_witness :
  (∃ status detail db',
     update_announcement exams_id None (Some "") None (Some "jwilson") noon
       school = (HTTPException status detail, db')
     ∧ announcements_untouched school db'
     ∧ (authenticated (Some "jwilson") school → status = 400)
     ∧ (¬ authenticated (Some "jwilson") school → status = 401))
  ∧ (∃ out db' new,
       update_announcement fair_id None None (Some "") (Some "jwilson") noon
         school = (Return out, db')
       ∧ find_one (by_id fair_id) (announcements_collection db') = Some new
       ∧ new !! "start_date" = Some VNull
       ∧ out !! "start_date" = Some VNull).
Proof.
  split.
  - apply (proj1 (update_end_date_required exams_id None (Some "") None
                    (Some "jwilson") noon school) "");
      [reflexivity|left; reflexivity].
  - apply (proj2 (update_end_date_required fair_id None None (Some "")
                    (Some "jwilson") noon school) eq_refl)
      with (oid := fair_id) (old := fair).
    + by_evaluation.
    + exact I.
    + exists None. reflexivity.
    + vm_compute. reflexivity.
    + by_evaluation.
Defined.

(** An update at the instant the record already holds leaves [updated_at]
    as it was. *)
Lemma update_at_same_instant :
  ∃ out db' old new,
    update_announcement exams_id (Some "Exams moved to Tuesday") None None
      (Some "jwilson") noon school = (Return out, db')
    ∧ find_one (by_id exams_id) (announcements_collection school) = Some old
    ∧ find_one (by_id exams_id) (announcements_collection db') = Some new
    ∧ new !! "updated_at" = old !! "updated_at".
Proof.
  set (run := update_announcement exams_id (Some "Exams moved to Tuesday")
                None None (Some "jwilson") noon school).
  exists (response_of run), (snd run), exams,
    (<["message" := VStr "Exams moved to Tuesday"]> exams).
  split_and!; by_evaluation.
Qed.

Lemma update_message_only_witness :
  ∃ oid old new,
    ObjectId_parse exams_id = Some oid
    ∧ find_one (by_id oid) (announcements_collection school) = Some old
    ∧ find_one (by_id oid) (announcements_collection (snd reword_exams))
      = Some new
    ∧ new !! "start_date" = old !! "start_date"
    ∧ new !! "end_date" = old !! "end_date"
    ∧ new !! "created_at" = old !! "created_at"
    ∧ new !! "message" = Some (VStr (strip "Exams moved to Tuesday"))
    ∧ new !! "updated_at" = Some (VDate (bson_date june_5))
    ∧ (new !! "updated_at" = old !! "updated_at"
       ↔ old !! "updated_at" = Some (VDate (bson_date june_5))).
Proof.
  apply (update_message_only exams_id "Exams moved to Tuesday"
           (Some "jwilson") june_5 school (response_of reword_exams)
           (snd reword_exams)).
  by_evaluation.
Defined.

Lemma start_after_end_accepted_witness :
  (∃ out db' stored,
     create_announcement "Sports day" "2025-06-10T00:00:00"
       (Some "2025-07-01T00:00:00") (Some "jwilson") noon
       "665f1c2e9b3a4d001234567a" school = (Return out, db')
     ∧ find_one (by_id "665f1c2e9b3a4d001234567a")
         (announcements_collection db') = Some stored
     ∧ stored !! "start_date" = Some (VDate july_1)
     ∧ stored !! "end_date" = Some (VDate june_10))
  ∧ (∃ out db' new,
       update_announcement exams_id (Some "Sports day")
         (Some "2025-06-10T00:00:00") (Some "2025-07-01T00:00:00")
         (Some "jwilson") noon school = (Return out, db')
       ∧ find_one (by_id exams_id) (announcements_collection db') = Some new
       ∧ new !! "start_date" = Some (VDate july_1)
       ∧ new !! "end_date" = Some (VDate june_10)).
Proof.
  assert (authenticated (Some "jwilson") school) as Hauth by by_evaluation.
  assert (fromisoformat "2025-06-10T00:00:00" = Some june_10) as Hend
    by (vm_compute; reflexivity).
  assert (fromisoformat "2025-07-01T00:00:00" = Some july_1) as Hstart
    by (vm_compute; reflexivity).
  assert (¬ datetime_le july_1 june_10) as Hafter by by_evaluation.
  split.
  - apply (proj1 (start_after_end_accepted "Sports day"
                    "2025-06-10T00:00:00" "2025-07-01T00:00:00"
                    (Some "jwilson") noon school june_10 july_1
                    Hauth Hend Hstart Hafter)).
    + by_evaluation.
    + apply fresh_id_check. vm_compute. reflexivity.
  - apply (proj2 (start_after_end_accepted "Sports day"
                    "2025-06-10T00:00:00" "2025-07-01T00:00:00"
                    (Some "jwilson") noon school june_10 july_1
                    Hauth Hend Hstart Hafter))
      with (oid := exams_id) (old := exams).
    + by_evaluation.
    + vm_compute. reflexivity.
    + by_evaluation.
Defined.

(** With a blank message the update is refused for the message, not for the
    identifier, although the identifier is malformed and the teacher known. *)
Lemma malformed_id_other_detail :
  ObjectId_parse "not-an-id" = None
  ∧ authenticated (Some "jwilson") school
  ∧ fst (update_announcement "not-an-id" (Some "   ") None None
           (Some "jwilson") noon school)
    = HTTPException 400 "Message cannot be empty"
  ∧ "Message cannot be empty" ≠ "Invalid announcement id".
Proof. split_and!; by_evaluation. Qed.

Lemma malformed_id_rejected_witness :
  (∀ m e s utcnow,
     ∃ status detail db',
       update_announcement "not-an-id" m e s (Some "jwilson") utcnow school
       = (HTTPException status detail, db')
       ∧ announcements_untouched school db'
       ∧ (authenticated (Some "jwilson") school →
          status = 400
          ∧ (fields_valid m e s → detail = "Invalid announcement id"))
       ∧ (¬ authenticated (Some "jwilson") school → status = 401))
  ∧ (∃ status detail db',
       delete_announcement "not-an-id" (Some "jwilson") school
       = (HTTPException status detail, db')
       ∧ announcements_untouched school db'
       ∧ (authenticated (Some "jwilson") school →
          status = 400 ∧ detail = "Invalid announcement id")
       ∧ (¬ authenticated (Some "jwilson") school → status = 401)).
Proof.
  apply (malformed_id_rejected "not-an-id" (Some "jwilson") school).
  vm_compute. reflexivity.
Defined.

End Examples.

(** * The further properties on the concrete platform *)

Section FurtherExamples.
#[local] Existing Instance calendar.

Lemma jwilson_authenticated : authenticated (Some "jwilson") school.
Proof. by_evaluation. Qed.

Lemma hello_valid : fields_valid (Some "Hello") None None.
Proof.
  split_and!; [by_evaluation|by exists None|by exists None].
Qed.

Lemma delete_removes_witness :
  ∃ db' c1 c2,
    delete_announcement exams_id (Some "jwilson") school
    = (Return (<["message" := VStr "Announcement deleted"]> ∅), db')
    ∧ announcements_collection school = c1 ++ exams :: c2
    ∧ announcements_collection db' = c1 ++ c2
    ∧ (∀ B, B ∈ c1 → B !! "_id" ≠ Some (VOid exams_id)).
Proof.
  apply (delete_removes exams_id (Some "jwilson") school exams_id exams).
  - by_evaluation.
  - vm_compute. reflexivity.
  - by_evaluation.
Defined.

Lemma unknown_id_not_found_witness :
  (fst (update_announcement missing_id (Some "Hello") None None
          (Some "jwilson") noon school)
   = HTTPException 404 "Announcement not found"
   ∧ announcements_collection
       (snd (update_announcement missing_id (Some "Hello") None None
               (Some "jwilson") noon school))
     = announcements_collection school)
  ∧ fst (delete_announcement missing_id (Some "jwilson") school)
    = HTTPException 404 "Announcement not found"
  ∧ announcements_collection
      (snd (delete_announcement missing_id (Some "jwilson") school))
    = announcements_collection school.
Proof.
  assert (ObjectId_parse missing_id = Some missing_id) as Hid
    by (vm_compute; reflexivity).
  assert (fresh_id missing_id school) as Hfresh
    by (apply fresh_id_check; vm_compute; reflexivity).
  destruct (unknown_id_not_found missing_id (Some "jwilson") school missing_id
              (Some "Hello") None None noon jwilson_authenticated Hid Hfresh)
    as [Hupdate Hdelete].
  split; [|exact Hdelete]. apply Hupdate. exact hello_valid.
Defined.

Lemma delete_then_not_found_witness :
  fst (delete_announcement exams_id (Some "jwilson") (snd delete_exams))
  = HTTPException 404 "Announcement not found"
  ∧ (fields_valid (Some "Hello") None None →
     fst (update_announcement exams_id (Some "Hello") None None
            (Some "jwilson") noon (snd delete_exams))
     = HTTPException 404 "Announcement not found").
Proof.
  apply (delete_then_not_found exams_id (Some "jwilson") school
           (response_of delete_exams) (snd delete_exams)).
  - unfold unique_ids. by_evaluation.
  - by_evaluation.
Defined.

Lemma create_validation_order_witness :
  fst (create_announcement "   " "2025-06-10T00:00:00" None (Some "jwilson")
         noon missing_id school)
  = HTTPException 400 "Message is required"
  ∧ fst (create_announcement "Sports day" "" None (Some "jwilson") noon
           missing_id school)
    = HTTPException 400 "end_date is required"
  ∧ fst (create_announcement "Sports day" "next week" None (Some "jwilson")
           noon missing_id school)
    = HTTPException 400 "Invalid datetime format: next week"
  ∧ fst (create_announcement "Sports day" "2025-06-10T00:00:00" (Some "soon")
           (Some "jwilson") noon missing_id school)
    = HTTPException 400 "Invalid datetime format: soon".
Proof.
  split_and!.
  - destruct (create_validation_order "   " "2025-06-10T00:00:00" None
                (Some "jwilson") noon missing_id school jwilson_authenticated)
      as (Hmessage & _).
    apply Hmessage. by_evaluation.
  - destruct (create_validation_order "Sports day" "" None
                (Some "jwilson") noon missing_id school jwilson_authenticated)
      as (_ & Hrequired & _).
    apply Hrequired; by_evaluation.
  - destruct (create_validation_order "Sports day" "next week" None
                (Some "jwilson") noon missing_id school jwilson_authenticated)
      as (_ & _ & Hend & _).
    apply Hend; [by_evaluation|by_evaluation|vm_compute; reflexivity].
  - destruct (create_validation_order "Sports day" "2025-06-10T00:00:00"
                (Some "soon") (Some "jwilson") noon missing_id school
                jwilson_authenticated) as (_ & _ & _ & Hstart & _).
    apply (Hstart "soon");
      [by_evaluation|vm_compute; by eexists|reflexivity|by_evaluation|].
    vm_compute. reflexivity.
Defined.

Lemma update_validation_order_witness :
  fst (update_announcement exams_id (Some "   ") (Some "garbled")
         (Some "garbled") (Some "jwilson") noon school)
  = HTTPException 400 "Message cannot be empty"
  ∧ fst (update_announcement exams_id (Some "Hello") (Some "later")
           (Some "sooner") (Some "jwilson") noon school)
    = HTTPException 400 "Invalid datetime format: sooner"
  ∧ fst (update_announcement exams_id (Some "Hello") (Some "") None
           (Some "jwilson") noon school)
    = HTTPException 400 "end_date cannot be null"
  ∧ fst (update_announcement exams_id (Some "Hello") (Some "later") (Some "")
           (Some "jwilson") noon school)
    = HTTPException 400 "Invalid datetime format: later".
Proof.
  split_and!.
  - destruct (update_validation_order exams_id (Some "   ") (Some "garbled")
                (Some "garbled") (Some "jwilson") noon school
                jwilson_authenticated) as (Hmessage & _).
    apply (Hmessage "   "); [reflexivity|by_evaluation].
  - destruct (update_validation_order exams_id (Some "Hello") (Some "later")
                (Some "sooner") (Some "jwilson") noon school
                jwilson_authenticated) as (_ & Hstart & _).
    apply (Hstart "sooner");
      [by_evaluation|reflexivity|by_evaluation|vm_compute; reflexivity].
  - destruct (update_validation_order exams_id (Some "Hello") (Some "") None
                (Some "jwilson") noon school jwilson_authenticated)
      as (_ & _ & Hnull & _).
    apply Hnull; [by_evaluation|by exists None|reflexivity].
  - destruct (update_validation_order exams_id (Some "Hello") (Some "later")
                (Some "") (Some "jwilson") noon school jwilson_authenticated)
      as (_ & _ & _ & Hend).
    apply (Hend "later");
      [by_evaluation|by exists None|reflexivity|by_evaluation|].
    vm_compute. reflexivity.
Defined.

Lemma failure_writes_nothing_witness :
  announcements_collection
    (snd (create_announcement "   " "2025-06-10T00:00:00" None
            (Some "jwilson") noon missing_id school))
  = announcements_collection school
  ∧ announcements_collection
      (snd (update_announcement missing_id (Some "Hello") None None
              (Some "jwilson") noon school))
    = announcements_collection school
  ∧ announcements_collection
      (snd (delete_announcement "not-an-id" (Some "jwilson") school))
    = announcements_collection school.
Proof.
  destruct (failure_writes_nothing "   " "2025-06-10T00:00:00" None
              missing_id (Some "Hello") None None (Some "jwilson") noon
              missing_id school) as (Hcreate & Hupdate & _).
  destruct (failure_writes_nothing "   " "2025-06-10T00:00:00" None
              "not-an-id" (Some "Hello") None None (Some "jwilson") noon
              missing_id school) as (_ & _ & Hdelete).
  split_and!.
  - apply Hcreate. unfold failed. by_evaluation.
  - apply Hupdate. unfold failed. by_evaluation.
  - apply Hdelete. unfold failed. by_evaluation.
Defined.


Lemma identifiers_kept_witness :
  unique_ids (announcements_collection (snd create_sports))
  ∧ unique_ids (announcements_collection (snd delete_exams)).
Proof.
  apply (proj2 (identifiers_kept "Sports day" "2025-07-01T00:00:00"
                  (Some "2025-06-10T00:00:00") exams_id None None None
                  (Some "jwilson") noon missing_id school)).
  unfold unique_ids. by_evaluation.
Defined.

Lemma update_changes_only_given_witness :
  ∃ c1 old new c2,
    announcements_collection school = c1 ++ old :: c2
    ∧ announcements_collection (snd reword_exams) = c1 ++ new :: c2
    ∧ response_of reword_exams = serialized new
    ∧ (∀ key : string, key ∉ update_keys → new !! key = old !! key)
    ∧ (Some "Exams moved to Tuesday" = None →
       new !! "message" = old !! "message")
    ∧ (@None string = None → new !! "start_date" = old !! "start_date")
    ∧ (@None string = None → new !! "end_date" = old !! "end_date").
Proof.
  apply (update_changes_only_given exams_id (Some "Exams moved to Tuesday")
           None None (Some "jwilson") june_5 school
           (response_of reword_exams) (snd reword_exams)).
  by_evaluation.
Defined.

Lemma update_twice_witness :
  ∃ db'',
    update_announcement exams_id (Some "Exams moved to Tuesday") None None
      (Some "jwilson") june_5 (snd reword_exams)
    = (Return (response_of reword_exams), db'')
    ∧ announcements_collection db''
      = announcements_collection (snd reword_exams).
Proof.
  apply (update_twice exams_id (Some "Exams moved to Tuesday") None None
           (Some "jwilson") june_5 school (response_of reword_exams)
           (snd reword_exams)).
  by_evaluation.
Defined.

Lemma response_is_listed_witness :
  (∃ listing,
     fst (list_announcements (snd create_sports)) = Return listing
     ∧ response_of create_sports ∈ listing)
  ∧ (∃ listing,
       fst (list_announcements (snd reword_exams)) = Return listing
       ∧ response_of reword_exams ∈ listing).
Proof.
  assert (identified (announcements_collection school)) as Hid
    by (apply identified_check; vm_compute; reflexivity).
  split.
  - apply (proj1 (response_is_listed "Sports day" "2025-07-01T00:00:00"
                    (Some "2025-06-10T00:00:00") exams_id None None None
                    (Some "jwilson") noon missing_id school Hid)).
    by_evaluation.
  - apply (proj2 (response_is_listed "Sports day" "2025-07-01T00:00:00"
                    (Some "2025-06-10T00:00:00") exams_id
                    (Some "Exams moved to Tuesday") None None
                    (Some "jwilson") june_5 missing_id school Hid)).
    by_evaluation.
Defined.

Lemma created_is_active_witness :
  ∃ listing,
    fst (get_active_announcements (Some "2025-06-05T00:00:00") noon
           (snd create_exams)) = Return listing
    ∧ response_of create_exams ∈ listing.
Proof.
  apply (created_is_active "  Final exams start Monday "
           "2025-06-10T00:00:00" None (Some "jwilson") noon exams_id
           school_before (response_of create_exams) (snd create_exams)
           (Some "2025-06-05T00:00:00") noon june_5 june_10 None).
  - apply identified_check. vm_compute. reflexivity.
  - by_evaluation.
  - vm_compute. reflexivity.
  - reflexivity.
  - right. exists "2025-06-05T00:00:00". split; [reflexivity|].
    vm_compute. reflexivity.
  - by_evaluation.
  - intros d Hd. discriminate Hd.
Defined.

Lemma active_within_all_witness :
  ∃ all,
    fst (list_announcements school) = Return all
    ∧ ∀ x, x ∈ [serialized exams] → x ∈ all.
Proof.
  apply (active_within_all (Some "2025-06-05T00:00:00") noon school
           [serialized exams]).
  - apply identified_check. vm_compute. reflexivity.
  - by_evaluation.
Defined.

Lemma blank_message_refused_witness :
  fst (create_announcement "   " "2025-06-10T00:00:00" None (Some "jwilson")
         noon missing_id school)
  = HTTPException 400 "Message is required"
  ↔ blank "   ".
Proof.
  apply (blank_message_refused "   " "2025-06-10T00:00:00" None
           (Some "jwilson") noon missing_id school).
  by_evaluation.
Defined.

Lemma messages_stay_written_witness :
  (∀ A, A ∈ announcements_collection
             (snd (create_announcement "Sports day" "2025-07-01T00:00:00"
                     (Some "2025-06-10T00:00:00") (Some "jwilson") june_5
                     missing_id school)) →
        message_written A)
  ∧ (∀ A, A ∈ announcements_collection (snd reword_exams) →
          message_written A)
  ∧ (∀ A, A ∈ announcements_collection (snd delete_exams) →
          message_written A).
Proof.
  apply (messages_stay_written "Sports day" "2025-07-01T00:00:00"
           (Some "2025-06-10T00:00:00") exams_id
           (Some "Exams moved to Tuesday") None None (Some "jwilson") june_5
           missing_id school).
  apply messages_written_check. vm_compute. reflexivity.
Defined.

Lemma create_then_delete_witness :
  ∃ db'',
    delete_announcement exams_id (Some "jwilson") (snd create_exams)
    = (Return (<["message" := VStr "Announcement deleted"]> ∅), db'')
    ∧ announcements_collection db'' = announcements_collection school_before
    ∧ teachers_collection db'' = teachers_collection school_before.
Proof.
  apply (create_then_delete "  Final exams start Monday "
           "2025-06-10T00:00:00" None (Some "jwilson") noon exams_id
           school_before (response_of create_exams) (snd create_exams)
           exams_id).
  - by_evaluation.
  - vm_compute. reflexivity.
Defined.

Lemma require_teacher_spec_witness :
  authenticated (Some "jwilson") school
  ∧ fst (_require_teacher (Some "") school)
    = HTTPException 401 "Authentication required"
  ∧ fst (_require_teacher (Some "nobody") school)
    = HTTPException 401 "Invalid teacher credentials".
Proof.
  split_and!.
  - apply (proj1 (require_teacher_spec (Some "jwilson") school)).
    exists "jwilson". split_and!; [done|done|].
    intros Hunknown. apply (Hunknown jwilson); [left|].
    by_evaluation.
  - destruct (require_teacher_spec (Some "") school) as (_ & Hmissing & _).
    apply Hmissing. by right.
  - destruct (require_teacher_spec (Some "nobody") school)
      as (_ & _ & Hunknown & _).
    apply Hunknown. exists "nobody". split_and!; [done|done|].
    apply unknown_teacher_check. vm_compute. reflexivity.
Defined.

Lemma http_errors_witness :
  fst (delete_announcement "not-an-id" (Some "jwilson") school)
  = HTTPException 400 "Invalid announcement id"
  ∧ ((400 = 400 ∧ "Invalid announcement id" = "Invalid announcement id")
     ∨ 400 = 401
     ∨ (400 = 404 ∧ "Invalid announcement id" = "Announcement not found")).
Proof.
  assert (fst (delete_announcement "not-an-id" (Some "jwilson") school)
          = HTTPException 400 "Invalid announcement id") as Hrun
    by by_evaluation.
  split; [exact Hrun|].
  destruct (http_errors "" "" None "not-an-id" None None None
              (Some "jwilson") None noon missing_id school 400
              "Invalid announcement id") as (_ & _ & Hdelete & _).
  apply Hdelete. exact Hrun.
Defined.

End FurtherExamples.

(** * The router on the finer platform *)

Section Milliseconds.
#[local] Existing Instance chronometer.

(** What comes back of a clock reading and of dates that reach beyond the
    millisecond. *)
Example tick_as_stored :
  isoformat tick = "2025-06-01T12:00:00.123456"
  ∧ isoformat (bson_date tick) = "2025-06-01T12:00:00.123000".
Proof. split; vm_compute; reflexivity. Qed.

Example create_at_tick_answer :
  fst create_at_tick
  = Return (<["id" := VStr "665f1c2e9b3a4d0012345678"]>
            (<["message" := VStr "Final exams start Monday"]>
            (<["start_date" := VStr "2025-06-02T08:30:00"]>
            (<["end_date" := VStr "2025-06-10T00:00:00.123000"]>
            (<["created_at" := VStr "2025-06-01T12:00:00.123000"]>
            (<["updated_at" := VStr "2025-06-01T12:00:00.123000"]> ∅)))))).
Proof. by_evaluation. Qed.

Example move_at_tock_answer :
  fst move_at_tock
  = Return (<["id" := VStr "665f1c2e9b3a4d0012345678"]>
            (<["message" := VStr "Final exams start Monday"]>
            (<["start_date" := VStr "2025-06-02T08:30:00"]>
            (<["end_date" := VStr "2025-06-11T00:00:00"]>
            (<["created_at" := VStr "2025-06-01T12:00:00.123000"]>
            (<["updated_at" := VStr "2025-06-02T09:00:00.999000"]> ∅)))))).
Proof. by_evaluation. Qed.

Lemma create_read_back_witness :
  ∃ stored e sd,
    find_one (by_id "665f1c2e9b3a4d0012345678")
      (announcements_collection (snd create_at_tick)) = Some stored
    ∧ answer_of create_at_tick = serialized stored
    ∧ fromisoformat "2025-06-10T00:00:00.123456" = Some e
    ∧ parsed (Some "2025-06-02T08:30:00.000999") sd
    ∧ stored !! "message" = Some (VStr (strip "  Final exams start Monday "))
    ∧ stored !! "start_date" = Some (opt_date (bson_date <$> sd))
    ∧ stored !! "end_date" = Some (VDate (bson_date e))
    ∧ answer_of create_at_tick !! "message"
      = Some (VStr (strip "  Final exams start Monday "))
    ∧ answer_of create_at_tick !! "start_date"
      = Some (iso_value (opt_date (bson_date <$> sd)))
    ∧ answer_of create_at_tick !! "end_date"
      = Some (VStr (isoformat (bson_date e)))
    ∧ (bson_date e = e →
       answer_of create_at_tick !! "end_date" = Some (VStr (isoformat e)))
    ∧ (bson_date <$> sd = sd →
       answer_of create_at_tick !! "start_date"
       = Some (iso_value (opt_date sd))).
Proof.
  apply (create_read_back "  Final exams start Monday "
           "2025-06-10T00:00:00.123456" (Some "2025-06-02T08:30:00.000999")
           (Some "jwilson") tick "665f1c2e9b3a4d0012345678" staff_room
           (answer_of create_at_tick) (snd create_at_tick)).
  by_evaluation.
Defined.

Lemma create_response_shape_witness :
  (∀ k : string, is_Some (answer_of create_at_tick !! k) ↔ k ∈ response_keys)
  ∧ answer_of create_at_tick !! "id"
    = Some (VStr (ObjectId_str "665f1c2e9b3a4d0012345678"))
  ∧ answer_of create_at_tick !! "created_at"
    = Some (VStr (isoformat (bson_date tick)))
  ∧ answer_of create_at_tick !! "updated_at"
    = Some (VStr (isoformat (bson_date tick)))
  ∧ (∀ (k : string) d, answer_of create_at_tick !! k ≠ Some (VDate d)).
Proof.
  apply (create_response_shape "  Final exams start Monday "
           "2025-06-10T00:00:00.123456" (Some "2025-06-02T08:30:00.000999")
           (Some "jwilson") tick "665f1c2e9b3a4d0012345678" staff_room
           (answer_of create_at_tick) (snd create_at_tick)).
  by_evaluation.
Defined.

Lemma update_response_fields_witness :
  (∃ oid, ObjectId_parse "665f1c2e9b3a4d0012345678" = Some oid
          ∧ answer_of move_at_tock !! "id" = Some (VStr (ObjectId_str oid)))
  ∧ answer_of move_at_tock !! "updated_at"
    = Some (VStr (isoformat (bson_date tock)))
  ∧ (∀ text, @None string = Some text →
             answer_of move_at_tock !! "message" = Some (VStr (strip text)))
  ∧ (∀ text d, @None string = Some text → fromisoformat text = Some d →
               answer_of move_at_tock !! "start_date"
               = Some (VStr (isoformat (bson_date d))))
  ∧ (∀ text d, Some "2025-06-11T00:00:00.000001" = Some text →
               fromisoformat text = Some d →
               answer_of move_at_tock !! "end_date"
               = Some (VStr (isoformat (bson_date d))))
  ∧ (∀ (k : string) d,
       k ∈ ["start_date"; "end_date"; "created_at"; "updated_at"] →
       answer_of move_at_tock !! k ≠ Some (VDate d)).
Proof.
  apply (update_response_fields "665f1c2e9b3a4d0012345678" None
           (Some "2025-06-11T00:00:00.000001") None (Some "jwilson") tock
           (snd create_at_tick) (answer_of move_at_tock) (snd move_at_tock)).
  by_evaluation.
Defined.

End Milliseconds.
